(** * Attention-augmented convolution layer ([attn_augconv.py])

    A shallow embedding of the [AttentionAugmentation] Keras layer and of the
    backend tensor operations it calls, followed by the properties of its
    forward pass.

    Tensors are dense row-major arrays: a shape (list of extents) and the list
    of elements in row-major order.  [K.reshape] keeps the element list and
    changes the shape; every other backend operation is given by the element
    it puts at each output multi-index.  Python integers are [Z]; extents of
    an existing tensor are [nat].  Floating-point scalars are kept abstract
    (class [Scalar]).  The configuration dictionary of [get_config] is a list
    of items in insertion order. *)

From Stdlib Require Import List ZArith Lia Bool Arith PeanoNat.
From Stdlib Require String.
Import ListNotations.
Import String.StringSyntax.
Delimit Scope string_scope with string.

Set Implicit Arguments.

(** ** Errors and the result monad *)

Inductive error : Type :=
| ValueError            (* Python ValueError: explicit raise, bad unpacking *)
| TypeError             (* Python TypeError / AttributeError: None or complex operand *)
| IndexError            (* Python list index out of range *)
| ZeroDivisionError     (* Python division by zero, 0.0 ** negative *)
| InvalidArgumentError. (* TensorFlow shape check of an operation *)

Inductive result (X : Type) : Type :=
| Ok (x : X)
| Err (e : error).

Arguments Ok {X} x.
Arguments Err {X} e.

Definition rbind {X Y : Type} (r : result X) (k : X -> result Y) : result Y :=
  match r with
  | Ok x => k x
  | Err e => Err e
  end.

Declare Scope result_scope.
Delimit Scope result_scope with result.
Notation "x <- r ;; k" := (rbind r (fun x => k))
  (at level 61, r at next level, right associativity) : result_scope.
Notation "' p <- r ;; k" := (rbind r (fun p => k))
  (at level 61, p pattern, r at next level, right associativity) : result_scope.
Open Scope result_scope.

(** ** Abstract floating-point scalars *)

Class Scalar (R : Type) : Type := {
  fzero : R;
  fadd : R -> R -> R;
  fsub : R -> R -> R;
  fmul : R -> R -> R;
  fdiv : R -> R -> R;
  fmax : R -> R -> R;
  fexp : R -> R;
  (* [frsqrt a b] is the float [(a / b) ** -0.5] for integers with [a / b > 0] *)
  frsqrt : Z -> Z -> R
}.

(** ** Row-major indexing *)

Definition size (s : list nat) : nat := fold_right Nat.mul 1 s.

(* flat offset of a multi-index in a row-major array of shape [s] *)
Fixpoint ravel (s idx : list nat) : nat :=
  match s, idx with
  | _ :: s', i :: idx' => i * size s' + ravel s' idx'
  | _, _ => 0
  end.

(* multi-index of a flat offset *)
Fixpoint unravel (s : list nat) (k : nat) : list nat :=
  match s with
  | [] => []
  | _ :: s' => k / size s' :: unravel s' (k mod size s')
  end.

Definition in_bounds (s idx : list nat) : Prop := Forall2 (fun d i => i < d) s idx.

(* a requested shape [zs] (Python integers) denotes the extents [s] *)
Definition same_extents (zs : list Z) (s : list nat) : Prop :=
  Forall2 (fun z n => z = Z.of_nat n) zs s.

Section Tensors.

Context {R : Type} `{Scalar R}.

Record tensor : Type := mkT { shape : list nat; data : list R }.

Definition wf (t : tensor) : Prop := length (data t) = size (shape t).

Definition get (t : tensor) (idx : list nat) : R :=
  nth (ravel (shape t) idx) (data t) fzero.

(* the tensor of shape [s] whose element at multi-index [idx] is [f idx] *)
Definition build_tensor (s : list nat) (f : list nat -> R) : tensor :=
  mkT s (map (fun k => f (unravel s k)) (seq 0 (size s))).

(** *** Python-side helpers *)

(* an extent given as a Python integer: negative extents are rejected *)
Definition to_extent (z : Z) : result nat :=
  if (z <? 0)%Z then Err InvalidArgumentError else Ok (Z.to_nat z).

Fixpoint to_shape (zs : list Z) : result (list nat) :=
  match zs with
  | [] => Ok []
  | z :: zs' => d <- to_extent z ;; s <- to_shape zs' ;; Ok (d :: s)
  end.

(* [l[i]] for a Python list and a non-negative literal index *)
Definition py_index {X : Type} (l : list X) (i : nat) : result X :=
  match nth_error l i with
  | Some x => Ok x
  | None => Err IndexError
  end.

(* Python [a // b] and [a / b] raise on a zero divisor *)
Definition floordiv (a b : Z) : result Z :=
  if (b =? 0)%Z then Err ZeroDivisionError else Ok (a / b)%Z.

Fixpoint set_nth (l : list nat) (n v : nat) : list nat :=
  match l, n with
  | [], _ => []
  | _ :: l', 0 => v :: l'
  | x :: l', S n' => x :: set_nth l' n' v
  end.

Fixpoint list_eqb (a b : list nat) : bool :=
  match a, b with
  | [], [] => true
  | x :: a', y :: b' => (x =? y) && list_eqb a' b'
  | _, _ => false
  end.

Fixpoint index_of (j : nat) (l : list nat) : nat :=
  match l with
  | [] => 0
  | x :: l' => if x =? j then 0 else S (index_of j l')
  end.

Definition map2 {X Y Z0 : Type} (f : X -> Y -> Z0) (a : list X) (b : list Y) : list Z0 :=
  map (fun p => f (fst p) (snd p)) (combine a b).

(* left-to-right sum of [f 0 .. f (n-1)] *)
Definition fsum (n : nat) (f : nat -> R) : R :=
  fold_left (fun acc d => fadd acc (f d)) (seq 0 n) fzero.

(** *** Backend operations ([K.*], [tf.*]) *)

(* [K.shape(x)]: the extents as integers *)
Definition K_shape (t : tensor) : list Z := map Z.of_nat (shape t).

(* [K.zeros(shape)] *)
Definition K_zeros (zs : list Z) : result tensor :=
  s <- to_shape zs ;; Ok (build_tensor s (fun _ => fzero)).

(* the [-1] entries of a requested shape and the product of the others *)
Definition count_infer (zs : list Z) : nat :=
  length (filter (fun z => (z =? -1)%Z) zs).

Definition known_dims (zs : list Z) : list Z :=
  filter (fun z => negb (z =? -1)%Z) zs.

Definition fill_infer (zs : list Z) (v : nat) : list Z :=
  map (fun z => if (z =? -1)%Z then Z.of_nat v else z) zs.

(* [K.reshape(x, shape)]: same elements in the same row-major order; at most
   one extent may be [-1] and is then inferred from the element count *)
Definition K_reshape (t : tensor) (zs : list Z) : result tensor :=
  let n := size (shape t) in
  match count_infer zs with
  | 0 =>
      s <- to_shape zs ;;
      if size s =? n then Ok (mkT s (data t)) else Err InvalidArgumentError
  | 1 =>
      ks <- to_shape (known_dims zs) ;;
      let p := size ks in
      if p =? 0 then Err InvalidArgumentError
      else if n mod p =? 0 then
        s <- to_shape (fill_infer zs (n / p)) ;; Ok (mkT s (data t))
      else Err InvalidArgumentError
  | _ => Err InvalidArgumentError
  end.

Definition is_permutation (perm : list nat) (r : nat) : bool :=
  (length perm =? r) && forallb (fun j => existsb (Nat.eqb j) perm) (seq 0 r).

(* [K.permute_dimensions(x, pattern)]: output axis [k] is input axis
   [pattern[k]] *)
Definition K_permute_dimensions (t : tensor) (pattern : list nat) : result tensor :=
  let r := length (shape t) in
  if is_permutation pattern r then
    Ok (build_tensor (map (fun p => nth p (shape t) 0) pattern)
          (fun idx => get t (map (fun j => nth (index_of j pattern) idx 0) (seq 0 r))))
  else Err InvalidArgumentError.

(* [K.concatenate([a, b], axis)] *)
Definition K_concatenate (a b : tensor) (axis : nat) : result tensor :=
  let sa := shape a in
  let sb := shape b in
  if (axis <? length sa) && list_eqb (set_nth sa axis 0) (set_nth sb axis 0) then
    let da := nth axis sa 0 in
    Ok (build_tensor (set_nth sa axis (da + nth axis sb 0))
          (fun idx =>
             let i := nth axis idx 0 in
             if i <? da then get a idx else get b (set_nth idx axis (i - da))))
  else Err InvalidArgumentError.

(* a Python slice bound on an axis of extent [d]: negative bounds count from
   the end, and the result is clamped to [0, d] *)
Definition clamp_index (d : nat) (i : Z) : nat :=
  if (i <? 0)%Z then Z.to_nat (Z.max 0 (Z.of_nat d + i)) else Nat.min (Z.to_nat i) d.

(* [x[..., start:stop, ...]] on one axis, [:] on the others *)
Definition slice_axis (t : tensor) (axis : nat) (start stop : option Z) : result tensor :=
  if axis <? length (shape t) then
    let d := nth axis (shape t) 0 in
    let lo := match start with None => 0 | Some i => clamp_index d i end in
    let hi := match stop with None => d | Some i => clamp_index d i end in
    Ok (build_tensor (set_nth (shape t) axis (hi - lo))
          (fun idx => get t (set_nth idx axis (nth axis idx 0 + lo))))
  else Err InvalidArgumentError.

(* the block [off, off+n) of the last axis *)
Definition slice_last (t : tensor) (off n : nat) : tensor :=
  let a := length (shape t) - 1 in
  build_tensor (set_nth (shape t) a n)
    (fun idx => get t (set_nth idx a (nth a idx 0 + off))).

Fixpoint split_from (t : tensor) (off : nat) (sizes : list nat) : list tensor :=
  match sizes with
  | [] => []
  | n :: rest => slice_last t off n :: split_from t (off + n) rest
  end.

(* [tf.split(x, size_splits, axis=-1)] *)
Definition tf_split (t : tensor) (size_splits : list Z) : result (list tensor) :=
  match rev (shape t) with
  | [] => Err InvalidArgumentError
  | d :: _ =>
      match count_infer size_splits with
      | 0 =>
          ns <- to_shape size_splits ;;
          if list_sum ns =? d then Ok (split_from t 0 ns) else Err InvalidArgumentError
      | 1 =>
          ks <- to_shape (known_dims size_splits) ;;
          if list_sum ks <=? d then
            ns <- to_shape (fill_infer size_splits (d - list_sum ks)) ;;
            Ok (split_from t 0 ns)
          else Err InvalidArgumentError
      | _ => Err InvalidArgumentError
      end
  end.

(* [tf.einsum('bhxyd,md->bhxym', q, rel_k)] *)
Definition tf_einsum_bhxyd_md (q rel_k : tensor) : result tensor :=
  match shape q, shape rel_k with
  | [b; h; x; y; d], [m; d'] =>
      if d =? d' then
        Ok (build_tensor [b; h; x; y; m]
              (fun idx =>
                 match idx with
                 | [ib; ih; ix; iy; im] =>
                     fsum d (fun c => fmul (get q [ib; ih; ix; iy; c]) (get rel_k [im; c]))
                 | _ => fzero
                 end))
      else Err InvalidArgumentError
  | _, _ => Err InvalidArgumentError
  end.

(* the extent two batch axes broadcast to *)
Definition bcast_dim (x y : nat) : result nat :=
  if x =? y then Ok x
  else if x =? 1 then Ok y
  else if y =? 1 then Ok x
  else Err InvalidArgumentError.

(* [tf.matmul(a, b, transpose_b=...)] on the rank-4 operands of the layer:
   the two leading (batch) axes broadcast, an operand of batch extent 1 being
   read at index 0 *)
Definition tf_matmul (a b : tensor) (transpose_b : bool) : result tensor :=
  match shape a, shape b with
  | [a0; a1; n; k], [b0; b1; p; q] =>
      let k' := if transpose_b then q else p in
      let m := if transpose_b then p else q in
      if k =? k' then
        c0 <- bcast_dim a0 b0 ;;
        c1 <- bcast_dim a1 b1 ;;
        Ok (build_tensor [c0; c1; n; m]
              (fun idx =>
                 match idx with
                 | [i0; i1; i; j] =>
                     let ia0 := if a0 =? 1 then 0 else i0 in
                     let ia1 := if a1 =? 1 then 0 else i1 in
                     let ib0 := if b0 =? 1 then 0 else i0 in
                     let ib1 := if b1 =? 1 then 0 else i1 in
                     fsum k (fun c =>
                       fmul (get a [ia0; ia1; i; c])
                            (get b (if transpose_b then [ib0; ib1; j; c]
                                    else [ib0; ib1; c; j])))
                 | _ => fzero
                 end))
      else Err InvalidArgumentError
  | _, _ => Err InvalidArgumentError
  end.

(* broadcast of two shapes, innermost axis first *)
Fixpoint bcast_rev (a b : list nat) : result (list nat) :=
  match a, b with
  | [], _ => Ok b
  | _, [] => Ok a
  | x :: a', y :: b' =>
      if x =? y then s <- bcast_rev a' b' ;; Ok (x :: s)
      else if x =? 1 then s <- bcast_rev a' b' ;; Ok (y :: s)
      else if y =? 1 then s <- bcast_rev a' b' ;; Ok (x :: s)
      else Err InvalidArgumentError
  end.

Definition bcast_shape (a b : list nat) : result (list nat) :=
  s <- bcast_rev (rev a) (rev b) ;; Ok (rev s).

(* the index an operand of shape [s] is read at, for an output index [idx] *)
Definition bcast_index (s idx : list nat) : list nat :=
  map2 (fun d i => if d =? 1 then 0 else i) s (skipn (length idx - length s) idx).

(* [a + b] with broadcasting (the [+=] of the forward pass) *)
Definition tf_add (a b : tensor) : result tensor :=
  s <- bcast_shape (shape a) (shape b) ;;
  Ok (build_tensor s
        (fun idx => fadd (get a (bcast_index (shape a) idx))
                         (get b (bcast_index (shape b) idx)))).

(* [x * c] for a Python float [c] (the [*=] of the forward pass) *)
Definition tf_scale (t : tensor) (c : R) : tensor :=
  mkT (shape t) (map (fun v => fmul v c) (data t)).

(* softmax of one row, subtracting the row maximum before exponentiating *)
Definition softmax_row (row : list R) : list R :=
  let m := fold_right fmax (hd fzero row) row in
  let e := map (fun v => fexp (fsub v m)) row in
  let s := fold_left fadd e fzero in
  map (fun v => fdiv v s) e.

(* [K.softmax(x, axis=-1)] *)
Definition K_softmax (t : tensor) : result tensor :=
  match rev (shape t) with
  | [] => Err InvalidArgumentError
  | n :: _ =>
      Ok (build_tensor (shape t)
            (fun idx =>
               let a := length idx - 1 in
               let row := map (fun j => get t (set_nth idx a j)) (seq 0 n) in
               nth (nth a idx 0) (softmax_row row) fzero))
  end.

(* [K.expand_dims(x, axis)] for a non-negative axis *)
Definition K_expand_dims (t : tensor) (axis : nat) : result tensor :=
  if axis <=? length (shape t) then
    Ok (mkT (firstn axis (shape t) ++ 1 :: skipn axis (shape t)) (data t))
  else Err InvalidArgumentError.

(* [K.tile(x, n)] *)
Definition K_tile (t : tensor) (n : list Z) : result tensor :=
  ms <- to_shape n ;;
  if length ms =? length (shape t) then
    Ok (build_tensor (map2 Nat.mul (shape t) ms)
          (fun idx => get t (map2 (fun i d => i mod d) idx (shape t))))
  else Err InvalidArgumentError.

(** ** The layer *)

(* the values a caller may pass for [depth_k] and [depth_v]; only [type(v)
   == int] matters to the constructor *)
Inductive pyval : Type :=
| PyInt (z : Z)
| PyFloat (num den : Z)
| PyNone
| PyStr.

(* [K.image_data_format()], read once by the constructor *)
Inductive data_format : Type := channels_first | channels_last.

Record Layer : Type := mkLayer {
  strides : Z * Z;
  depth_k : Z;
  depth_v : Z;
  num_heads : Z;
  relative : bool;
  axis : Z;
  _shape : option (list (option Z));
  key_relative_w : option tensor;
  key_relative_h : option tensor;
  _batch : option Z;
  _height : option Z;
  _width : option Z
}.

(* attribute assignments on [self] *)
Definition set_shape (l : Layer) (shp : list (option Z)) : Layer :=
  mkLayer (strides l) (depth_k l) (depth_v l) (num_heads l) (relative l) (axis l)
    (Some shp) (key_relative_w l) (key_relative_h l) (_batch l) (_height l) (_width l).

Definition set_tables (l : Layer) (krw krh : option tensor) : Layer :=
  mkLayer (strides l) (depth_k l) (depth_v l) (num_heads l) (relative l) (axis l)
    (_shape l) krw krh (_batch l) (_height l) (_width l).

Definition set_spatial (l : Layer) (batch height width : option Z) : Layer :=
  mkLayer (strides l) (depth_k l) (depth_v l) (num_heads l) (relative l) (axis l)
    (_shape l) (key_relative_w l) (key_relative_h l) batch height width.

(* methods that assign to [self]: the layer is threaded through *)
Definition M (X : Type) : Type := Layer -> result (X * Layer).

Definition ret {X : Type} (x : X) : M X := fun l => Ok (x, l).

Definition bind {X Y : Type} (m : M X) (k : X -> M Y) : M Y :=
  fun l => match m l with
           | Ok (x, l') => k x l'
           | Err e => Err e
           end.

Definition lift {X : Type} (r : result X) : M X :=
  fun l => match r with
           | Ok x => Ok (x, l)
           | Err e => Err e
           end.

Definition self : M Layer := fun l => Ok (l, l).

(* reading an attribute that may still be unset or [None] *)
Definition attr {X : Type} (o : option X) : result X :=
  match o with
  | Some x => Ok x
  | None => Err TypeError
  end.

Fixpoint mapM {X Y : Type} (f : X -> result Y) (l : list X) : result (list Y) :=
  match l with
  | [] => Ok []
  | x :: l' => y <- f x ;; ys <- mapM f l' ;; Ok (y :: ys)
  end.

(* [AttentionAugmentation.__init__]: [num_heads], [relative] and [strides]
   are stored as given; the data format is the ambient Keras setting *)
Definition __init__ (depth_k depth_v : pyval) (num_heads : Z) (relative : bool)
    (strides : Z * Z) (fmt : data_format) : result Layer :=
  match depth_k with
  | PyInt dk =>
      match depth_v with
      | PyInt dv =>
          Ok (mkLayer strides dk dv num_heads relative
                (match fmt with channels_first => 1 | channels_last => -1 end)%Z
                None None None None None None)
      | _ => Err ValueError
      end
  | _ => Err ValueError
  end.

(* [dk_heads ** -0.5], the standard deviation of the initializer: Python
   raises on [0 ** -0.5]; a negative base gives a complex number, which no
   initializer accepts *)
Definition int_rsqrt (n : Z) : result R :=
  if (n =? 0)%Z then Err ZeroDivisionError
  else if (n <? 0)%Z then Err TypeError
  else Ok (frsqrt n 1).

(* [self.add_weight(name, shape, initializer)]: [sample k] is the value the
   initializer draws for the element at flat offset [k] *)
Definition add_weight (shp : list Z) (sample : nat -> R) : result tensor :=
  s <- to_shape shp ;;
  Ok (build_tensor s (fun idx => sample (ravel s idx))).

(* [AttentionAugmentation.build]: [sample_w sd] and [sample_h sd] stand for
   the draws of [RandomNormal(stddev=sd)] for the two tables *)
Definition build (l : Layer) (input_shape : list (option Z))
    (sample_w sample_h : R -> nat -> R) : result Layer :=
  let l := set_shape l input_shape in
  '(height, width) <-
     match input_shape with
     | [_; a; b; c] => if (axis l =? 1)%Z then Ok (b, c) else Ok (a, b)
     | _ => Err ValueError
     end ;;
  if relative l then
    dk_heads <- floordiv (depth_k l) (num_heads l) ;;
    w <- attr width ;;
    sd <- int_rsqrt dk_heads ;;
    krw <- add_weight [2 * w - 1; dk_heads]%Z (sample_w sd) ;;
    h <- attr height ;;
    sd <- int_rsqrt dk_heads ;;
    krh <- add_weight [2 * h - 1; dk_heads]%Z (sample_h sd) ;;
    Ok (set_tables l (Some krw) (Some krh))
  else
    Ok (set_tables l None None).

(* [AttentionAugmentation.compute_output_shape] *)
Definition compute_output_shape (l : Layer) (input_shape : list (option Z))
    : result (list (option Z)) :=
  let n := length input_shape in
  let i := if (axis l =? 1)%Z then 1 else n - 1 in
  if i <? n then
    Ok (firstn i input_shape ++ Some (depth_v l) :: skipn (S i) input_shape)
  else Err IndexError.

(* [AttentionAugmentation.split_heads_2d] *)
Definition split_heads_2d (ip : tensor) : M tensor :=
  fun l =>
    let tensor_shape := K_shape ip in
    shp <- attr (_shape l) ;;
    tensor_shape <- mapM (py_index tensor_shape) (seq 0 (length shp)) ;;
    batch <- py_index tensor_shape 0 ;;
    height <- py_index tensor_shape 1 ;;
    width <- py_index tensor_shape 2 ;;
    channels <- py_index tensor_shape 3 ;;
    let l := set_spatial l (Some batch) (Some height) (Some width) in
    per_head <- floordiv channels (num_heads l) ;;
    split <- K_reshape ip [batch; height; width; num_heads l; per_head] ;;
    split <- K_permute_dimensions split [0; 3; 1; 2; 4] ;;
    Ok (split, l).

(* [AttentionAugmentation.rel_to_abs] *)
Definition rel_to_abs (x : tensor) : result tensor :=
  let shp := K_shape x in
  B <- py_index shp 0 ;;
  Nh <- py_index shp 1 ;;
  L <- py_index shp 2 ;;
  col_pad <- K_zeros [B; Nh; L; 1]%Z ;;
  x <- K_concatenate x col_pad 3 ;;
  flat_x <- K_reshape x [B; Nh; L * 2 * L]%Z ;;
  flat_pad <- K_zeros [B; Nh; L - 1]%Z ;;
  flat_x_padded <- K_concatenate flat_x flat_pad 2 ;;
  final_x <- K_reshape flat_x_padded [B; Nh; L + 1; 2 * L - 1]%Z ;;
  (* final_x[:, :, :L, L - 1:] *)
  final_x <- slice_axis final_x 2 None (Some L) ;;
  slice_axis final_x 3 (Some (L - 1)%Z) None.

(* [AttentionAugmentation.relative_logits_1d] *)
Definition relative_logits_1d (l : Layer) (q : tensor) (rel_k : option tensor)
    (H0 W : Z) (transpose_mask : list nat) : result tensor :=
  rel_k <- attr rel_k ;;
  rel_logits <- tf_einsum_bhxyd_md q rel_k ;;
  rel_logits <- K_reshape rel_logits [-1; num_heads l * H0; W; 2 * W - 1]%Z ;;
  rel_logits <- rel_to_abs rel_logits ;;
  rel_logits <- K_reshape rel_logits [-1; num_heads l; H0; W; W]%Z ;;
  rel_logits <- K_expand_dims rel_logits 3 ;;
  rel_logits <- K_tile rel_logits [1; 1; 1; H0; 1; 1]%Z ;;
  rel_logits <- K_permute_dimensions rel_logits transpose_mask ;;
  K_reshape rel_logits [-1; num_heads l; H0 * W; H0 * W]%Z.

(* [AttentionAugmentation.relative_logits]: returns [(rel_logits_h, rel_logits_w)] *)
Definition relative_logits (l : Layer) (q : tensor) : result (tensor * tensor) :=
  let shp := K_shape q in
  shp <- mapM (py_index shp) (seq 0 5) ;;
  height <- py_index shp 2 ;;
  width <- py_index shp 3 ;;
  rel_logits_w <- relative_logits_1d l q (key_relative_w l) height width [0; 1; 2; 4; 3; 5] ;;
  qT <- K_permute_dimensions q [0; 1; 3; 2; 4] ;;
  rel_logits_h <- relative_logits_1d l qT (key_relative_h l) width height [0; 1; 4; 2; 5; 3] ;;
  Ok (rel_logits_h, rel_logits_w).

(* [AttentionAugmentation.combine_heads_2d] *)
Definition combine_heads_2d (inputs : tensor) : result tensor :=
  transposed <- K_permute_dimensions inputs [0; 2; 3; 1; 4] ;;
  let shp := K_shape transposed in
  shp <- mapM (py_index shp) (seq 0 5) ;;
  match shp with
  | [s0; s1; s2; a; b] => K_reshape transposed [s0; s1; s2; a * b]%Z
  | _ => Err ValueError
  end.

(* [depth_k_heads ** -0.5] with [depth_k_heads = depth_k / num_heads] (true
   division): Python raises on a zero divisor and on [0.0 ** -0.5]; a negative
   quotient gives a complex number, which cannot scale a float tensor *)
Definition query_scale (dk nh : Z) : result R :=
  if (nh =? 0)%Z then Err ZeroDivisionError
  else if (dk =? 0)%Z then Err ZeroDivisionError
  else if xorb (dk <? 0)%Z (nh <? 0)%Z then Err TypeError
  else Ok (frsqrt dk nh).

Notation "x <-- m ;; k" := (bind m (fun x => k))
  (at level 61, m at next level, right associativity).
Notation "' p <-- m ;; k" := (bind m (fun p => k))
  (at level 61, p pattern, m at next level, right associativity).

(* [call], lines 59-77: layout normalisation, the q/k/v split, the three head
   splits, the query scaling and the flattening of the spatial axes; returns
   the scaled [q] and [flat_q], [flat_k], [flat_v] *)
Definition project_heads (inputs : tensor) : M (tensor * tensor * tensor * tensor) :=
  l <-- self ;;
  inputs <-- lift (if (axis l =? 1)%Z
                   then K_permute_dimensions inputs [0; 2; 3; 1]
                   else Ok inputs) ;;
  qkv <-- lift (tf_split inputs [depth_k l; depth_k l; depth_v l]) ;;
  match qkv with
  | [q; k; v] =>
      q <-- split_heads_2d q ;;
      k <-- split_heads_2d k ;;
      v <-- split_heads_2d v ;;
      c <-- lift (query_scale (depth_k l) (num_heads l)) ;;
      let q := tf_scale q c in
      l <-- self ;;
      batch <-- lift (attr (_batch l)) ;;
      height <-- lift (attr (_height l)) ;;
      width <-- lift (attr (_width l)) ;;
      dkh <-- lift (floordiv (depth_k l) (num_heads l)) ;;
      flat_q <-- lift (K_reshape q [batch; num_heads l; height * width; dkh]%Z) ;;
      flat_k <-- lift (K_reshape k [batch; num_heads l; height * width; dkh]%Z) ;;
      dvh <-- lift (floordiv (depth_v l) (num_heads l)) ;;
      flat_v <-- lift (K_reshape v [batch; num_heads l; height * width; dvh]%Z) ;;
      ret (q, flat_q, flat_k, flat_v)
  | _ => lift (Err ValueError)
  end.

(* [call], lines 82-85 *)
Definition add_relative (q logits : tensor) : M tensor :=
  l <-- self ;;
  if relative l then
    lift ('(h_rel_logits, w_rel_logits) <- relative_logits l q ;;
          logits <- tf_add logits h_rel_logits ;;
          tf_add logits w_rel_logits)
  else ret logits.

(* [call], lines 87-100 *)
Definition aggregate (logits flat_v : tensor) : M tensor :=
  weights <-- lift (K_softmax logits) ;;
  attn_out <-- lift (tf_matmul weights flat_v false) ;;
  l <-- self ;;
  batch <-- lift (attr (_batch l)) ;;
  height <-- lift (attr (_height l)) ;;
  width <-- lift (attr (_width l)) ;;
  dvh <-- lift (floordiv (depth_v l) (num_heads l)) ;;
  attn_out <-- lift (K_reshape attn_out [batch; num_heads l; height; width; dvh]) ;;
  attn_out <-- lift (combine_heads_2d attn_out) ;;
  lift (if (axis l =? 1)%Z
        then K_permute_dimensions attn_out [0; 3; 1; 2]
        else Ok attn_out).

(* the content logits of line 80, with [flat_v] *)
Definition content_logits (inputs : tensor) : M (tensor * tensor * tensor) :=
  '(q, flat_q, flat_k, flat_v) <-- project_heads inputs ;;
  logits <-- lift (tf_matmul flat_q flat_k true) ;;
  ret (q, logits, flat_v).

(* the logits handed to [K.softmax] on line 87, with [flat_v] *)
Definition softmax_input (inputs : tensor) : M (tensor * tensor) :=
  '(q, logits, flat_v) <-- content_logits inputs ;;
  logits <-- add_relative q logits ;;
  ret (logits, flat_v).

(* [AttentionAugmentation.call] *)
Definition call (inputs : tensor) : M tensor :=
  '(logits, flat_v) <-- softmax_input inputs ;;
  aggregate logits flat_v.

(* the forward pass without any positional term: content logits, softmax,
   aggregation *)
Definition content_only_attention (inputs : tensor) : M tensor :=
  '(_, logits, flat_v) <-- content_logits inputs ;;
  aggregate logits flat_v.

(* the two transpose masks [relative_logits] passes *)
Definition mask_w : list nat := [0; 1; 2; 4; 3; 5].
Definition mask_h : list nat := [0; 1; 4; 2; 5; 3].

(* what [call] expects of a layer: built for channels-last inputs, with
   [n] heads of [d] key channels and [e] value channels each *)
Record configured (l : Layer) (n d e : nat) : Prop := {
  cfg_axis : axis l = (-1)%Z;
  cfg_shape : exists shp, _shape l = Some shp /\ length shp = 4;
  cfg_heads : num_heads l = Z.of_nat n;
  cfg_dk : depth_k l = Z.of_nat (n * d);
  cfg_dv : depth_v l = Z.of_nat (n * e);
  cfg_n : 0 < n;
  cfg_d : 0 < d
}.

(* the relative-embedding tables are present and sized for extents [H1] x [W1] *)
Definition tables_sized (l : Layer) (H1 W1 d : nat) : Prop :=
  exists krw krh,
    key_relative_w l = Some krw /\ key_relative_h l = Some krh /\
    shape krw = [2 * W1 - 1; d] /\ shape krh = [2 * H1 - 1; d] /\
    wf krw /\ wf krh.

(* the layer after a step: only the recorded batch and spatial extents differ *)
Definition same_params (l l' : Layer) : Prop :=
  exists b h w, l' = set_spatial l b h w.

End Tensors.

Arguments tensor R : clear implicits.
Arguments Layer R : clear implicits.

(** ** The channels-first pass *)

Section ChannelsFirst.

Context {R : Type} `{Scalar R}.

(* the same layer under another data format *)
Definition set_axis (l : Layer R) (a : Z) : Layer R :=
  mkLayer (strides l) (depth_k l) (depth_v l) (num_heads l) (relative l) a
    (_shape l) (key_relative_w l) (key_relative_h l) (_batch l) (_height l) (_width l).

(* a change applied to the layer a method leaves behind *)
Definition map_state {X : Type} (f : Layer R -> Layer R) (r : result (X * Layer R))
    : result (X * Layer R) :=
  match r with
  | Ok (v, l) => Ok (v, f l)
  | Err e => Err e
  end.

(* [call] on a channels-first layer, written with the channels-last pass *)
Definition call_transposed (x : tensor R) (l : Layer R) : result (tensor R * Layer R) :=
  x' <- K_permute_dimensions x [0; 2; 3; 1] ;;
  '(y', l1) <- call x' (set_axis l (-1)) ;;
  y <- K_permute_dimensions y' [0; 3; 1; 2] ;;
  Ok (y, set_axis l1 1).

End ChannelsFirst.

(** ** The layer configuration *)

(* the values of a layer configuration *)
Inductive cfgval : Type :=
| CInt (z : Z)
| CBool (b : bool)
| CPair (a b : Z)
| CStr (s : String.string)
| CNone.

(* a Python [dict] with string keys: its items in insertion order *)
Definition pydict : Type := list (String.string * cfgval).

(* [d[k]] as [d.get(k)] *)
Fixpoint dict_get (d : pydict) (k : String.string) : option cfgval :=
  match d with
  | [] => None
  | (k', v) :: d' => if String.eqb k' k then Some v else dict_get d' k
  end.

(* [d[k] = v]: an existing key keeps its position *)
Fixpoint dict_set (d : pydict) (k : String.string) (v : cfgval) : pydict :=
  match d with
  | [] => [(k, v)]
  | (k', v') :: d' =>
      if String.eqb k' k then (k', v) :: d' else (k', v') :: dict_set d' k v
  end.

(* [dict(items)] *)
Definition dict_of_items (items : list (String.string * cfgval)) : pydict :=
  fold_left (fun d kv => dict_set d (fst kv) (snd kv)) items [].

(* the keys [get_config] writes itself *)
Definition config_keys : list String.string :=
  ["depth_k"; "depth_v"; "num_heads"; "relative"; "strides"]%string.

Section Config.

Context {R : Type} `{Scalar R}.

(* [AttentionAugmentation.get_config]; [base_config] is what the base class
   returns *)
Definition get_config (l : Layer R) (base_config : pydict) : pydict :=
  let config :=
    [("depth_k"%string, CInt (depth_k l));
     ("depth_v"%string, CInt (depth_v l));
     ("num_heads"%string, CInt (num_heads l));
     ("relative"%string, CBool (relative l));
     ("strides"%string, CPair (fst (strides l)) (snd (strides l)))] in
  dict_of_items (base_config ++ config).

End Config.

(** ** The ambient backend state and the dtypes of the forward pass *)










(** ** A concrete scalar instance for running the model *)

#[local] Instance Scalar_Z : Scalar Z := {|
  fzero := 0%Z;
  fadd := Z.add;
  fsub := Z.sub;
  fmul := Z.mul;
  fdiv := Z.div;
  fmax := Z.max;
  fexp := fun z => z;
  frsqrt := fun a b => (a / b)%Z
|}.

(* the tensor of shape [s] holding 0, 1, 2, ... in row-major order *)
Definition iota_tensor (s : list nat) : tensor Z :=
  mkT s (map Z.of_nat (seq 0 (size s))).

(* the value a test initializer draws for the element at flat offset [k] *)
Definition ramp (_ : Z) (k : nat) : Z := Z.of_nat k.

(* the layer [__init__] returns for integer depths under channels-last *)
Definition fresh_layer (dk dv nh : Z) (rel : bool) : Layer Z :=
  mkLayer (1, 1)%Z dk dv nh rel (-1)%Z None None None None None None.

(* that layer after [build] on inputs of extent [H0] x [W] *)
Definition built_layer (dk dv nh : Z) (rel : bool) (H0 W : Z) : Layer Z :=
  match build (fresh_layer dk dv nh rel)
          [None; Some H0; Some W; Some (2 * dk + dv)%Z] ramp ramp with
  | Ok l => l
  | Err _ => fresh_layer dk dv nh rel
  end.

(* the layer [__init__] returns for integer depths under channels-first *)
Definition fresh_layer_cf (dk dv nh : Z) (rel : bool) : Layer Z :=
  mkLayer (1, 1)%Z dk dv nh rel 1%Z None None None None None None.

(* that layer after [build] on inputs of extent [H0] x [W] *)
Definition built_layer_cf (dk dv nh : Z) (rel : bool) (H0 W : Z) : Layer Z :=
  match build (fresh_layer_cf dk dv nh rel)
          [None; Some (2 * dk + dv)%Z; Some H0; Some W] ramp ramp with
  | Ok l => l
  | Err _ => fresh_layer_cf dk dv nh rel
  end.

(* what the base class reports for a layer named [attn] *)
Definition base_config_attn : pydict :=
  [("name"%string, CStr "attn"%string); ("trainable"%string, CBool true)].

(* an axis whose table was sized for extent [E1] when the call has extent
   [E0]: the extents differ and the [B] tables of [2 E1 - 1] rows are not the
   one table of [2 E0 - 1] rows a single image would need *)
Definition extent_rejected (B E1 E0 : nat) : Prop :=
  E0 <> E1 /\ B * (2 * E1 - 1) <> 2 * E0 - 1.

(** * Properties *)

(** ** Row-major indexing *)

Lemma size_cons (d : nat) (s : list nat) : size (d :: s) = d * size s.
Proof. reflexivity. Qed.

Lemma ravel_lt (s idx : list nat) : in_bounds s idx -> ravel s idx < size s.
Proof.
  induction 1 as [|d i s idx Hi _ IH]; simpl; [lia|].
  fold (size s). nia.
Qed.

Lemma unravel_ravel (s idx : list nat) :
  in_bounds s idx -> unravel s (ravel s idx) = idx.
Proof.
  induction 1 as [|d i s idx Hi Hb IH]; simpl; [reflexivity|].
  pose proof (ravel_lt Hb) as Hlt.
  assert (Hq : (i * size s + ravel s idx) / size s = i).
  { rewrite Nat.add_comm, Nat.div_add by lia.
    rewrite Nat.div_small by assumption. reflexivity. }
  assert (Hr : (i * size s + ravel s idx) mod size s = ravel s idx).
  { rewrite Nat.add_comm, Nat.Div0.mod_add.
    apply Nat.mod_small; assumption. }
  rewrite Hq, Hr, IH. reflexivity.
Qed.

Lemma unravel_in_bounds (s : list nat) :
  forall k, k < size s -> in_bounds s (unravel s k).
Proof.
  induction s as [|d s IH]; intros k Hk; simpl; [constructor|].
  rewrite size_cons in Hk.
  assert (Hs : 0 < size s) by (destruct (size s); lia).
  constructor.
  - apply Nat.Div0.div_lt_upper_bound. lia.
  - apply IH. apply Nat.mod_upper_bound. lia.
Qed.

Lemma ravel_unravel (s : list nat) :
  forall k, k < size s -> ravel s (unravel s k) = k.
Proof.
  induction s as [|d s IH]; intros k Hk; simpl in *; [lia|].
  fold (size s) in *.
  assert (Hs : 0 < size s) by (destruct (size s); lia).
  rewrite IH by (apply Nat.mod_upper_bound; lia).
  pose proof (Nat.div_mod_eq k (size s)). lia.
Qed.

Lemma in_bounds_inv4 (a b c d : nat) (idx : list nat) :
  in_bounds [a; b; c; d] idx ->
  exists i j k l, idx = [i; j; k; l] /\ i < a /\ j < b /\ k < c /\ l < d.
Proof.
  intros Hb.
  inversion Hb as [|? i ? r1 Hi H1]; subst.
  inversion H1 as [|? j ? r2 Hj H2]; subst.
  inversion H2 as [|? k ? r3 Hk H3]; subst.
  inversion H3 as [|? l0 ? r4 Hl H4]; subst.
  inversion H4; subst.
  exists i, j, k, l0. auto.
Qed.

Section TensorFacts.

Context {R : Type} `{Scalar R}.

Lemma wf_build (s : list nat) (f : list nat -> R) : wf (build_tensor s f).
Proof. unfold wf, build_tensor; simpl. rewrite length_map, length_seq. reflexivity. Qed.

Lemma get_build (s : list nat) (f : list nat -> R) (idx : list nat) :
  in_bounds s idx -> get (build_tensor s f) idx = f idx.
Proof.
  intros Hb. unfold get, build_tensor; simpl.
  pose proof (ravel_lt Hb) as Hlt.
  rewrite nth_indep with (d' := f (unravel s 0))
    by (rewrite length_map, length_seq; assumption).
  rewrite (map_nth (fun k => f (unravel s k)) (seq 0 (size s)) 0).
  rewrite seq_nth by assumption. simpl.
  rewrite unravel_ravel by assumption. reflexivity.
Qed.

(* two well-formed tensors of one shape with the same element at every
   multi-index are equal *)
Lemma tensor_ext (a b : tensor R) :
  shape a = shape b -> wf a -> wf b ->
  (forall idx, in_bounds (shape a) idx -> get a idx = get b idx) ->
  a = b.
Proof.
  destruct a as [sa da], b as [sb db]; unfold wf, get; simpl.
  intros <- Ha Hb Hget. f_equal.
  apply nth_ext with (d := fzero) (d' := fzero); [congruence|].
  intros k Hk. rewrite Ha in Hk.
  specialize (Hget (unravel sa k) (unravel_in_bounds sa Hk)).
  rewrite ravel_unravel in Hget by assumption. exact Hget.
Qed.

End TensorFacts.

(** ** Backend operations on well-shaped operands *)

Lemma to_extent_of_nat (n : nat) : to_extent (Z.of_nat n) = Ok n.
Proof.
  unfold to_extent. destruct (Z.ltb_spec (Z.of_nat n) 0); [lia|].
  rewrite Nat2Z.id. reflexivity.
Qed.

Lemma to_shape_ok (zs : list Z) (s : list nat) :
  same_extents zs s -> to_shape zs = Ok s.
Proof.
  induction 1 as [|z n zs s Hz _ IH]; simpl; [reflexivity|].
  subst z. rewrite to_extent_of_nat, IH. reflexivity.
Qed.

Lemma count_infer_extents (zs : list Z) (s : list nat) :
  same_extents zs s -> count_infer zs = 0.
Proof.
  unfold count_infer.
  induction 1 as [|z n zs s Hz _ IH]; simpl; [reflexivity|].
  destruct (Z.eqb_spec z (-1)); [lia|assumption].
Qed.

Lemma known_dims_extents (zs : list Z) (s : list nat) :
  same_extents zs s -> known_dims zs = zs.
Proof.
  unfold known_dims.
  induction 1 as [|z n zs s Hz _ IH]; simpl; [reflexivity|].
  destruct (Z.eqb_spec z (-1)); [lia|]. simpl. congruence.
Qed.

Lemma fill_infer_extents (zs : list Z) (s : list nat) (v : nat) :
  same_extents zs s -> fill_infer zs v = zs.
Proof.
  unfold fill_infer.
  induction 1 as [|z n zs s Hz _ IH]; simpl; [reflexivity|].
  destruct (Z.eqb_spec z (-1)); [lia|]. congruence.
Qed.

Lemma count_infer_m1 (zs : list Z) : count_infer ((-1)%Z :: zs) = S (count_infer zs).
Proof. reflexivity. Qed.

Lemma known_dims_m1 (zs : list Z) : known_dims ((-1)%Z :: zs) = known_dims zs.
Proof. reflexivity. Qed.

Lemma fill_infer_m1 (zs : list Z) (v : nat) :
  fill_infer ((-1)%Z :: zs) v = Z.of_nat v :: fill_infer zs v.
Proof. reflexivity. Qed.

Lemma list_eqb_refl (s : list nat) : list_eqb s s = true.
Proof. induction s; simpl; [reflexivity|]. rewrite Nat.eqb_refl; assumption. Qed.

Lemma clamp_index_nat (d i : nat) : clamp_index d (Z.of_nat i) = Nat.min i d.
Proof.
  unfold clamp_index. destruct (Z.ltb_spec (Z.of_nat i) 0); [lia|].
  rewrite Nat2Z.id. reflexivity.
Qed.

(* case analysis on the stages of a computation known to succeed *)
Ltac inv_rbind H :=
  repeat match type of H with
         | rbind ?r _ = Ok _ =>
             let E := fresh "E" in
             destruct r eqn:E; cbn [rbind] in H; [|discriminate H]
         end.

(* extent and bound side conditions on lists of a fixed length *)
Ltac bounds :=
  unfold in_bounds, same_extents;
  repeat (first [apply Forall2_nil | apply Forall2_cons]);
  cbv beta; try reflexivity; try lia; try nia.

Section BackendFacts.

Context {R : Type} `{Scalar R}.

Lemma shape_build (s : list nat) (f : list nat -> R) : shape (build_tensor s f) = s.
Proof. reflexivity. Qed.

Lemma K_zeros_ok (zs : list Z) (s : list nat) :
  same_extents zs s -> K_zeros zs = Ok (build_tensor s (fun _ => fzero)).
Proof. intros Hs. unfold K_zeros. rewrite (to_shape_ok Hs). reflexivity. Qed.

Lemma K_reshape_ok (t : tensor R) (zs : list Z) (s : list nat) :
  same_extents zs s -> size s = size (shape t) ->
  K_reshape t zs = Ok (mkT s (data t)).
Proof.
  intros Hs Hn. unfold K_reshape.
  rewrite (count_infer_extents Hs), (to_shape_ok Hs). simpl.
  rewrite Hn, Nat.eqb_refl. reflexivity.
Qed.

Lemma K_reshape_mismatch (t : tensor R) (zs : list Z) (s : list nat) :
  same_extents zs s -> size s <> size (shape t) ->
  K_reshape t zs = Err InvalidArgumentError.
Proof.
  intros Hs Hn. unfold K_reshape.
  rewrite (count_infer_extents Hs), (to_shape_ok Hs). simpl.
  destruct (Nat.eqb_spec (size s) (size (shape t))); [contradiction|reflexivity].
Qed.

(* a leading [-1] is replaced by the quotient of the element count *)
Lemma K_reshape_infer_ok (t : tensor R) (zs : list Z) (s : list nat) (b : nat) :
  same_extents zs s -> 0 < size s -> size (shape t) = b * size s ->
  K_reshape t ((-1)%Z :: zs) = Ok (mkT (b :: s) (data t)).
Proof.
  intros Hs Hpos Hn. unfold K_reshape.
  rewrite count_infer_m1, known_dims_m1, (count_infer_extents Hs),
    (known_dims_extents Hs), (to_shape_ok Hs).
  cbn [rbind]. destruct (Nat.eqb_spec (size s) 0); [lia|].
  rewrite Hn, Nat.Div0.mod_mul. cbn [Nat.eqb].
  rewrite Nat.div_mul by lia.
  rewrite fill_infer_m1, (fill_infer_extents b Hs).
  cbn [to_shape]. rewrite to_extent_of_nat, (to_shape_ok Hs). reflexivity.
Qed.

Lemma K_reshape_infer_mismatch (t : tensor R) (zs : list Z) (s : list nat) :
  same_extents zs s -> 0 < size s -> size (shape t) mod size s <> 0 ->
  K_reshape t ((-1)%Z :: zs) = Err InvalidArgumentError.
Proof.
  intros Hs Hpos Hn. unfold K_reshape.
  rewrite count_infer_m1, known_dims_m1, (count_infer_extents Hs),
    (known_dims_extents Hs), (to_shape_ok Hs).
  cbn [rbind]. destruct (Nat.eqb_spec (size s) 0); [lia|].
  destruct (Nat.eqb_spec (size (shape t) mod size s) 0); [contradiction|reflexivity].
Qed.

Lemma wf_reshaped (t : tensor R) (s : list nat) :
  wf t -> size s = size (shape t) -> wf (mkT s (data t)).
Proof. unfold wf; simpl; congruence. Qed.

(* reading a reshaped tensor: only the flat offset matters *)
Lemma get_reshaped (t : tensor R) (s idx idx' : list nat) :
  ravel s idx = ravel (shape t) idx' -> get (mkT s (data t)) idx = get t idx'.
Proof. unfold get; simpl. intros ->. reflexivity. Qed.

Lemma K_concatenate_ok (a b : tensor R) (ax : nat) :
  ax < length (shape a) ->
  set_nth (shape a) ax 0 = set_nth (shape b) ax 0 ->
  K_concatenate a b ax =
  Ok (build_tensor (set_nth (shape a) ax (nth ax (shape a) 0 + nth ax (shape b) 0))
        (fun idx =>
           let i := nth ax idx 0 in
           if i <? nth ax (shape a) 0 then get a idx
           else get b (set_nth idx ax (i - nth ax (shape a) 0)))).
Proof.
  intros Hax Heq. unfold K_concatenate.
  rewrite (proj2 (Nat.ltb_lt _ _) Hax), Heq, list_eqb_refl. reflexivity.
Qed.

Lemma slice_axis_ok (t : tensor R) (ax : nat) (start stop : option Z) :
  ax < length (shape t) ->
  slice_axis t ax start stop =
  let d := nth ax (shape t) 0 in
  let lo := match start with None => 0 | Some i => clamp_index d i end in
  let hi := match stop with None => d | Some i => clamp_index d i end in
  Ok (build_tensor (set_nth (shape t) ax (hi - lo))
        (fun idx => get t (set_nth idx ax (nth ax idx 0 + lo)))).
Proof.
  intros Hax. unfold slice_axis.
  rewrite (proj2 (Nat.ltb_lt _ _) Hax). reflexivity.
Qed.

Lemma K_permute_dimensions_ok (t : tensor R) (pattern : list nat) :
  is_permutation pattern (length (shape t)) = true ->
  K_permute_dimensions t pattern =
  Ok (build_tensor (map (fun p => nth p (shape t) 0) pattern)
        (fun idx => get t (map (fun j => nth (index_of j pattern) idx 0)
                             (seq 0 (length (shape t)))))).
Proof. intros Hp. unfold K_permute_dimensions. rewrite Hp. reflexivity. Qed.

Lemma slice_last_shape4 (x : tensor R) (B H0 W C off n : nat) :
  shape x = [B; H0; W; C] -> shape (slice_last x off n) = [B; H0; W; n].
Proof. intros Hx. unfold slice_last. rewrite Hx. reflexivity. Qed.

Lemma slice_last_wf (x : tensor R) (off n : nat) : wf (slice_last x off n).
Proof. apply wf_build. Qed.

Lemma slice_last_get4 (x : tensor R) (B H0 W C off n b i j c : nat) :
  shape x = [B; H0; W; C] -> b < B -> i < H0 -> j < W -> c < n ->
  get (slice_last x off n) [b; i; j; c] = get x [b; i; j; c + off].
Proof.
  intros Hx Hb Hi Hj Hc. unfold slice_last. rewrite Hx.
  cbn [length Nat.sub set_nth]. rewrite get_build by bounds. reflexivity.
Qed.

Lemma tf_split_qkv (x : tensor R) (B H0 W a c : nat) :
  shape x = [B; H0; W; 2 * a + c] ->
  tf_split x [Z.of_nat a; Z.of_nat a; Z.of_nat c] =
  Ok [slice_last x 0 a; slice_last x a a; slice_last x (a + a) c].
Proof.
  intros Hx. unfold tf_split. rewrite Hx. cbn [rev app].
  assert (He : same_extents [Z.of_nat a; Z.of_nat a; Z.of_nat c] [a; a; c]) by bounds.
  rewrite (count_infer_extents He), (to_shape_ok He). cbn [rbind list_sum fold_right].
  replace (a + (a + (c + 0)) =? 2 * a + c) with true
    by (symmetry; apply Nat.eqb_eq; lia).
  reflexivity.
Qed.

Lemma tf_scale_shape (t : tensor R) (c : R) : shape (tf_scale t c) = shape t.
Proof. reflexivity. Qed.

Lemma tf_scale_wf (t : tensor R) (c : R) : wf t -> wf (tf_scale t c).
Proof. unfold wf, tf_scale; simpl. rewrite length_map. auto. Qed.

Lemma tf_scale_get (t : tensor R) (c : R) (idx : list nat) :
  wf t -> in_bounds (shape t) idx ->
  get (tf_scale t c) idx = fmul (get t idx) c.
Proof.
  intros Hwf Hb. unfold get, tf_scale; simpl.
  pose proof (ravel_lt Hb) as Hlt. rewrite <- Hwf in Hlt.
  rewrite nth_indep with (d' := fmul fzero c) by (rewrite length_map; assumption).
  apply (map_nth (fun v => fmul v c)).
Qed.

Lemma fsum_ext (n : nat) (f g : nat -> R) :
  (forall c, c < n -> f c = g c) -> fsum n f = fsum n g.
Proof.
  intros Hfg. unfold fsum.
  assert (Hin : forall c, In c (seq 0 n) -> f c = g c)
    by (intros c Hc; apply in_seq in Hc; apply Hfg; lia).
  clear Hfg. revert Hin. generalize (seq 0 n) (@fzero R _).
  intros cs. induction cs as [|c cs IH]; intros acc Hin; simpl; [reflexivity|].
  rewrite (Hin c) by (left; reflexivity).
  apply IH. intros c' Hc'. apply Hin. right. assumption.
Qed.

(* on equal batch extents the broadcast reads every operand at the output's
   own batch index *)
Lemma build_tensor_matmul_ext (B n P Q : nat) (f : nat -> nat -> nat -> nat -> R) :
  build_tensor [B; n; P; Q]
    (fun idx =>
       match idx with
       | [i0; i1; i; j] =>
           f (if B =? 1 then 0 else i0) (if n =? 1 then 0 else i1) i j
       | _ => fzero
       end) =
  build_tensor [B; n; P; Q]
    (fun idx => match idx with [i0; i1; i; j] => f i0 i1 i j | _ => fzero end).
Proof.
  unfold build_tensor. f_equal. apply map_ext_in. intros k Hk. apply in_seq in Hk.
  destruct (in_bounds_inv4 (unravel_in_bounds [B; n; P; Q] (proj2 Hk)))
    as (i0 & i1 & i & j & -> & H0 & H1 & _).
  destruct (Nat.eqb_spec B 1) as [->|_], (Nat.eqb_spec n 1) as [->|_];
    repeat match goal with
           | Hlt : ?v < 1 |- _ => assert (v = 0) by lia; subst v; clear Hlt
           end; reflexivity.
Qed.

Lemma tf_matmul_tb (a b : tensor R) (B n P Q K : nat) :
  shape a = [B; n; P; K] -> shape b = [B; n; Q; K] ->
  tf_matmul a b true =
  Ok (build_tensor [B; n; P; Q]
        (fun idx =>
           match idx with
           | [i0; i1; i; j] =>
               fsum K (fun c => fmul (get a [i0; i1; i; c]) (get b [i0; i1; j; c]))
           | _ => fzero
           end)).
Proof.
  intros Ha Hb. unfold tf_matmul, bcast_dim. rewrite Ha, Hb.
  rewrite !Nat.eqb_refl. cbn [rbind]. f_equal.
  apply (build_tensor_matmul_ext B n P Q
           (fun i0 i1 i j =>
              fsum K (fun c => fmul (get a [i0; i1; i; c]) (get b [i0; i1; j; c])))).
Qed.

Lemma tf_matmul_nt (a b : tensor R) (B n P Q K : nat) :
  shape a = [B; n; P; K] -> shape b = [B; n; K; Q] ->
  tf_matmul a b false =
  Ok (build_tensor [B; n; P; Q]
        (fun idx =>
           match idx with
           | [i0; i1; i; j] =>
               fsum K (fun c => fmul (get a [i0; i1; i; c]) (get b [i0; i1; c; j]))
           | _ => fzero
           end)).
Proof.
  intros Ha Hb. unfold tf_matmul, bcast_dim. rewrite Ha, Hb.
  rewrite !Nat.eqb_refl. cbn [rbind]. f_equal.
  apply (build_tensor_matmul_ext B n P Q
           (fun i0 i1 i j =>
              fsum K (fun c => fmul (get a [i0; i1; i; c]) (get b [i0; i1; c; j])))).
Qed.

Lemma tf_einsum_ok (q rel_k : tensor R) (B n H0 W d M0 : nat) :
  shape q = [B; n; H0; W; d] -> shape rel_k = [M0; d] ->
  exists y, tf_einsum_bhxyd_md q rel_k = Ok y /\
            shape y = [B; n; H0; W; M0] /\ wf y.
Proof.
  intros Hq Hk. unfold tf_einsum_bhxyd_md. rewrite Hq, Hk, Nat.eqb_refl.
  eexists; split; [reflexivity|]. split; [reflexivity|apply wf_build].
Qed.

Lemma bcast_rev_refl (s : list nat) : bcast_rev s s = Ok s.
Proof.
  induction s as [|x s IH]; simpl; [reflexivity|].
  rewrite Nat.eqb_refl, IH. reflexivity.
Qed.

Lemma tf_add_same (a b : tensor R) (s : list nat) :
  shape a = s -> shape b = s ->
  exists y, tf_add a b = Ok y /\ shape y = s /\ wf y.
Proof.
  intros Ha Hb. unfold tf_add, bcast_shape.
  rewrite Ha, Hb, bcast_rev_refl. cbn [rbind]. rewrite rev_involutive.
  eexists; split; [reflexivity|]. split; [reflexivity|apply wf_build].
Qed.

Lemma tf_add_batch_mismatch (a b : tensor R) (A0 B0 n P Q : nat) :
  shape a = [A0; n; P; Q] -> shape b = [B0; n; P; Q] ->
  A0 <> B0 -> A0 <> 1 -> B0 <> 1 ->
  tf_add a b = Err InvalidArgumentError.
Proof.
  intros Ha Hb Hne Ha1 Hb1. unfold tf_add, bcast_shape.
  rewrite Ha, Hb. cbn [rev app bcast_rev]. rewrite !Nat.eqb_refl.
  destruct (Nat.eqb_spec A0 B0); [contradiction|].
  destruct (Nat.eqb_spec A0 1); [contradiction|].
  destruct (Nat.eqb_spec B0 1); [contradiction|].
  reflexivity.
Qed.

Lemma K_softmax_ok (t : tensor R) :
  shape t <> [] ->
  exists y, K_softmax t = Ok y /\ shape y = shape t /\ wf y.
Proof.
  intros Hne. unfold K_softmax.
  destruct (rev (shape t)) as [|n r] eqn:Hr.
  - apply (f_equal (@rev nat)) in Hr. rewrite rev_involutive in Hr. contradiction.
  - eexists; split; [reflexivity|]. split; [reflexivity|apply wf_build].
Qed.

End BackendFacts.

(** ** The layer monad *)

Section MonadFacts.

Context {R : Type} `{Scalar R}.

Lemma bind_self {X : Type} (k : Layer R -> M X) (l : Layer R) :
  bind self k l = k l l.
Proof. reflexivity. Qed.

Lemma bind_lift_ok {X Y : Type} (v : X) (k : X -> M Y) (l : Layer R) :
  bind (lift (Ok v)) k l = k v l.
Proof. reflexivity. Qed.

Lemma bind_lift_err {X Y : Type} (e : error) (k : X -> M Y) (l : Layer R) :
  bind (lift (Err e)) k l = Err e.
Proof. reflexivity. Qed.

Lemma bind_ret {X Y : Type} (v : X) (k : X -> M Y) (l : Layer R) :
  bind (ret v) k l = k v l.
Proof. reflexivity. Qed.

Lemma bind_ok {X Y : Type} (m : M X) (k : X -> M Y) (l l' : Layer R) (v : X) :
  m l = Ok (v, l') -> bind m k l = k v l'.
Proof. intros Hm. unfold bind. rewrite Hm. reflexivity. Qed.

Lemma bind_err {X Y : Type} (m : M X) (k : X -> M Y) (l : Layer R) (e : error) :
  m l = Err e -> bind m k l = Err e.
Proof. intros Hm. unfold bind. rewrite Hm. reflexivity. Qed.

Lemma bind_bind {X Y Z0 : Type} (m : M X) (k : X -> M Y) (k2 : Y -> M Z0) (l : Layer R) :
  bind (bind m k) k2 l = bind m (fun v => bind (k v) k2) l.
Proof. unfold bind. destruct (m l) as [[v l']|e]; reflexivity. Qed.


Lemma bind_congr {X Y : Type} (m m' : M X) (k : X -> M Y) (l : Layer R) :
  m l = m' l -> bind m k l = bind m' k l.
Proof. intros Hm. unfold bind. rewrite Hm. reflexivity. Qed.

Lemma bind_ext_on {X Y : Type} (m : M X) (k k' : X -> M Y) (l : Layer R) :
  (forall v l1, m l = Ok (v, l1) -> k v l1 = k' v l1) -> bind m k l = bind m k' l.
Proof.
  intros Hk. unfold bind. destruct (m l) as [[v l1]|e]; [apply Hk|]; reflexivity.
Qed.

Lemma bind_ext {X Y : Type} (m : M X) (k k' : X -> M Y) (l : Layer R) :
  (forall v l1, k v l1 = k' v l1) -> bind m k l = bind m k' l.
Proof. intros Hk. unfold bind. destruct (m l) as [[v l1]|e]; [apply Hk|reflexivity]. Qed.

Lemma bind_inv {X Y : Type} (m : M X) (k : X -> M Y) (l l2 : Layer R) (y : Y) :
  bind m k l = Ok (y, l2) ->
  exists v l1, m l = Ok (v, l1) /\ k v l1 = Ok (y, l2).
Proof.
  unfold bind. destruct (m l) as [[v l1]|e]; [|discriminate].
  intros Hk. exists v, l1. auto.
Qed.

Lemma lift_inv {X : Type} (r : result X) (l l1 : Layer R) (v : X) :
  lift r l = Ok (v, l1) -> r = Ok v /\ l1 = l.
Proof. destruct r; cbn; [|discriminate]. intros [= -> ->]. auto. Qed.

Lemma bind_lift_inv {X Y : Type} (r : result X) (k : X -> M Y) (l l2 : Layer R) (y : Y) :
  bind (lift r) k l = Ok (y, l2) -> exists v, r = Ok v /\ k v l = Ok (y, l2).
Proof. destruct r; cbn; [|discriminate]. eauto. Qed.

End MonadFacts.

(** ** The layer's methods *)

Section LayerFacts.

Context {R : Type} `{Scalar R}.

(** *** Python-side arithmetic *)

Lemma floordiv_of_nat (a b : nat) :
  0 < b -> floordiv (Z.of_nat a) (Z.of_nat b) = Ok (Z.of_nat (a / b)).
Proof.
  intros Hb. unfold floordiv.
  destruct (Z.eqb_spec (Z.of_nat b) 0); [lia|].
  rewrite Nat2Z.inj_div. reflexivity.
Qed.

Lemma head_offset_lt (h n c d : nat) : h < n -> c < d -> h * d + c < n * d.
Proof.
  intros Hh Hc. assert ((h + 1) * d <= n * d) by (apply Nat.mul_le_mono_r; lia). lia.
Qed.

Lemma query_scale_ok (dk n : nat) :
  0 < dk -> 0 < n ->
  query_scale (Z.of_nat dk) (Z.of_nat n) = Ok (frsqrt (Z.of_nat dk) (Z.of_nat n)).
Proof.
  intros Hd Hn. unfold query_scale.
  destruct (Z.eqb_spec (Z.of_nat n) 0); [lia|].
  destruct (Z.eqb_spec (Z.of_nat dk) 0); [lia|].
  destruct (Z.ltb_spec (Z.of_nat dk) 0); [lia|].
  destruct (Z.ltb_spec (Z.of_nat n) 0); [lia|].
  reflexivity.
Qed.

Lemma int_rsqrt_ok (d : nat) : 0 < d -> int_rsqrt (Z.of_nat d) = Ok (frsqrt (Z.of_nat d) 1).
Proof.
  intros Hd. unfold int_rsqrt.
  destruct (Z.eqb_spec (Z.of_nat d) 0); [lia|].
  destruct (Z.ltb_spec (Z.of_nat d) 0); [lia|]. reflexivity.
Qed.

Lemma add_weight_ok (zs : list Z) (s : list nat) (sample : nat -> R) :
  same_extents zs s ->
  exists t, add_weight zs sample = Ok t /\ shape t = s /\ wf t.
Proof.
  intros Hs. unfold add_weight. rewrite (to_shape_ok Hs). cbn [rbind].
  eexists; split; [reflexivity|]. split; [reflexivity|apply wf_build].
Qed.

(** *** [build] *)

Lemma configured_spatial (l : Layer R) (n d e : nat) (b h w : option Z) :
  configured l n d e -> configured (set_spatial l b h w) n d e.
Proof. intros [? ? ? ? ? ? ?]. constructor; assumption. Qed.

Lemma same_params_trans (l1 l2 l3 : Layer R) :
  same_params l1 l2 -> same_params l2 l3 -> same_params l1 l3.
Proof. intros (b & h & w & ->) (b' & h' & w' & ->). exists b', h', w'. reflexivity. Qed.

Lemma build_fields (l0 l : Layer R) (shp : list (option Z)) (sw sh : R -> nat -> R) :
  build l0 shp sw sh = Ok l ->
  axis l = axis l0 /\ depth_k l = depth_k l0 /\ depth_v l = depth_v l0 /\
  num_heads l = num_heads l0 /\ relative l = relative l0 /\
  _shape l = Some shp /\ length shp = 4.
Proof.
  unfold build. intros Hb.
  destruct shp as [|s0 [|s1 [|s2 [|s3 [|? ?]]]]]; try discriminate Hb.
  cbn [relative set_shape axis] in Hb.
  destruct (axis l0 =? 1)%Z; cbn [rbind] in Hb; destruct (relative l0) eqn:Hrel.
  all: inv_rbind Hb; injection Hb as <-; cbn; auto 10.
Qed.

Lemma built_configured (l0 l : Layer R) (rel : bool) (st : Z * Z) (bo : option Z)
    (sw sh : R -> nat -> R) (C : Z) (H1 W1 n d e : nat) :
  0 < n -> 0 < d -> 0 < H1 -> 0 < W1 ->
  __init__ (PyInt (Z.of_nat (n * d))) (PyInt (Z.of_nat (n * e))) (Z.of_nat n)
    rel st channels_last = Ok l0 ->
  build l0 [bo; Some (Z.of_nat H1); Some (Z.of_nat W1); Some C] sw sh = Ok l ->
  configured l n d e /\ relative l = rel /\ (rel = true -> tables_sized l H1 W1 d).
Proof.
  intros Hn Hd HH HW Hinit Hbuild.
  cbn in Hinit. injection Hinit as <-.
  unfold build in Hbuild.
  cbn [set_shape axis relative depth_k num_heads Z.eqb rbind] in Hbuild.
  destruct rel.
  - rewrite floordiv_of_nat in Hbuild by assumption.
    replace (n * d / n) with d in Hbuild by (rewrite Nat.mul_comm, Nat.div_mul; lia).
    cbn [rbind attr] in Hbuild. rewrite int_rsqrt_ok in Hbuild by assumption.
    cbn [rbind] in Hbuild.
    edestruct add_weight_ok
      with (zs := [2 * Z.of_nat W1 - 1; Z.of_nat d]%Z) (s := [2 * W1 - 1; d])
           (sample := sw (frsqrt (Z.of_nat d) 1))
      as (krw & Hkw & Hsw & Hww); [bounds|].
    rewrite Hkw in Hbuild. cbn [rbind attr] in Hbuild.
    edestruct add_weight_ok
      with (zs := [2 * Z.of_nat H1 - 1; Z.of_nat d]%Z) (s := [2 * H1 - 1; d])
           (sample := sh (frsqrt (Z.of_nat d) 1))
      as (krh & Hkh & Hsh & Hwh); [bounds|].
    rewrite Hkh in Hbuild. cbn [rbind] in Hbuild.
    injection Hbuild as <-.
    split; [|split; [reflexivity|]].
    + constructor; cbn; try assumption; try reflexivity. eexists; split; reflexivity.
    + intros _. exists krw, krh. cbn. auto 10.
  - injection Hbuild as <-.
    split; [|split; [reflexivity|discriminate]].
    constructor; cbn; try assumption; try reflexivity. eexists; split; reflexivity.
Qed.

(** *** [rel_to_abs] *)

(* the index mapping of the pad / flatten / pad / reshape / slice sequence *)
Lemma rel_to_abs_spec (x : tensor R) (B N L : nat) :
  shape x = [B; N; L; 2 * L - 1] -> 1 <= L -> wf x ->
  exists y, rel_to_abs x = Ok y /\ shape y = [B; N; L; L] /\ wf y /\
    forall b n i j, b < B -> n < N -> i < L -> j < L ->
      get y [b; n; i; j] = get x [b; n; i; j + (L - 1) - i].
Proof.
  intros Hx HL Hwf.
  destruct L as [|m]; [lia|]. clear HL.
  replace (2 * S m - 1) with (2 * m + 1) in Hx by lia.
  unfold rel_to_abs, K_shape. rewrite Hx. cbn [map py_index nth_error rbind].
  rewrite (K_zeros_ok (s := [B; N; S m; 1])) by bounds. cbn [rbind].
  rewrite K_concatenate_ok; rewrite ?shape_build, ?Hx; try (cbn; lia); try reflexivity.
  cbn [rbind set_nth nth].
  set (col_pad := build_tensor [B; N; S m; 1] (fun _ => fzero)).
  set (x1 := build_tensor _ _).
  rewrite (K_reshape_ok x1 (s := [B; N; S m * 2 * S m]));
    [|bounds|subst x1; rewrite shape_build; cbn [size fold_right]; lia].
  cbn [rbind].
  rewrite (K_zeros_ok (s := [B; N; m])) by bounds. cbn [rbind].
  rewrite K_concatenate_ok; rewrite ?shape_build; cbn [shape]; try (cbn; lia); try reflexivity.
  cbn [rbind set_nth nth].
  set (flat_x := mkT _ (data x1)).
  set (flat_pad := build_tensor [B; N; m] (fun _ => fzero)).
  set (x2 := build_tensor _ _).
  rewrite (K_reshape_ok x2 (s := [B; N; S m + 1; 2 * m + 1]));
    [|bounds|subst x2; rewrite shape_build; cbn [size fold_right]; lia].
  cbn [rbind].
  set (final_x := mkT _ (data x2)).
  rewrite slice_axis_ok by (cbn; lia). cbn [shape nth set_nth rbind final_x].
  rewrite clamp_index_nat.
  replace (Nat.min (S m) (S m + 1) - 0) with (S m) by lia.
  set (x3 := build_tensor _ _).
  rewrite slice_axis_ok by (cbn; lia).
  replace (Z.of_nat (S m) - 1)%Z with (Z.of_nat m) by lia.
  subst x3. rewrite shape_build. cbn [nth set_nth].
  rewrite clamp_index_nat.
  replace (2 * m + 1 - Nat.min m (2 * m + 1)) with (S m) by lia.
  replace (Nat.min m (2 * m + 1)) with m by lia.
  eexists; split; [reflexivity|].
  split; [reflexivity|]. split; [apply wf_build|].
  intros b n i j Hb Hn Hi Hj.
  rewrite get_build by bounds. cbn [nth set_nth].
  rewrite get_build by bounds. cbn [nth set_nth].
  subst final_x.
  rewrite (get_reshaped x2 _ _ [b; n; i * (2 * m + 1) + (j + m)])
    by (subst x2; rewrite shape_build; cbn [ravel size fold_right]; ring).
  subst x2. rewrite get_build by bounds. cbn [nth set_nth].
  rewrite (proj2 (Nat.ltb_lt _ _)) by nia.
  subst flat_x.
  rewrite (get_reshaped x1 _ _ [b; n; i; j + m - i])
    by (subst x1; rewrite shape_build; cbn [ravel size fold_right]; nia).
  subst x1. rewrite get_build by bounds. cbn [nth set_nth].
  rewrite (proj2 (Nat.ltb_lt _ _)) by lia.
  f_equal. f_equal. f_equal. f_equal. f_equal. lia.
Qed.

(** *** [split_heads_2d] and [combine_heads_2d] *)

Lemma split_heads_2d_spec (ip : tensor R) (l : Layer R) (shp : list (option Z))
    (B H0 W n d : nat) :
  _shape l = Some shp -> length shp = 4 ->
  num_heads l = Z.of_nat n -> 0 < n ->
  shape ip = [B; H0; W; n * d] -> wf ip ->
  exists y,
    split_heads_2d ip l =
      Ok (y, set_spatial l (Some (Z.of_nat B)) (Some (Z.of_nat H0)) (Some (Z.of_nat W))) /\
    shape y = [B; n; H0; W; d] /\ wf y /\
    forall b h i j c, b < B -> h < n -> i < H0 -> j < W -> c < d ->
      get y [b; h; i; j; c] = get ip [b; i; j; h * d + c].
Proof.
  intros Hshp Hlen Hn Hpos Hip Hwf.
  unfold split_heads_2d, K_shape.
  rewrite Hshp. cbn [attr rbind]. rewrite Hlen, Hip.
  cbn [attr rbind seq mapM map py_index nth_error num_heads set_spatial].
  rewrite Hn, floordiv_of_nat by assumption.
  rewrite Nat.mul_comm, Nat.div_mul by lia. cbn [rbind].
  rewrite (K_reshape_ok ip (s := [B; H0; W; n; d]));
    [|bounds|rewrite Hip; cbn [size fold_right]; lia].
  cbn [rbind].
  rewrite K_permute_dimensions_ok by reflexivity.
  cbn [rbind shape length seq map nth index_of Nat.eqb].
  eexists; split; [reflexivity|].
  split; [reflexivity|]. split; [apply wf_build|].
  intros b h i j c Hb Hh Hi Hj Hc.
  rewrite get_build by bounds. cbn [nth].
  apply get_reshaped. rewrite Hip. cbn [ravel size fold_right]. ring.
Qed.

Lemma split_heads_2d_indivisible (ip : tensor R) (l : Layer R) (shp : list (option Z))
    (B H0 W C n : nat) :
  _shape l = Some shp -> length shp = 4 ->
  num_heads l = Z.of_nat n -> 0 < n ->
  shape ip = [B; H0; W; C] -> C mod n <> 0 -> 0 < B * H0 * W ->
  split_heads_2d ip l = Err InvalidArgumentError.
Proof.
  intros Hshp Hlen Hn Hpos Hip Hmod Hne.
  unfold split_heads_2d, K_shape.
  rewrite Hshp. cbn [attr rbind]. rewrite Hlen, Hip.
  cbn [attr rbind seq mapM map py_index nth_error num_heads set_spatial].
  rewrite Hn, floordiv_of_nat by assumption. cbn [rbind].
  rewrite (K_reshape_mismatch ip (s := [B; H0; W; n; C / n])); [reflexivity|bounds|].
  rewrite Hip. cbn [size fold_right].
  pose proof (Nat.div_mod_eq C n) as Hdm.
  assert (Hlt : n * (C / n) < C) by lia.
  intros Heq.
  assert (Heq' : B * H0 * W * (n * (C / n)) = B * H0 * W * C)
    by (transitivity (B * (H0 * (W * (n * (C / n * 1))))); [ring|rewrite Heq; ring]).
  apply Nat.mul_cancel_l in Heq'; lia.
Qed.

Lemma split_heads_2d_state (ip y : tensor R) (l l' : Layer R) :
  split_heads_2d ip l = Ok (y, l') -> same_params l l'.
Proof.
  unfold split_heads_2d. intros Hs. inv_rbind Hs.
  injection Hs as _ <-. eexists _, _, _. reflexivity.
Qed.

Lemma combine_heads_2d_spec (x : tensor R) (B n H0 W d : nat) :
  shape x = [B; n; H0; W; d] -> wf x ->
  exists y,
    combine_heads_2d x = Ok y /\ shape y = [B; H0; W; n * d] /\ wf y /\
    forall b h i j c, b < B -> h < n -> i < H0 -> j < W -> c < d ->
      get y [b; i; j; h * d + c] = get x [b; h; i; j; c].
Proof.
  intros Hx Hwf. unfold combine_heads_2d.
  rewrite K_permute_dimensions_ok by (rewrite Hx; reflexivity).
  rewrite Hx. cbn [rbind shape length seq map nth index_of Nat.eqb].
  set (t := build_tensor _ _).
  unfold K_shape. subst t. rewrite shape_build.
  cbn [rbind seq mapM map py_index nth_error].
  set (t := build_tensor _ _).
  rewrite (K_reshape_ok t (s := [B; H0; W; n * d]));
    [|bounds|subst t; rewrite shape_build; cbn [size fold_right]; lia].
  eexists; split; [reflexivity|].
  split; [reflexivity|].
  split; [apply wf_reshaped; [apply wf_build|subst t; rewrite shape_build; cbn [size fold_right]; lia]|].
  intros b h i j c Hb Hh Hi Hj Hc.
  rewrite (get_reshaped t _ _ [b; i; j; h; c])
    by (subst t; rewrite shape_build; cbn [ravel size fold_right]; ring).
  subst t. rewrite get_build by bounds. reflexivity.
Qed.

(** *** [call], lines 59-80: the content logits *)

Lemma project_heads_spec (x : tensor R) (l : Layer R) (B H0 W n d e : nat) :
  configured l n d e ->
  shape x = [B; H0; W; 2 * (n * d) + n * e] -> wf x ->
  exists q flat_k flat_v,
    project_heads x l =
      Ok (q, mkT [B; n; H0 * W; d] (data q), flat_k, flat_v,
          set_spatial l (Some (Z.of_nat B)) (Some (Z.of_nat H0)) (Some (Z.of_nat W))) /\
    shape q = [B; n; H0; W; d] /\ wf q /\
    shape flat_k = [B; n; H0 * W; d] /\ wf flat_k /\
    shape flat_v = [B; n; H0 * W; e] /\ wf flat_v /\
    (forall b h i j c, b < B -> h < n -> i < H0 -> j < W -> c < d ->
       get q [b; h; i; j; c] =
       fmul (get x [b; i; j; h * d + c]) (frsqrt (depth_k l) (num_heads l))) /\
    (forall b h i j c, b < B -> h < n -> i < H0 -> j < W -> c < d ->
       get flat_k [b; h; i * W + j; c] = get x [b; i; j; n * d + h * d + c]) /\
    (forall b h i j c, b < B -> h < n -> i < H0 -> j < W -> c < e ->
       get flat_v [b; h; i * W + j; c] = get x [b; i; j; 2 * (n * d) + h * e + c]).
Proof.
  intros Hcfg Hx Hwf.
  pose proof Hcfg as [Hax (shp & Hshp & Hlen) Hn Hdk Hdv Hnpos Hdpos].
  set (l1 := set_spatial l (Some (Z.of_nat B)) (Some (Z.of_nat H0)) (Some (Z.of_nat W))).
  destruct (split_heads_2d_spec l d Hshp Hlen Hn Hnpos
              (slice_last_shape4 x 0 (n * d) Hx) (slice_last_wf x 0 (n * d)))
    as (q & Hq & Hsq & Hwq & Hgq).
  destruct (split_heads_2d_spec l1 d (shp := shp) Hshp Hlen Hn Hnpos
              (slice_last_shape4 x (n * d) (n * d) Hx) (slice_last_wf x (n * d) (n * d)))
    as (k & Hk & Hsk & Hwk & Hgk).
  destruct (split_heads_2d_spec l1 e (shp := shp) Hshp Hlen Hn Hnpos
              (slice_last_shape4 x (n * d + n * d) (n * e) Hx)
              (slice_last_wf x (n * d + n * d) (n * e)))
    as (v & Hv & Hsv & Hwv & Hgv).
  change (set_spatial l1 _ _ _) with l1 in Hk, Hv. fold l1 in Hq.
  unfold project_heads.
  rewrite bind_self, Hax. cbn [Z.eqb].
  rewrite bind_lift_ok, Hdk, Hdv.
  erewrite tf_split_qkv by exact Hx. rewrite bind_lift_ok.
  erewrite bind_ok by exact Hq. erewrite bind_ok by exact Hk.
  erewrite bind_ok by exact Hv.
  rewrite Hn, query_scale_ok, bind_lift_ok, bind_self by lia.
  cbn [_batch _height _width l1 set_spatial attr num_heads depth_k depth_v].
  rewrite !bind_lift_ok.
  rewrite Hn, Hdk, Hdv, !floordiv_of_nat by assumption.
  rewrite !(Nat.mul_comm n), !Nat.div_mul by lia.
  rewrite bind_lift_ok.
  set (qs := tf_scale q _).
  rewrite (K_reshape_ok qs (s := [B; n; H0 * W; d]));
    [|bounds|subst qs; rewrite tf_scale_shape, Hsq; cbn [size fold_right]; lia].
  rewrite bind_lift_ok.
  rewrite (K_reshape_ok k (s := [B; n; H0 * W; d]));
    [|bounds|rewrite Hsk; cbn [size fold_right]; lia].
  rewrite !bind_lift_ok.
  rewrite (K_reshape_ok v (s := [B; n; H0 * W; e]));
    [|bounds|rewrite Hsv; cbn [size fold_right]; lia].
  rewrite bind_lift_ok. unfold ret.
  exists qs, (mkT [B; n; H0 * W; d] (data k)), (mkT [B; n; H0 * W; e] (data v)).
  split; [reflexivity|].
  split; [subst qs; rewrite tf_scale_shape; exact Hsq|].
  split; [subst qs; apply tf_scale_wf; exact Hwq|].
  split; [reflexivity|].
  split; [apply wf_reshaped; [assumption|rewrite Hsk; cbn [size fold_right]; lia]|].
  split; [reflexivity|].
  split; [apply wf_reshaped; [assumption|rewrite Hsv; cbn [size fold_right]; lia]|].
  split; [|split].
  - intros b h i j c Hb Hh Hi Hj Hc. subst qs.
    rewrite tf_scale_get by (try assumption; rewrite Hsq; bounds).
    rewrite Hgq by assumption.
    rewrite (slice_last_get4 _ _ Hx) by (try assumption; apply head_offset_lt; assumption).
    rewrite Nat.add_0_r. reflexivity.
  - intros b h i j c Hb Hh Hi Hj Hc.
    rewrite (get_reshaped k _ _ [b; h; i; j; c])
      by (rewrite Hsk; cbn [ravel size fold_right]; ring).
    rewrite Hgk by assumption.
    rewrite (slice_last_get4 _ _ Hx) by (try assumption; apply head_offset_lt; assumption).
    do 5 f_equal. lia.
  - intros b h i j c Hb Hh Hi Hj Hc.
    rewrite (get_reshaped v _ _ [b; h; i; j; c])
      by (rewrite Hsv; cbn [ravel size fold_right]; ring).
    rewrite Hgv by assumption.
    rewrite (slice_last_get4 _ _ Hx) by (try assumption; apply head_offset_lt; assumption).
    do 5 f_equal. lia.
Qed.


Lemma project_heads_state (x : tensor R) (l l' : Layer R)
    (r : tensor R * tensor R * tensor R * tensor R) :
  project_heads x l = Ok (r, l') -> same_params l l'.
Proof.
  unfold project_heads. rewrite bind_self. intros Hp.
  apply bind_lift_inv in Hp as (x' & _ & Hp).
  apply bind_lift_inv in Hp as (qkv & _ & Hp).
  destruct qkv as [|q [|k [|v [|? ?]]]]; try discriminate Hp.
  apply bind_inv in Hp as (q' & l1 & Hq & Hp).
  apply bind_inv in Hp as (k' & l2 & Hk & Hp).
  apply bind_inv in Hp as (v' & l3 & Hv & Hp).
  apply bind_lift_inv in Hp as (c & _ & Hp).
  rewrite bind_self in Hp.
  repeat (apply bind_lift_inv in Hp as (? & _ & Hp)).
  injection Hp as _ <-.
  apply split_heads_2d_state in Hq, Hk, Hv.
  eauto using same_params_trans.
Qed.

Lemma content_logits_spec (x : tensor R) (l : Layer R) (B H0 W n d e : nat) :
  configured l n d e ->
  shape x = [B; H0; W; 2 * (n * d) + n * e] -> wf x ->
  exists q logits flat_v,
    content_logits x l =
      Ok (q, logits, flat_v,
          set_spatial l (Some (Z.of_nat B)) (Some (Z.of_nat H0)) (Some (Z.of_nat W))) /\
    shape q = [B; n; H0; W; d] /\ wf q /\
    shape logits = [B; n; H0 * W; H0 * W] /\ wf logits /\
    shape flat_v = [B; n; H0 * W; e] /\ wf flat_v /\
    (forall b h i j c, b < B -> h < n -> i < H0 -> j < W -> c < d ->
       get q [b; h; i; j; c] =
       fmul (get x [b; i; j; h * d + c]) (frsqrt (depth_k l) (num_heads l))) /\
    (forall b h i j i' j', b < B -> h < n -> i < H0 -> j < W -> i' < H0 -> j' < W ->
       get logits [b; h; i * W + j; i' * W + j'] =
       fsum d (fun c =>
         fmul (fmul (get x [b; i; j; h * d + c]) (frsqrt (depth_k l) (num_heads l)))
              (get x [b; i'; j'; n * d + h * d + c]))).
Proof.
  intros Hcfg Hx Hwf.
  destruct (project_heads_spec Hcfg Hx Hwf)
    as (q & fk & fv & Hp & Hsq & Hwq & Hsk & Hwk & Hsv & Hwv & Hgq & Hgk & _).
  unfold content_logits.
  erewrite bind_ok by exact Hp. cbn beta iota.
  erewrite tf_matmul_tb by (try reflexivity; exact Hsk).
  rewrite bind_lift_ok. unfold ret.
  eexists q, _, fv. split; [reflexivity|].
  repeat (split; [first [assumption|reflexivity|apply wf_build]|]).
  intros b h i j i' j' Hb Hh Hi Hj Hi' Hj'.
  assert (i * W + j < H0 * W) by (apply head_offset_lt; assumption).
  assert (i' * W + j' < H0 * W) by (apply head_offset_lt; assumption).
  rewrite get_build by bounds.
  apply fsum_ext. intros c Hc.
  rewrite Hgk by assumption.
  rewrite (get_reshaped q _ _ [b; h; i; j; c])
    by (rewrite Hsq; cbn [ravel size fold_right]; ring).
  rewrite Hgq by assumption. reflexivity.
Qed.

Lemma content_logits_state (x : tensor R) (l l' : Layer R)
    (r : tensor R * tensor R * tensor R) :
  content_logits x l = Ok (r, l') -> same_params l l'.
Proof.
  unfold content_logits. intros Hc.
  apply bind_inv in Hc as ([[[q fq] fk] fv] & l1 & Hp & Hc).
  apply bind_lift_inv in Hc as (lg & _ & Hc).
  injection Hc as _ <-. eapply project_heads_state; eassumption.
Qed.


(** *** [relative_logits] *)

Lemma relative_logits_1d_shape (l : Layer R) (q rel_k : tensor R)
    (mask : list nat) (B B1 n H0 W d M0 : nat) :
  num_heads l = Z.of_nat n -> 0 < n -> 0 < H0 -> 0 < W ->
  shape q = [B; n; H0; W; d] -> shape rel_k = [M0; d] ->
  B * M0 = B1 * (2 * W - 1) ->
  mask = mask_w \/ mask = mask_h ->
  exists y,
    relative_logits_1d l q (Some rel_k) (Z.of_nat H0) (Z.of_nat W) mask = Ok y /\
    shape y = [B1; n; H0 * W; H0 * W] /\ wf y.
Proof.
  intros Hn Hnpos HH HW Hq Hk HB Hmask.
  assert (HK : 0 < 2 * W - 1) by lia.
  assert (Hpos3 : 0 < n * H0 * W) by (repeat apply Nat.mul_pos_pos; assumption).
  edestruct tf_einsum_ok as (t1 & Ht1 & Hs1 & Hw1); [exact Hq|exact Hk|].
  assert (Hsz1 : size (shape t1) = B1 * size [n * H0; W; 2 * W - 1]).
  { rewrite Hs1. cbn [size fold_right].
    transitivity (n * H0 * W * (B * M0)); [ring|rewrite HB; ring]. }
  unfold relative_logits_1d. cbn [attr rbind]. rewrite Ht1, Hn. cbn [rbind].
  rewrite (K_reshape_infer_ok t1 (s := [n * H0; W; 2 * W - 1]) B1);
    [|bounds|cbn [size fold_right]; repeat apply Nat.mul_pos_pos; lia|exact Hsz1].
  cbn [rbind].
  destruct (rel_to_abs_spec (x := mkT [B1; n * H0; W; 2 * W - 1] (data t1))
              (L := W) eq_refl) as (t2 & Ht2 & Hs2 & Hw2 & _); [lia| |].
  { apply wf_reshaped; [assumption|exact (eq_sym Hsz1)]. }
  rewrite Ht2. cbn [rbind].
  rewrite (K_reshape_infer_ok t2 (s := [n; H0; W; W]) B1);
    [|bounds|cbn [size fold_right]; repeat apply Nat.mul_pos_pos; lia
     |rewrite Hs2; cbn [size fold_right]; ring].
  cbn [rbind]. unfold K_expand_dims. cbn [shape length Nat.leb firstn skipn app rbind].
  unfold K_tile.
  rewrite (to_shape_ok (s := [1; 1; 1; H0; 1; 1])) by bounds.
  cbn [rbind shape length Nat.eqb map2 combine map fst snd].
  rewrite !Nat.mul_1_r, Nat.mul_1_l.
  set (t3 := build_tensor _ _).
  assert (Hw3 : wf t3) by apply wf_build.
  assert (Hs3 : shape t3 = [B1; n; H0; H0; W; W]) by reflexivity.
  clearbody t3.
  destruct Hmask as [-> | ->]; unfold mask_w, mask_h;
    rewrite K_permute_dimensions_ok by (rewrite Hs3; reflexivity);
    rewrite Hs3; cbn [rbind length seq map nth];
    set (t4 := build_tensor _ _);
    (rewrite (K_reshape_infer_ok t4 (s := [n; H0 * W; H0 * W]) B1);
      [|bounds|cbn [size fold_right]; repeat apply Nat.mul_pos_pos; lia
       |subst t4; rewrite shape_build; cbn [size fold_right]; ring]);
    (eexists; split; [reflexivity|]; split; [reflexivity|]);
    (apply wf_reshaped; [apply wf_build|subst t4; rewrite shape_build; cbn [size fold_right]; ring]).
Qed.

Lemma relative_logits_1d_indivisible (l : Layer R) (q rel_k : tensor R)
    (mask : list nat) (B n H0 W d M0 : nat) :
  num_heads l = Z.of_nat n -> 0 < n -> 0 < H0 -> 0 < W ->
  shape q = [B; n; H0; W; d] -> shape rel_k = [M0; d] ->
  (B * M0) mod (2 * W - 1) <> 0 ->
  relative_logits_1d l q (Some rel_k) (Z.of_nat H0) (Z.of_nat W) mask =
  Err InvalidArgumentError.
Proof.
  intros Hn Hnpos HH HW Hq Hk HB.
  assert (Hpos3 : 0 < n * H0 * W) by (repeat apply Nat.mul_pos_pos; assumption).
  edestruct tf_einsum_ok as (t1 & Ht1 & Hs1 & Hw1); [exact Hq|exact Hk|].
  unfold relative_logits_1d. cbn [attr rbind]. rewrite Ht1, Hn. cbn [rbind].
  rewrite (K_reshape_infer_mismatch t1 (s := [n * H0; W; 2 * W - 1]));
    [reflexivity|bounds|cbn [size fold_right]; repeat apply Nat.mul_pos_pos; lia|].
  rewrite Hs1. cbn [size fold_right].
  replace (B * (n * (H0 * (W * (M0 * 1))))) with (n * H0 * W * (B * M0)) by ring.
  replace (n * H0 * (W * ((2 * W - 1) * 1))) with (n * H0 * W * (2 * W - 1)) by ring.
  rewrite Nat.Div0.mul_mod_distr_l.
  intros Hz. apply Nat.eq_mul_0 in Hz as [Hz|Hz]; [lia|contradiction].
Qed.

Lemma relative_logits_shape (l : Layer R) (q krw krh : tensor R)
    (B B1 B2 n H0 W d Mw Mh : nat) :
  num_heads l = Z.of_nat n -> 0 < n -> 0 < H0 -> 0 < W ->
  key_relative_w l = Some krw -> key_relative_h l = Some krh ->
  shape q = [B; n; H0; W; d] -> shape krw = [Mw; d] -> shape krh = [Mh; d] ->
  B * Mw = B1 * (2 * W - 1) -> B * Mh = B2 * (2 * H0 - 1) ->
  exists h_rel w_rel,
    relative_logits l q = Ok (h_rel, w_rel) /\
    shape h_rel = [B2; n; H0 * W; H0 * W] /\ wf h_rel /\
    shape w_rel = [B1; n; H0 * W; H0 * W] /\ wf w_rel.
Proof.
  intros Hn Hnpos HH HW Hkw Hkh Hq Hsw Hsh HB1 HB2.
  edestruct relative_logits_1d_shape
    with (l := l) (q := q) (rel_k := krw) (mask := mask_w) (B1 := B1)
    as (w_rel & Hw & Hsw' & Hww);
    [exact Hn|exact Hnpos|exact HH|exact HW|exact Hq|exact Hsw|exact HB1|left; reflexivity|].
  unfold relative_logits, K_shape. rewrite Hq.
  cbn [rbind seq mapM map py_index nth_error].
  rewrite Hkw, Hkh. fold mask_w. rewrite Hw. cbn [rbind].
  rewrite K_permute_dimensions_ok by (rewrite Hq; reflexivity).
  rewrite Hq. cbn [rbind length seq map nth index_of Nat.eqb].
  set (qT := build_tensor _ _).
  edestruct relative_logits_1d_shape
    with (l := l) (q := qT) (rel_k := krh) (mask := mask_h) (H0 := W) (W := H0) (B1 := B2)
    as (h_rel & Hh & Hsh' & Hwh);
    [exact Hn|exact Hnpos|exact HW|exact HH|reflexivity|exact Hsh|exact HB2
    |right; reflexivity|].
  fold mask_h. rewrite Hh. cbn [rbind].
  exists h_rel, w_rel. rewrite (Nat.mul_comm W H0) in Hsh'. auto.
Qed.

Lemma relative_logits_1d_cases (l : Layer R) (q rel_k : tensor R)
    (mask : list nat) (B n H0 W d M0 : nat) :
  num_heads l = Z.of_nat n -> 0 < n -> 0 < H0 -> 0 < W ->
  shape q = [B; n; H0; W; d] -> shape rel_k = [M0; d] ->
  mask = mask_w \/ mask = mask_h ->
  relative_logits_1d l q (Some rel_k) (Z.of_nat H0) (Z.of_nat W) mask =
    Err InvalidArgumentError \/
  exists B1 y,
    relative_logits_1d l q (Some rel_k) (Z.of_nat H0) (Z.of_nat W) mask = Ok y /\
    shape y = [B1; n; H0 * W; H0 * W] /\ B * M0 = B1 * (2 * W - 1).
Proof.
  intros Hn Hnpos HH HW Hq Hk Hmask.
  destruct (Nat.eq_dec ((B * M0) mod (2 * W - 1)) 0) as [Hdiv|Hndiv].
  - right. apply Nat.Lcm0.mod_divide in Hdiv. destruct Hdiv as [B1 HB1].
    edestruct relative_logits_1d_shape
      with (l := l) (q := q) (rel_k := rel_k) (mask := mask) (B1 := B1)
      as (y & Hy & Hsy & _);
      [exact Hn|exact Hnpos|exact HH|exact HW|exact Hq|exact Hk|exact HB1|exact Hmask|].
    exists B1, y. auto.
  - left. eapply relative_logits_1d_indivisible; eassumption.
Qed.

(** *** [call], lines 82-100 *)

Lemma add_relative_state (q logits y : tensor R) (l l' : Layer R) :
  add_relative q logits l = Ok (y, l') -> l' = l.
Proof.
  unfold add_relative. rewrite bind_self.
  destruct (relative l).
  - intros Ha. apply lift_inv in Ha as [_ ->]. reflexivity.
  - intros [= _ <-]. reflexivity.
Qed.

Lemma add_relative_disabled (q logits : tensor R) (l : Layer R) :
  relative l = false -> add_relative q logits l = Ok (logits, l).
Proof. intros Hrel. unfold add_relative. rewrite bind_self, Hrel. reflexivity. Qed.

Lemma softmax_input_spec (x : tensor R) (l : Layer R) (B H0 W n d e : nat) :
  configured l n d e -> 0 < H0 -> 0 < W ->
  (relative l = true -> tables_sized l H0 W d) ->
  shape x = [B; H0; W; 2 * (n * d) + n * e] -> wf x ->
  exists logits flat_v,
    softmax_input x l =
      Ok (logits, flat_v,
          set_spatial l (Some (Z.of_nat B)) (Some (Z.of_nat H0)) (Some (Z.of_nat W))) /\
    shape logits = [B; n; H0 * W; H0 * W] /\ shape flat_v = [B; n; H0 * W; e].
Proof.
  intros Hcfg HH HW Htab Hx Hwf.
  destruct (content_logits_spec Hcfg Hx Hwf)
    as (q & lg & fv & Hc & Hsq & Hwq & Hsl & Hwl & Hsv & Hwv & _).
  unfold softmax_input. erewrite bind_ok by exact Hc. cbn beta iota.
  unfold add_relative. rewrite bind_bind, bind_self. cbn [relative set_spatial].
  destruct (relative l) eqn:Hrel.
  - destruct (Htab eq_refl) as (krw & krh & Hkw & Hkh & Hsw & Hsh & _).
    edestruct relative_logits_shape
      with (l := set_spatial l (Some (Z.of_nat B)) (Some (Z.of_nat H0)) (Some (Z.of_nat W)))
           (q := q) (B1 := B) (B2 := B)
      as (h_rel & w_rel & Hr & Hshr & _ & Hswr & _);
      [exact (cfg_heads Hcfg)|exact (cfg_n Hcfg)|exact HH|exact HW
      |exact Hkw|exact Hkh|exact Hsq|exact Hsw|exact Hsh|reflexivity|reflexivity|].
    rewrite Hr. cbn [rbind].
    destruct (tf_add_same lg h_rel Hsl Hshr) as (lg1 & Ha1 & Hs1 & _).
    rewrite Ha1. cbn [rbind].
    destruct (tf_add_same lg1 w_rel Hs1 Hswr) as (lg2 & Ha2 & Hs2 & _).
    rewrite Ha2, bind_lift_ok. unfold ret.
    exists lg2, fv. auto.
  - rewrite bind_ret. unfold ret. exists lg, fv. auto.
Qed.


Lemma aggregate_spec (logits flat_v : tensor R) (l : Layer R) (B H0 W n d e : nat) :
  configured l n d e ->
  _batch l = Some (Z.of_nat B) -> _height l = Some (Z.of_nat H0) ->
  _width l = Some (Z.of_nat W) ->
  shape logits = [B; n; H0 * W; H0 * W] ->
  shape flat_v = [B; n; H0 * W; e] ->
  exists y, aggregate logits flat_v l = Ok (y, l) /\
            shape y = [B; H0; W; n * e] /\ wf y.
Proof.
  intros [Hax _ Hn _ Hdv Hnpos _] Hb Hh Hw Hlg Hfv.
  destruct (K_softmax_ok logits) as (wts & Hs & Hsw & _); [rewrite Hlg; discriminate|].
  rewrite Hlg in Hsw.
  unfold aggregate.
  rewrite Hs, bind_lift_ok.
  erewrite tf_matmul_nt by (try exact Hsw; exact Hfv).
  rewrite bind_lift_ok, bind_self, Hb, Hh, Hw. cbn [attr].
  rewrite !bind_lift_ok, Hn, Hdv, floordiv_of_nat by assumption.
  replace (n * e / n) with e by (rewrite Nat.mul_comm, Nat.div_mul; lia).
  rewrite bind_lift_ok.
  set (o := build_tensor _ _).
  rewrite (K_reshape_ok o (s := [B; n; H0; W; e]));
    [|bounds|subst o; rewrite shape_build; cbn [size fold_right]; lia].
  rewrite bind_lift_ok.
  destruct (combine_heads_2d_spec (x := mkT [B; n; H0; W; e] (data o)) eq_refl)
    as (y & Hy & Hsy & Hwy & _).
  { apply wf_reshaped; [apply wf_build|subst o; rewrite shape_build; cbn [size fold_right]; lia]. }
  rewrite Hy, bind_lift_ok, Hax. cbn [Z.eqb lift].
  exists y. split; [reflexivity|split; assumption].
Qed.

Lemma aggregate_state (logits flat_v y : tensor R) (l l' : Layer R) :
  aggregate logits flat_v l = Ok (y, l') -> l' = l.
Proof.
  unfold aggregate. intros Ha.
  apply bind_lift_inv in Ha as (? & _ & Ha).
  apply bind_lift_inv in Ha as (? & _ & Ha).
  rewrite bind_self in Ha.
  repeat (apply bind_lift_inv in Ha as (? & _ & Ha)).
  apply lift_inv in Ha as [_ ->]. reflexivity.
Qed.

(** *** [call] *)

Lemma call_spec (x : tensor R) (l : Layer R) (B H0 W n d e : nat) :
  configured l n d e -> 0 < H0 -> 0 < W ->
  (relative l = true -> tables_sized l H0 W d) ->
  shape x = [B; H0; W; 2 * (n * d) + n * e] -> wf x ->
  exists y,
    call x l =
      Ok (y, set_spatial l (Some (Z.of_nat B)) (Some (Z.of_nat H0)) (Some (Z.of_nat W))) /\
    shape y = [B; H0; W; n * e] /\ wf y.
Proof.
  intros Hcfg HH HW Htab Hx Hwf.
  edestruct softmax_input_spec as (lg & fv & Hs & Hsl & Hsv);
    [exact Hcfg|exact HH|exact HW|exact Htab|exact Hx|exact Hwf|].
  unfold call. erewrite bind_ok by exact Hs. cbn beta iota.
  eapply aggregate_spec; try eassumption; try reflexivity.
  apply configured_spatial. exact Hcfg.
Qed.



Lemma call_indivisible (x : tensor R) (l : Layer R) (shp : list (option Z))
    (B H0 W dk dv n : nat) :
  axis l = (-1)%Z -> _shape l = Some shp -> length shp = 4 ->
  depth_k l = Z.of_nat dk -> depth_v l = Z.of_nat dv ->
  num_heads l = Z.of_nat n -> 0 < n -> dk mod n <> 0 ->
  shape x = [B; H0; W; 2 * dk + dv] -> 0 < B * H0 * W ->
  call x l = Err InvalidArgumentError.
Proof.
  intros Hax Hshp Hlen Hdk Hdv Hn Hpos Hmod Hx Hne.
  unfold call. apply bind_err. unfold softmax_input. apply bind_err.
  unfold content_logits. apply bind_err.
  unfold project_heads. rewrite bind_self, Hax. cbn [Z.eqb].
  rewrite bind_lift_ok, Hdk, Hdv.
  erewrite tf_split_qkv by exact Hx. rewrite bind_lift_ok.
  apply bind_err.
  eapply split_heads_2d_indivisible; try eassumption.
  eapply slice_last_shape4; eassumption.
Qed.

End LayerFacts.

(** *** A call at another extent than the tables were sized for *)

Section ExtentFacts.

Context {R : Type} `{Scalar R}.

(* the batch size the reshape infers along a rejected axis is neither the
   batch size of the input nor 1 *)
Lemma extent_rejected_batch (B E1 E0 B' : nat) :
  1 <= B -> 0 < E1 -> 0 < E0 -> extent_rejected B E1 E0 ->
  B * (2 * E1 - 1) = B' * (2 * E0 - 1) ->
  B' <> 1 /\ B' <> B.
Proof.
  intros HB HE1 HE0 (Hne & Hone) HB'. split; [lia|].
  intros ->. apply Nat.mul_cancel_l in HB'; lia.
Qed.

(* the broadcasting add of two rank-4 tensors that differ in the batch extent
   only: it fails with the backend's error or returns the larger batch *)
Lemma tf_add_batch_cases (a b : tensor R) (A0 B0 n P Q : nat) :
  shape a = [A0; n; P; Q] -> shape b = [B0; n; P; Q] ->
  tf_add a b = Err InvalidArgumentError \/
  exists y, tf_add a b = Ok y /\
    (shape y = [A0; n; P; Q] /\ (B0 = A0 \/ B0 = 1) \/
     shape y = [B0; n; P; Q] /\ A0 = 1).
Proof.
  intros Ha Hb. unfold tf_add, bcast_shape.
  rewrite Ha, Hb. cbn [rev app bcast_rev]. rewrite !Nat.eqb_refl.
  destruct (Nat.eqb_spec A0 B0) as [<-|Hne].
  - right. eexists. split; [reflexivity|]. left. split; [reflexivity|]. left. reflexivity.
  - destruct (Nat.eqb_spec A0 1) as [->|Ha1].
    + right. eexists. split; [reflexivity|]. right. split; reflexivity.
    + destruct (Nat.eqb_spec B0 1) as [->|Hb1].
      * right. eexists. split; [reflexivity|]. left. split; [reflexivity|]. right. reflexivity.
      * left. reflexivity.
Qed.

Lemma relative_logits_outcomes (l : Layer R) (q krw krh : tensor R)
    (B n H0 W d Mw Mh : nat) :
  num_heads l = Z.of_nat n -> 0 < n -> 0 < H0 -> 0 < W ->
  key_relative_w l = Some krw -> key_relative_h l = Some krh ->
  shape q = [B; n; H0; W; d] -> shape krw = [Mw; d] -> shape krh = [Mh; d] ->
  relative_logits l q = Err InvalidArgumentError \/
  (exists B1 B2 h_rel w_rel,
     relative_logits l q = Ok (h_rel, w_rel) /\
     shape h_rel = [B2; n; H0 * W; H0 * W] /\ B * Mh = B2 * (2 * H0 - 1) /\
     shape w_rel = [B1; n; H0 * W; H0 * W] /\ B * Mw = B1 * (2 * W - 1)).
Proof.
  intros Hn Hnpos HH HW Hkw Hkh Hq Hsw Hsh.
  unfold relative_logits, K_shape. rewrite Hq.
  cbn [rbind seq mapM map py_index nth_error]. rewrite Hkw, Hkh.
  edestruct relative_logits_1d_cases
    with (l := l) (q := q) (rel_k := krw) (mask := mask_w)
    as [Hw | (B1 & w_rel & Hw & Hsw' & HB1)];
    [exact Hn|exact Hnpos|exact HH|exact HW|exact Hq|exact Hsw|left; reflexivity| |];
    fold mask_w; rewrite Hw; cbn [rbind]; [left; reflexivity|].
  rewrite K_permute_dimensions_ok by (rewrite Hq; reflexivity).
  rewrite Hq. cbn [rbind length seq map nth index_of Nat.eqb].
  set (qT := build_tensor _ _).
  edestruct relative_logits_1d_cases
    with (l := l) (q := qT) (rel_k := krh) (mask := mask_h) (H0 := W) (W := H0)
    as [Hh | (B2 & h_rel & Hh & Hsh' & HB2)];
    [exact Hn|exact Hnpos|exact HW|exact HH|reflexivity|exact Hsh|right; reflexivity| |];
    fold mask_h; rewrite Hh; cbn [rbind]; [left; reflexivity|].
  right. exists B1, B2, h_rel, w_rel.
  rewrite (Nat.mul_comm W H0) in Hsh'. auto 10.
Qed.

(* logits whose batch extent is neither that of the values nor 1 cannot be
   aggregated: the product broadcasts only from a single image, and its
   result then has more elements than the recorded extents allow *)
Lemma aggregate_batch_mismatch (logits flat_v : tensor R) (l : Layer R)
    (B Bx H0 W n d e : nat) :
  configured l n d e ->
  _batch l = Some (Z.of_nat B) -> _height l = Some (Z.of_nat H0) ->
  _width l = Some (Z.of_nat W) ->
  0 < H0 -> 0 < W -> 0 < e ->
  shape logits = [Bx; n; H0 * W; H0 * W] ->
  shape flat_v = [B; n; H0 * W; e] ->
  Bx <> B -> Bx <> 1 ->
  aggregate logits flat_v l = Err InvalidArgumentError.
Proof.
  intros [Hax _ Hn _ Hdv Hnpos _] Hb Hh Hw HH HW He Hlg Hfv HneB Hne1.
  destruct (K_softmax_ok logits) as (wts & Hs & Hsw & _); [rewrite Hlg; discriminate|].
  rewrite Hlg in Hsw.
  unfold aggregate. rewrite Hs, bind_lift_ok.
  unfold tf_matmul, bcast_dim. rewrite Hsw, Hfv, !Nat.eqb_refl.
  destruct (Nat.eqb_spec Bx B) as [|_]; [contradiction|].
  destruct (Nat.eqb_spec Bx 1) as [|_]; [contradiction|].
  destruct (Nat.eqb_spec B 1) as [->|_]; cbn [rbind]; [|apply bind_lift_err].
  rewrite bind_lift_ok, bind_self, Hb, Hh, Hw. cbn [attr].
  rewrite !bind_lift_ok, Hn, Hdv, floordiv_of_nat by assumption.
  replace (n * e / n) with e by (rewrite Nat.mul_comm, Nat.div_mul; lia).
  rewrite bind_lift_ok.
  set (o := build_tensor _ _).
  rewrite (K_reshape_mismatch o (s := [1; n; H0; W; e])); [apply bind_lift_err|bounds|].
  subst o. rewrite shape_build. cbn [size fold_right].
  assert (Hpos : 0 < n * (H0 * W) * e) by (repeat apply Nat.mul_pos_pos; assumption).
  intros Heq.
  assert (Heq' : n * (H0 * W) * e * 1 = n * (H0 * W) * e * Bx)
    by (transitivity (1 * (n * (H0 * (W * (e * 1))))); [ring|rewrite Heq; ring]).
  apply Nat.mul_cancel_l in Heq'; lia.
Qed.

Lemma call_extent_mismatch (x : tensor R) (l : Layer R)
    (B H0 W H1 W1 n d e : nat) :
  configured l n d e -> relative l = true -> tables_sized l H1 W1 d ->
  0 < H0 -> 0 < W -> 0 < H1 -> 0 < W1 -> 0 < e ->
  shape x = [B; H0; W; 2 * (n * d) + n * e] -> wf x ->
  1 <= B -> extent_rejected B H1 H0 \/ extent_rejected B W1 W ->
  call x l = Err InvalidArgumentError.
Proof.
  intros Hcfg Hrel (krw & krh & Hkw & Hkh & Hsw & Hsh & _) HH HW HH1 HW1 He Hx Hwf
    HB Hrej.
  destruct (content_logits_spec Hcfg Hx Hwf)
    as (q & lg & fv & Hc & Hsq & Hwq & Hsl & Hwl & Hsv & Hwv & _).
  set (l1 := set_spatial l _ _ _) in Hc.
  assert (Hcfg1 : configured l1 n d e) by (apply configured_spatial; exact Hcfg).
  unfold call, softmax_input.
  rewrite bind_bind. erewrite bind_ok by exact Hc. cbn beta iota.
  rewrite bind_bind.
  assert (Hadd : add_relative q lg l1 = Err InvalidArgumentError \/
                 exists lg2 Bx, add_relative q lg l1 = Ok (lg2, l1) /\
                   shape lg2 = [Bx; n; H0 * W; H0 * W] /\ Bx <> B /\ Bx <> 1).
  { unfold add_relative. rewrite bind_self. cbn [relative l1 set_spatial]. rewrite Hrel.
    edestruct relative_logits_outcomes with (l := l1) (q := q)
      as [Hr | (B1 & B2 & h_rel & w_rel & Hr & Hshr & HB2 & Hswr & HB1)];
      [exact (cfg_heads Hcfg)|exact (cfg_n Hcfg)|exact HH|exact HW
      |exact Hkw|exact Hkh|exact Hsq|exact Hsw|exact Hsh| |];
      rewrite Hr; cbn [rbind lift]; [left; reflexivity|].
    destruct (tf_add_batch_cases lg h_rel Hsl Hshr)
      as [Ha | (lg1 & Ha & Hs1)]; rewrite Ha; cbn [rbind]; [left; reflexivity|].
    assert (Hs1' : exists Bh, shape lg1 = [Bh; n; H0 * W; H0 * W] /\
                     (Bh = B /\ (B2 = B \/ B2 = 1) \/ Bh = B2 /\ B = 1)).
    { destruct Hs1 as [[Hs1 Hc1]|[Hs1 Hc1]]; eexists; (split; [exact Hs1|]);
        [left|right]; auto. }
    destruct Hs1' as (Bh & Hs1' & HBh).
    destruct (tf_add_batch_cases lg1 w_rel Hs1' Hswr)
      as [Ha2 | (lg2 & Ha2 & Hs2)]; rewrite Ha2; [left; reflexivity|].
    right.
    assert (Hs2' : exists Bx, shape lg2 = [Bx; n; H0 * W; H0 * W] /\
                     (Bx = Bh /\ (B1 = Bh \/ B1 = 1) \/ Bx = B1 /\ Bh = 1)).
    { destruct Hs2 as [[Hs2 Hc2]|[Hs2 Hc2]]; eexists; (split; [exact Hs2|]);
        [left|right]; auto. }
    destruct Hs2' as (Bx & Hs2' & HBx).
    exists lg2, Bx. split; [reflexivity|]. split; [exact Hs2'|].
    destruct Hrej as [Hrej|Hrej].
    - edestruct extent_rejected_batch as (Hn1 & HnB);
        [exact HB|exact HH1|exact HH|exact Hrej|exact HB2|]. lia.
    - edestruct extent_rejected_batch as (Hn1 & HnB);
        [exact HB|exact HW1|exact HW|exact Hrej|exact HB1|]. lia. }
  destruct Hadd as [Hadd | (lg2 & Bx & Hadd & Hs2 & HneB & Hne1)].
  - apply bind_err. exact Hadd.
  - erewrite bind_ok by exact Hadd. rewrite bind_ret.
    eapply aggregate_batch_mismatch with (B := B) (Bx := Bx) (H0 := H0) (W := W);
      [exact Hcfg1|reflexivity|reflexivity|reflexivity|exact HH|exact HW|exact He
      |exact Hs2|exact Hsv|exact HneB|exact Hne1].
Qed.

End ExtentFacts.

(** *** The dtypes of the forward pass *)




(** ** The forward pass: stated properties *)

Section Claims.

Context {R : Type} `{Scalar R}.

(** C1. For an input of shape [(B, N, L, 2L-1)] with [L >= 1], [rel_to_abs]
    returns a well-formed tensor of shape [(B, N, L, L)] whose entry
    [[b, n, i, j]] is the input entry [[b, n, i, j - i + (L - 1)]]; that column
    lies inside the input row, so no padding zero reaches the output. *)
Theorem rel_to_abs_index_mapping (x : tensor R) (B N L : nat) :
  shape x = [B; N; L; 2 * L - 1] -> 1 <= L -> wf x ->
  exists y,
    rel_to_abs x = Ok y /\ shape y = [B; N; L; L] /\ wf y /\
    forall b n i j, b < B -> n < N -> i < L -> j < L ->
      j + (L - 1) - i < 2 * L - 1 /\
      get y [b; n; i; j] = get x [b; n; i; j + (L - 1) - i].
Proof.
  intros Hx HL Hwf.
  destruct (rel_to_abs_spec Hx HL Hwf) as (y & Hy & Hs & Hw & Hg).
  exists y. repeat (split; [assumption|]).
  intros b n i j Hb Hn Hi Hj. split; [lia|]. apply Hg; assumption.
Qed.

(** C2. On a built layer with [n] heads and an input of shape [(B, H, W, C)]
    with [n] dividing [C], [split_heads_2d] succeeds, [combine_heads_2d] applied
    to its result gives back the original tensor, and head [h] of the split
    holds exactly the channels [h * (C / n) + c] for [c < C / n], in order. *)
Theorem split_combine_roundtrip (x : tensor R) (l : Layer R) (shp : list (option Z))
    (B H0 W C n : nat) :
  _shape l = Some shp -> length shp = 4 ->
  num_heads l = Z.of_nat n -> 0 < n -> C mod n = 0 ->
  shape x = [B; H0; W; C] -> wf x ->
  exists y l',
    split_heads_2d x l = Ok (y, l') /\
    shape y = [B; n; H0; W; C / n] /\
    combine_heads_2d y = Ok x /\
    forall b h i j c, b < B -> h < n -> i < H0 -> j < W -> c < C / n ->
      h * (C / n) + c < C /\
      get y [b; h; i; j; c] = get x [b; i; j; h * (C / n) + c].
Proof.
  intros Hshp Hlen Hn Hpos Hdiv Hx Hwf.
  set (d := C / n).
  assert (HC : C = n * d) by (pose proof (Nat.div_mod_eq C n); subst d; lia).
  rewrite HC in Hx.
  destruct (split_heads_2d_spec l d Hshp Hlen Hn Hpos Hx Hwf)
    as (y & Hy & Hsy & Hwy & Hgy).
  destruct (combine_heads_2d_spec Hsy Hwy) as (z & Hz & Hsz & Hwz & Hgz).
  exists y. eexists. split; [exact Hy|]. split; [exact Hsy|]. split.
  - rewrite Hz. f_equal.
    apply tensor_ext; [congruence|assumption|assumption|].
    rewrite Hsz. intros idx Hidx.
    apply in_bounds_inv4 in Hidx as (b & i & j & k & -> & Hb & Hi & Hj & Hk).
    assert (Hd : 0 < d) by (destruct d; lia).
    assert (Hkd : k = k / d * d + k mod d)
      by (pose proof (Nat.div_mod_eq k d); lia).
    assert (k / d < n) by (apply Nat.Div0.div_lt_upper_bound; lia).
    assert (k mod d < d) by (apply Nat.mod_upper_bound; lia).
    rewrite Hkd at 1. rewrite Hgz by assumption.
    rewrite Hgy by assumption. rewrite <- Hkd. reflexivity.
  - intros b h i j c Hb Hh Hi Hj Hc. split.
    + rewrite HC. apply head_offset_lt; assumption.
    + apply Hgy; assumption.
Qed.

(** C3 (amended). The constructor accepts integer depths whatever their
    divisibility by the number of heads; once the layer is built, a forward call
    on a non-empty channels-last input fails with the backend's
    [InvalidArgumentError], raised by the reshape of [split_heads_2d], when
    [depth_k] is not a multiple of [num_heads]. *)
Theorem indivisible_depth_k_detected_at_call (rel : bool) (st : Z * Z) (dk dv n : nat) :
  0 < n -> dk mod n <> 0 ->
  exists l0,
    __init__ (PyInt (Z.of_nat dk)) (PyInt (Z.of_nat dv)) (Z.of_nat n) rel st
      channels_last = Ok l0 /\
    forall (l : Layer R) (shp : list (option Z)) (sw sh : R -> nat -> R)
           (x : tensor R) (B H0 W : nat),
      build l0 shp sw sh = Ok l ->
      shape x = [B; H0; W; 2 * dk + dv] -> 0 < B * H0 * W ->
      call x l = Err InvalidArgumentError.
Proof.
  intros Hn Hmod. eexists. split; [reflexivity|].
  intros l shp sw sh x B H0 W Hb Hx Hne.
  apply build_fields in Hb as (Hax & Hdk & Hdv & Hnh & _ & Hshp & Hlen).
  eapply call_indivisible; try eassumption.
Qed.

(** C4 (amended). The layer never compares the extent of its input with the
    extent its tables were sized for.  With the tables sized by [build] for
    [H1 x W1] and [depth_v >= 1], a forward call on [B >= 1] inputs of extent
    [H0 x W] fails with the backend's shape error, [InvalidArgumentError]
    (raised by the reshape of [relative_logits_1d], by the broadcasting add or
    by the reshape of the attention output), when, along the height or along
    the width, the extent differs and [B * (2 E1 - 1)] is not [2 E0 - 1].
    Tables sized at 8 x 8 and a call at 16 x 16 meet this for every
    [B >= 1]. *)
Theorem call_after_extent_change_fails (x : tensor R) (l0 l : Layer R)
    (st : Z * Z) (bo : option Z) (C1 : Z) (sw sh : R -> nat -> R)
    (B H0 W H1 W1 n d e : nat) :
  0 < n -> 0 < d -> 0 < e -> 0 < H1 -> 0 < W1 -> 0 < H0 -> 0 < W ->
  __init__ (PyInt (Z.of_nat (n * d))) (PyInt (Z.of_nat (n * e))) (Z.of_nat n)
    true st channels_last = Ok l0 ->
  build l0 [bo; Some (Z.of_nat H1); Some (Z.of_nat W1); Some C1] sw sh = Ok l ->
  shape x = [B; H0; W; 2 * (n * d) + n * e] -> wf x ->
  1 <= B -> extent_rejected B H1 H0 \/ extent_rejected B W1 W ->
  call x l = Err InvalidArgumentError.
Proof.
  intros Hn Hd He HH1 HW1 HH HW Hinit Hbuild Hx Hwf HB Hrej.
  edestruct built_configured as (Hcfg & Hrel & Htab);
    [exact Hn|exact Hd|exact HH1|exact HW1|exact Hinit|exact Hbuild|].
  eapply call_extent_mismatch with (H1 := H1) (W1 := W1) (B := B);
    [exact Hcfg|exact Hrel|apply Htab; reflexivity|exact HH|exact HW|exact HH1|exact HW1
    |exact He|exact Hx|exact Hwf|exact HB|exact Hrej].
Qed.

(** C5. With [relative = False] the logits handed to the softmax are the
    content logits themselves, and the forward pass is the content-only
    attention: no positional term is computed or added. *)
Theorem relative_disabled_content_only (x : tensor R) (l : Layer R) :
  relative l = false ->
  softmax_input x l =
    bind (content_logits x) (fun '(_, logits, flat_v) => ret (logits, flat_v)) l /\
  call x l = content_only_attention x l.
Proof.
  intros Hrel.
  assert (Hs : softmax_input x l =
    bind (content_logits x) (fun '(_, logits, flat_v) => ret (logits, flat_v)) l).
  { unfold softmax_input. apply bind_ext_on.
    intros [[q lg] fv] l1 Hc.
    destruct (content_logits_state _ _ Hc) as (b & h & w & ->).
    erewrite bind_ok by (apply add_relative_disabled; exact Hrel).
    reflexivity. }
  split; [exact Hs|].
  unfold call, content_only_attention.
  erewrite bind_congr by exact Hs. rewrite bind_bind.
  apply bind_ext. intros [[q lg] fv] l1. reflexivity.
Qed.

(** C6. For a layer constructed with integer depths [depth_k = n * d > 0] and
    [depth_v = n * e], built on channels-last inputs of extent [H x W], the
    forward pass on any well-formed input of shape [(B, H, W, 2 depth_k +
    depth_v)] returns a well-formed tensor of shape [(B, H, W, depth_v)], and
    [compute_output_shape] reports the same shape. *)
Theorem call_output_shape (x : tensor R) (l0 l : Layer R) (rel : bool)
    (st : Z * Z) (bo : option Z) (sw sh : R -> nat -> R)
    (B H0 W n d e : nat) :
  0 < n -> 0 < d -> 0 < H0 -> 0 < W ->
  __init__ (PyInt (Z.of_nat (n * d))) (PyInt (Z.of_nat (n * e))) (Z.of_nat n)
    rel st channels_last = Ok l0 ->
  build l0 [bo; Some (Z.of_nat H0); Some (Z.of_nat W);
            Some (Z.of_nat (2 * (n * d) + n * e))] sw sh = Ok l ->
  shape x = [B; H0; W; 2 * (n * d) + n * e] -> wf x ->
  (exists y l', call x l = Ok (y, l') /\ shape y = [B; H0; W; n * e] /\ wf y) /\
  compute_output_shape l
    [bo; Some (Z.of_nat H0); Some (Z.of_nat W); Some (Z.of_nat (2 * (n * d) + n * e))] =
  Ok [bo; Some (Z.of_nat H0); Some (Z.of_nat W); Some (Z.of_nat (n * e))].
Proof.
  intros Hn Hd HH HW Hinit Hbuild Hx Hwf.
  edestruct built_configured as (Hcfg & Hrel & Htab);
    [exact Hn|exact Hd|exact HH|exact HW|exact Hinit|exact Hbuild|].
  split.
  - edestruct call_spec as (y & Hy & Hsy & Hwy);
      [exact Hcfg|exact HH|exact HW| |exact Hx|exact Hwf|].
    + rewrite Hrel. exact Htab.
    + exists y. eexists. split; [exact Hy|]. split; assumption.
  - unfold compute_output_shape.
    rewrite (cfg_axis Hcfg), (cfg_dv Hcfg). reflexivity.
Qed.

(** C7. The query handed on by the head split is already multiplied by
    [(depth_k / num_heads) ** -0.5] while it still has its two spatial axes, and
    the content logits have shape [(B, n, H*W, H*W)] with entry
    [[b, h, i*W+j, i'*W+j']] the dot product over the head's [d] channels of
    the scaled query at position [(i, j)] with the key at position [(i', j')]. *)
Theorem content_logits_scaled_query (x : tensor R) (l0 l : Layer R) (rel : bool)
    (st : Z * Z) (bo : option Z) (C1 : Z) (sw sh : R -> nat -> R)
    (B H0 W n d e : nat) :
  0 < n -> 0 < d -> 0 < H0 -> 0 < W ->
  __init__ (PyInt (Z.of_nat (n * d))) (PyInt (Z.of_nat (n * e))) (Z.of_nat n)
    rel st channels_last = Ok l0 ->
  build l0 [bo; Some (Z.of_nat H0); Some (Z.of_nat W); Some C1] sw sh = Ok l ->
  shape x = [B; H0; W; 2 * (n * d) + n * e] -> wf x ->
  let c := frsqrt (Z.of_nat (n * d)) (Z.of_nat n) in
  exists q logits flat_v l',
    content_logits x l = Ok (q, logits, flat_v, l') /\
    shape q = [B; n; H0; W; d] /\
    shape logits = [B; n; H0 * W; H0 * W] /\
    (forall b h i j k, b < B -> h < n -> i < H0 -> j < W -> k < d ->
       get q [b; h; i; j; k] = fmul (get x [b; i; j; h * d + k]) c) /\
    (forall b h i j i' j', b < B -> h < n -> i < H0 -> j < W -> i' < H0 -> j' < W ->
       get logits [b; h; i * W + j; i' * W + j'] =
       fsum d (fun k =>
         fmul (fmul (get x [b; i; j; h * d + k]) c)
              (get x [b; i'; j'; n * d + h * d + k]))).
Proof.
  intros Hn Hd HH HW Hinit Hbuild Hx Hwf c.
  edestruct built_configured as (Hcfg & _ & _);
    [exact Hn|exact Hd|exact HH|exact HW|exact Hinit|exact Hbuild|].
  destruct (content_logits_spec Hcfg Hx Hwf)
    as (q & lg & fv & Hc & Hsq & Hwq & Hsl & Hwl & Hsv & Hwv & Hgq & Hgl).
  rewrite (cfg_dk Hcfg), (cfg_heads Hcfg) in Hgq, Hgl.
  exists q, lg, fv. eexists. split; [exact Hc|]. auto.
Qed.

(** C9. For [L = 1], [rel_to_abs] runs the same pad / reshape / slice sequence
    and returns its [(B, N, 1, 1)] input unchanged. *)
Theorem rel_to_abs_single_position (x : tensor R) (B N : nat) :
  shape x = [B; N; 1; 1] -> wf x -> rel_to_abs x = Ok x.
Proof.
  intros Hx Hwf.
  destruct (rel_to_abs_spec (L := 1) Hx (le_n 1) Hwf) as (y & Hy & Hs & Hw & Hg).
  rewrite Hy. f_equal.
  apply tensor_ext; [congruence|assumption|assumption|].
  rewrite Hs. intros idx Hidx.
  apply in_bounds_inv4 in Hidx as (b & n & i & j & -> & Hb & Hn & Hi & Hj).
  rewrite Hg by assumption.
  replace i with 0 by lia. replace j with 0 by lia. reflexivity.
Qed.


End Claims.

(** ** Further properties of the layer *)

(** *** The relative logits, entry by entry *)

Section RelativeAxisValues.

Context {R : Type} `{Scalar R}.

Lemma tf_einsum_eq (q rel_k : tensor R) (B n H0 W d M0 : nat) :
  shape q = [B; n; H0; W; d] -> shape rel_k = [M0; d] ->
  tf_einsum_bhxyd_md q rel_k =
  Ok (build_tensor [B; n; H0; W; M0]
        (fun idx =>
           match idx with
           | [ib; ih; ix; iy; im] =>
               fsum d (fun c => fmul (get q [ib; ih; ix; iy; c]) (get rel_k [im; c]))
           | _ => fzero
           end)).
Proof.
  intros Hq Hk. unfold tf_einsum_bhxyd_md. rewrite Hq, Hk, Nat.eqb_refl. reflexivity.
Qed.

(* the relative logits along one axis, before the final flattening is undone:
   the score of query position [(u, v)] against key offset [v' - v] *)
Lemma relative_logits_1d_values (l : Layer R) (q rel_k : tensor R)
    (mask : list nat) (B n H0 W d : nat) :
  num_heads l = Z.of_nat n -> 0 < n -> 0 < H0 -> 0 < W ->
  shape q = [B; n; H0; W; d] -> shape rel_k = [2 * W - 1; d] ->
  mask = mask_w \/ mask = mask_h ->
  exists y,
    relative_logits_1d l q (Some rel_k) (Z.of_nat H0) (Z.of_nat W) mask = Ok y /\
    shape y = [B; n; H0 * W; H0 * W] /\ wf y /\
    forall b h u v u' v', b < B -> h < n -> u < H0 -> v < W -> u' < H0 -> v' < W ->
      get y (if list_eqb mask mask_w
             then [b; h; u * W + v; u' * W + v']
             else [b; h; v * H0 + u; v' * H0 + u']) =
      fsum d (fun c => fmul (get q [b; h; u; v; c]) (get rel_k [v' + (W - 1) - v; c])).
Proof.
  intros Hn Hnpos HH HW Hq Hk Hmask.
  assert (HK : 0 < 2 * W - 1) by lia.
  unfold relative_logits_1d. cbn [attr rbind].
  erewrite tf_einsum_eq by eassumption. rewrite Hn. cbn [rbind].
  set (t1 := build_tensor _ _).
  assert (Hsz1 : size (shape t1) = B * size [n * H0; W; 2 * W - 1])
    by (subst t1; rewrite shape_build; cbn [size fold_right]; ring).
  rewrite (K_reshape_infer_ok t1 (s := [n * H0; W; 2 * W - 1]) B);
    [|bounds|cbn [size fold_right]; repeat apply Nat.mul_pos_pos; lia|exact Hsz1].
  cbn [rbind].
  destruct (rel_to_abs_spec (x := mkT [B; n * H0; W; 2 * W - 1] (data t1))
              (L := W) eq_refl) as (t2 & Ht2 & Hs2 & Hw2 & Hg2); [lia| |].
  { apply wf_reshaped; [apply wf_build|exact (eq_sym Hsz1)]. }
  rewrite Ht2. cbn [rbind].
  rewrite (K_reshape_infer_ok t2 (s := [n; H0; W; W]) B);
    [|bounds|cbn [size fold_right]; repeat apply Nat.mul_pos_pos; lia
     |rewrite Hs2; cbn [size fold_right]; ring].
  cbn [rbind]. unfold K_expand_dims. cbn [shape length Nat.leb firstn skipn app rbind].
  unfold K_tile.
  rewrite (to_shape_ok (s := [1; 1; 1; H0; 1; 1])) by bounds.
  cbn [rbind shape length Nat.eqb map2 combine map fst snd].
  rewrite !Nat.mul_1_r, Nat.mul_1_l.
  set (t3 := build_tensor _ _).
  assert (Hg3 : forall b h u u' v v',
             b < B -> h < n -> u < H0 -> u' < H0 -> v < W -> v' < W ->
             get t3 [b; h; u; u'; v; v'] =
             fsum d (fun c => fmul (get q [b; h; u; v; c])
                                   (get rel_k [v' + (W - 1) - v; c]))).
  { intros b h u u' v v' Hb Hh Hu Hu' Hv Hv'. subst t3.
    rewrite get_build by bounds.
    unfold map2. cbn [shape combine map fst snd].
    rewrite Nat.mod_1_r, !Nat.mod_small by assumption. cbn [data].
    rewrite (get_reshaped t2 _ _ [b; h * H0 + u; v; v'])
      by (rewrite Hs2; cbn [ravel size fold_right]; ring).
    assert (h * H0 + u < n * H0) by (apply head_offset_lt; assumption).
    rewrite Hg2 by assumption.
    rewrite (get_reshaped t1 _ _ [b; h; u; v; v' + (W - 1) - v])
      by (subst t1; rewrite shape_build; cbn [ravel size fold_right]; ring).
    subst t1. rewrite get_build by bounds. reflexivity. }
  assert (Hw3 : wf t3) by apply wf_build.
  assert (Hs3 : shape t3 = [B; n; H0; H0; W; W]) by reflexivity.
  clearbody t3. clear Hg2 Ht2.
  destruct Hmask as [-> | ->]; unfold mask_w, mask_h;
    rewrite K_permute_dimensions_ok by (rewrite Hs3; reflexivity);
    rewrite Hs3; cbn [rbind length seq map nth list_eqb Nat.eqb andb];
    set (t4 := build_tensor _ _);
    (rewrite (K_reshape_infer_ok t4 (s := [n; H0 * W; H0 * W]) B);
      [|bounds|cbn [size fold_right]; repeat apply Nat.mul_pos_pos; lia
       |subst t4; rewrite shape_build; cbn [size fold_right]; ring]);
    (eexists; split; [reflexivity|]; split; [reflexivity|]);
    (split;
      [apply wf_reshaped;
        [apply wf_build|subst t4; rewrite shape_build; cbn [size fold_right]; ring]|]);
    intros b h u v u' v' Hb Hh Hu Hv Hu' Hv'.
  - rewrite (get_reshaped t4 _ _ [b; h; u; v; u'; v'])
      by (subst t4; rewrite shape_build; cbn [ravel size fold_right]; ring).
    subst t4. rewrite get_build by bounds.
    cbn [map nth index_of Nat.eqb]. apply Hg3; assumption.
  - rewrite (get_reshaped t4 _ _ [b; h; v; u; v'; u'])
      by (subst t4; rewrite shape_build; cbn [ravel size fold_right]; ring).
    subst t4. rewrite get_build by bounds.
    cbn [map nth index_of Nat.eqb]. apply Hg3; assumption.
Qed.

End RelativeAxisValues.

Section RelativeValues.

Context {R : Type} `{Scalar R}.

Lemma relative_logits_values (l : Layer R) (q krw krh : tensor R)
    (B n H0 W d : nat) :
  num_heads l = Z.of_nat n -> 0 < n -> 0 < H0 -> 0 < W ->
  key_relative_w l = Some krw -> key_relative_h l = Some krh ->
  shape q = [B; n; H0; W; d] ->
  shape krw = [2 * W - 1; d] -> shape krh = [2 * H0 - 1; d] ->
  exists h_rel w_rel,
    relative_logits l q = Ok (h_rel, w_rel) /\
    shape h_rel = [B; n; H0 * W; H0 * W] /\ wf h_rel /\
    shape w_rel = [B; n; H0 * W; H0 * W] /\ wf w_rel /\
    forall b h i j i' j', b < B -> h < n -> i < H0 -> j < W -> i' < H0 -> j' < W ->
      get h_rel [b; h; i * W + j; i' * W + j'] =
        fsum d (fun c => fmul (get q [b; h; i; j; c])
                              (get krh [i' + (H0 - 1) - i; c])) /\
      get w_rel [b; h; i * W + j; i' * W + j'] =
        fsum d (fun c => fmul (get q [b; h; i; j; c])
                              (get krw [j' + (W - 1) - j; c])).
Proof.
  intros Hn Hnpos HH HW Hkw Hkh Hq Hsw Hsh.
  edestruct relative_logits_1d_values
    with (l := l) (q := q) (rel_k := krw) (mask := mask_w)
    as (w_rel & Hw & Hsw' & Hww & Hgw);
    [exact Hn|exact Hnpos|exact HH|exact HW|exact Hq|exact Hsw|left; reflexivity|].
  unfold relative_logits, K_shape. rewrite Hq.
  cbn [rbind seq mapM map py_index nth_error].
  rewrite Hkw, Hkh. fold mask_w. rewrite Hw. cbn [rbind].
  rewrite K_permute_dimensions_ok by (rewrite Hq; reflexivity).
  rewrite Hq. cbn [rbind length seq map nth index_of Nat.eqb].
  set (qT := build_tensor _ _).
  edestruct relative_logits_1d_values
    with (l := l) (q := qT) (rel_k := krh) (mask := mask_h) (H0 := W) (W := H0)
    as (h_rel & Hh & Hsh' & Hwh & Hgh);
    [exact Hn|exact Hnpos|exact HW|exact HH|reflexivity|exact Hsh|right; reflexivity|].
  fold mask_h. rewrite Hh. cbn [rbind].
  exists h_rel, w_rel. rewrite (Nat.mul_comm W H0) in Hsh'.
  repeat (split; [first [reflexivity|assumption]|]).
  intros b h i j i' j' Hb Hhh Hi Hj Hi' Hj'. split.
  - specialize (Hgh b h j i j' i' Hb Hhh Hj Hi Hj' Hi').
    cbn [list_eqb mask_h mask_w Nat.eqb andb] in Hgh. rewrite Hgh.
    apply fsum_ext. intros c Hc.
    subst qT. rewrite get_build by bounds. reflexivity.
  - specialize (Hgw b h i j i' j' Hb Hhh Hi Hj Hi' Hj').
    cbn [list_eqb mask_w Nat.eqb andb] in Hgw. exact Hgw.
Qed.

Lemma bcast_index_in_bounds (s idx : list nat) :
  in_bounds s idx -> bcast_index s idx = idx.
Proof.
  intros Hb. unfold bcast_index.
  assert (Hlen : length idx = length s) by (induction Hb; simpl; congruence).
  rewrite Hlen, Nat.sub_diag. cbn [skipn]. unfold map2.
  induction Hb as [|d i s idx Hi Hb IH]; cbn [combine map fst snd]; [reflexivity|].
  rewrite IH by (clear -Hb; induction Hb; simpl; congruence).
  destruct (Nat.eqb_spec d 1); [|reflexivity]. f_equal. lia.
Qed.

Lemma tf_add_same_values (a b : tensor R) (s : list nat) :
  shape a = s -> shape b = s ->
  exists y, tf_add a b = Ok y /\ shape y = s /\ wf y /\
    forall idx, in_bounds s idx -> get y idx = fadd (get a idx) (get b idx).
Proof.
  intros Ha Hb. unfold tf_add, bcast_shape.
  rewrite Ha, Hb, bcast_rev_refl. cbn [rbind]. rewrite rev_involutive.
  eexists; split; [reflexivity|]. split; [reflexivity|]. split; [apply wf_build|].
  intros idx Hidx. rewrite get_build by assumption.
  rewrite bcast_index_in_bounds by assumption. reflexivity.
Qed.

Lemma K_softmax_values (t : tensor R) (B n P Q : nat) :
  shape t = [B; n; P; Q] ->
  exists y, K_softmax t = Ok y /\ shape y = [B; n; P; Q] /\ wf y /\
    forall b h p k, b < B -> h < n -> p < P -> k < Q ->
      get y [b; h; p; k] =
      nth k (softmax_row (map (fun j => get t [b; h; p; j]) (seq 0 Q))) fzero.
Proof.
  intros Ht. unfold K_softmax. rewrite Ht. cbn [rev app].
  eexists; split; [reflexivity|]. split; [reflexivity|]. split; [apply wf_build|].
  intros b h p k Hb Hh Hp Hk. rewrite get_build by bounds. reflexivity.
Qed.

Lemma aggregate_values (logits flat_v : tensor R) (l : Layer R) (B H0 W n d e : nat) :
  configured l n d e ->
  _batch l = Some (Z.of_nat B) -> _height l = Some (Z.of_nat H0) ->
  _width l = Some (Z.of_nat W) ->
  shape logits = [B; n; H0 * W; H0 * W] ->
  shape flat_v = [B; n; H0 * W; e] ->
  exists y, aggregate logits flat_v l = Ok (y, l) /\
    shape y = [B; H0; W; n * e] /\ wf y /\
    forall b h i j c, b < B -> h < n -> i < H0 -> j < W -> c < e ->
      get y [b; i; j; h * e + c] =
      fsum (H0 * W) (fun p =>
        fmul (nth p (softmax_row
                       (map (fun k => get logits [b; h; i * W + j; k])
                            (seq 0 (H0 * W)))) fzero)
             (get flat_v [b; h; p; c])).
Proof.
  intros [Hax _ Hn _ Hdv Hnpos _] Hb Hh Hw Hlg Hfv.
  destruct (K_softmax_values logits Hlg) as (wts & Hs & Hsw & _ & Hgw).
  unfold aggregate.
  rewrite Hs, bind_lift_ok.
  erewrite tf_matmul_nt by (try exact Hsw; exact Hfv).
  rewrite bind_lift_ok, bind_self, Hb, Hh, Hw. cbn [attr].
  rewrite !bind_lift_ok, Hn, Hdv, floordiv_of_nat by assumption.
  replace (n * e / n) with e by (rewrite Nat.mul_comm, Nat.div_mul; lia).
  rewrite bind_lift_ok.
  set (o := build_tensor _ _).
  rewrite (K_reshape_ok o (s := [B; n; H0; W; e]));
    [|bounds|subst o; rewrite shape_build; cbn [size fold_right]; lia].
  rewrite bind_lift_ok.
  destruct (combine_heads_2d_spec (x := mkT [B; n; H0; W; e] (data o)) eq_refl)
    as (y & Hy & Hsy & Hwy & Hgy).
  { apply wf_reshaped; [apply wf_build|subst o; rewrite shape_build; cbn [size fold_right]; lia]. }
  rewrite Hy, bind_lift_ok, Hax. cbn [Z.eqb lift].
  exists y. split; [reflexivity|]. split; [assumption|]. split; [assumption|].
  intros b h i j c Hbb Hhh Hi Hj Hc.
  rewrite Hgy by assumption.
  rewrite (get_reshaped o _ _ [b; h; i * W + j; c])
    by (subst o; rewrite shape_build; cbn [ravel size fold_right]; ring).
  assert (i * W + j < H0 * W) by (apply head_offset_lt; assumption).
  subst o. rewrite get_build by bounds.
  apply fsum_ext. intros p Hp. rewrite Hgw by assumption. reflexivity.
Qed.

End RelativeValues.

(** *** The logits and the output of [call] *)

Section LogitValues.

Context {R : Type} `{Scalar R}.

(* everything [call] has computed when it reaches the softmax *)
Lemma softmax_input_values (x : tensor R) (l : Layer R) (B H0 W n d e : nat) :
  configured l n d e -> 0 < H0 -> 0 < W ->
  (relative l = true -> tables_sized l H0 W d) ->
  shape x = [B; H0; W; 2 * (n * d) + n * e] -> wf x ->
  let s := frsqrt (depth_k l) (num_heads l) in
  let qv b i j h c := fmul (get x [b; i; j; h * d + c]) s in
  let content b h i j i' j' :=
    fsum d (fun c => fmul (qv b i j h c) (get x [b; i'; j'; n * d + h * d + c])) in
  exists logits flat_v,
    softmax_input x l =
      Ok (logits, flat_v,
          set_spatial l (Some (Z.of_nat B)) (Some (Z.of_nat H0)) (Some (Z.of_nat W))) /\
    shape logits = [B; n; H0 * W; H0 * W] /\ shape flat_v = [B; n; H0 * W; e] /\
    (forall b h i j c, b < B -> h < n -> i < H0 -> j < W -> c < e ->
       get flat_v [b; h; i * W + j; c] = get x [b; i; j; 2 * (n * d) + h * e + c]) /\
    (relative l = false ->
     forall b h i j i' j', b < B -> h < n -> i < H0 -> j < W -> i' < H0 -> j' < W ->
       get logits [b; h; i * W + j; i' * W + j'] = content b h i j i' j') /\
    (forall krw krh,
       relative l = true -> key_relative_w l = Some krw -> key_relative_h l = Some krh ->
       forall b h i j i' j', b < B -> h < n -> i < H0 -> j < W -> i' < H0 -> j' < W ->
         get logits [b; h; i * W + j; i' * W + j'] =
         fadd (fadd (content b h i j i' j')
                 (fsum d (fun c => fmul (qv b i j h c) (get krh [i' + (H0 - 1) - i; c]))))
              (fsum d (fun c => fmul (qv b i j h c) (get krw [j' + (W - 1) - j; c])))).
Proof.
  intros Hcfg HH HW Htab Hx Hwf s qv content.
  destruct (project_heads_spec Hcfg Hx Hwf)
    as (q & fk & fv & Hp & Hsq & Hwq & Hsk & Hwk & Hsv & Hwv & Hgq & Hgk & Hgv).
  set (l1 := set_spatial l _ _ _) in *.
  assert (Hc : exists lg,
             content_logits x l = Ok (q, lg, fv, l1) /\
             shape lg = [B; n; H0 * W; H0 * W] /\
             forall b h i j i' j', b < B -> h < n -> i < H0 -> j < W -> i' < H0 -> j' < W ->
               get lg [b; h; i * W + j; i' * W + j'] = content b h i j i' j').
  { unfold content_logits. erewrite bind_ok by exact Hp. cbn beta iota.
    erewrite tf_matmul_tb by (try reflexivity; exact Hsk).
    rewrite bind_lift_ok. unfold ret.
    eexists. split; [reflexivity|]. split; [reflexivity|].
    intros b h i j i' j' Hb Hh Hi Hj Hi' Hj'.
    assert (i * W + j < H0 * W) by (apply head_offset_lt; assumption).
    assert (i' * W + j' < H0 * W) by (apply head_offset_lt; assumption).
    rewrite get_build by bounds. unfold content, qv, s.
    apply fsum_ext. intros c Hcc. rewrite Hgk by assumption.
    rewrite (get_reshaped q _ _ [b; h; i; j; c])
      by (rewrite Hsq; cbn [ravel size fold_right]; ring).
    rewrite Hgq by assumption. reflexivity. }
  destruct Hc as (lg & Hc & Hsl & Hgl).
  unfold softmax_input. erewrite bind_ok by exact Hc. cbn beta iota.
  unfold add_relative. rewrite bind_bind, bind_self. cbn [relative l1 set_spatial].
  destruct (relative l) eqn:Hrel.
  - destruct (Htab eq_refl) as (krw & krh & Hkw & Hkh & Hsw & Hsh & _).
    edestruct relative_logits_values with (l := l1) (q := q)
      as (h_rel & w_rel & Hr & Hshr & _ & Hswr & _ & Hgr);
      [exact (cfg_heads Hcfg)|exact (cfg_n Hcfg)|exact HH|exact HW
      |exact Hkw|exact Hkh|exact Hsq|exact Hsw|exact Hsh|].
    rewrite Hr. cbn [rbind].
    destruct (tf_add_same_values lg h_rel Hsl Hshr) as (lg1 & Ha1 & Hs1 & _ & Hg1).
    rewrite Ha1. cbn [rbind].
    destruct (tf_add_same_values lg1 w_rel Hs1 Hswr) as (lg2 & Ha2 & Hs2 & _ & Hg2).
    rewrite Ha2, bind_lift_ok. unfold ret.
    exists lg2, fv. split; [reflexivity|]. split; [assumption|]. split; [assumption|].
    split; [exact Hgv|]. split; [discriminate|].
    intros krw' krh' _ Hkw' Hkh' b h i j i' j' Hb Hh Hi Hj Hi' Hj'.
    rewrite Hkw in Hkw'. rewrite Hkh in Hkh'.
    injection Hkw' as <-. injection Hkh' as <-.
    assert (i * W + j < H0 * W) by (apply head_offset_lt; assumption).
    assert (i' * W + j' < H0 * W) by (apply head_offset_lt; assumption).
    rewrite Hg2, Hg1 by bounds. rewrite Hgl by assumption.
    destruct (Hgr b h i j i' j' Hb Hh Hi Hj Hi' Hj') as [-> ->].
    unfold qv, s. f_equal; [f_equal|]; apply fsum_ext; intros c Hcc;
      rewrite Hgq by assumption; reflexivity.
  - rewrite bind_ret. unfold ret. exists lg, fv.
    split; [reflexivity|]. split; [assumption|]. split; [assumption|].
    split; [exact Hgv|]. split; [intros _; exact Hgl|]. discriminate.
Qed.

Lemma call_values (x : tensor R) (l : Layer R) (B H0 W n d e : nat) :
  configured l n d e -> 0 < H0 -> 0 < W ->
  (relative l = true -> tables_sized l H0 W d) ->
  shape x = [B; H0; W; 2 * (n * d) + n * e] -> wf x ->
  exists logits flat_v l' y,
    softmax_input x l = Ok (logits, flat_v, l') /\
    call x l = Ok (y, l') /\
    forall b h i j c, b < B -> h < n -> i < H0 -> j < W -> c < e ->
      get y [b; i; j; h * e + c] =
      fsum (H0 * W) (fun p =>
        fmul (nth p (softmax_row
                       (map (fun k => get logits [b; h; i * W + j; k])
                            (seq 0 (H0 * W)))) fzero)
             (get flat_v [b; h; p; c])).
Proof.
  intros Hcfg HH HW Htab Hx Hwf.
  edestruct softmax_input_spec as (lg & fv & Hs & Hsl & Hsv);
    [exact Hcfg|exact HH|exact HW|exact Htab|exact Hx|exact Hwf|].
  set (l1 := set_spatial l _ _ _) in *.
  edestruct aggregate_values with (l := l1) (logits := lg) (flat_v := fv)
    as (y & Ha & _ & _ & Hgy);
    [apply configured_spatial; exact Hcfg|reflexivity|reflexivity|reflexivity
    |exact Hsl|exact Hsv|].
  exists lg, fv, l1, y. split; [exact Hs|]. split; [|exact Hgy].
  unfold call. erewrite bind_ok by exact Hs. cbn beta iota. exact Ha.
Qed.

End LogitValues.

(** *** The channels-first pass *)

Section ChannelsFirstFacts.

Context {R : Type} `{Scalar R}.

Lemma set_axis_same (l : Layer R) (a b : Z) : axis l = a -> set_axis (set_axis l b) a = l.
Proof. intros <-. destruct l; reflexivity. Qed.

Lemma split_heads_2d_axis (ip : tensor R) (l : Layer R) (a : Z) :
  split_heads_2d ip (set_axis l a) =
  map_state (fun l1 => set_axis l1 a) (split_heads_2d ip l).
Proof.
  unfold split_heads_2d. cbn [_shape num_heads set_axis set_spatial].
  repeat match goal with
         | |- context [rbind ?r _] => destruct r; cbn [rbind map_state]
         end; reflexivity.
Qed.

Lemma bind_map_state {X Y : Type} (f : Layer R -> Layer R) (m : M X) (k k' : X -> M Y)
    (l : Layer R) :
  m (f l) = map_state f (m l) ->
  (forall v l1, k v (f l1) = map_state f (k' v l1)) ->
  bind m k (f l) = map_state f (bind m k' l).
Proof.
  intros Hm Hk. unfold bind. rewrite Hm.
  destruct (m l) as [[v l1]|e]; cbn [map_state]; [apply Hk|reflexivity].
Qed.

Lemma lift_map_state {X : Type} (f : Layer R -> Layer R) (r : result X) (l : Layer R) :
  lift r (f l) = map_state f (lift r l).
Proof. destruct r; reflexivity. Qed.

Lemma project_heads_channels_first (x : tensor R) (l : Layer R) :
  axis l = 1%Z ->
  project_heads x l =
  x' <- K_permute_dimensions x [0; 2; 3; 1] ;;
  map_state (fun l1 => set_axis l1 1) (project_heads x' (set_axis l (-1))).
Proof.
  intros Hax.
  assert (Hl : set_axis (set_axis l (-1)) 1 = l) by (apply set_axis_same; exact Hax).
  rewrite <- Hl at 1. clear Hl.
  unfold project_heads. rewrite !bind_self.
  cbn [axis set_axis depth_k depth_v num_heads Z.eqb Pos.eqb].
  destruct (K_permute_dimensions x [0; 2; 3; 1]) as [x'|e]; [|reflexivity].
  cbn [rbind]. rewrite !bind_self.
  cbn [axis set_axis depth_k depth_v num_heads Z.eqb Pos.eqb].
  rewrite !bind_lift_ok.
  destruct (tf_split x' [depth_k l; depth_k l; depth_v l]) as [qkv|e]; [|reflexivity].
  rewrite !bind_lift_ok.
  destruct qkv as [|q [|k [|v [|? ?]]]]; try reflexivity.
  set (lc := set_axis l (-1)).
  pose (f := fun l1 : Layer R => set_axis l1 1).
  change (set_axis lc 1) with (f lc).
  change (fun l1 : Layer R => set_axis l1 1) with f.
  repeat (apply (bind_map_state f); [apply split_heads_2d_axis|intros]).
  apply (bind_map_state f); [apply lift_map_state|intros].
  rewrite !bind_self. unfold f at 1 2 3 4 5 6 7.
  cbn beta. cbn [_batch _height _width depth_k depth_v num_heads set_axis].
  match goal with
  | |- bind _ _ (?g ?l0) = _ => change (g l0) with (f l0)
  end.
  repeat (apply (bind_map_state f); [apply lift_map_state|intros]).
  reflexivity.
Qed.

Lemma add_relative_axis (q logits : tensor R) (l : Layer R) (a : Z) :
  add_relative q logits (set_axis l a) =
  map_state (fun l1 => set_axis l1 a) (add_relative q logits l).
Proof.
  unfold add_relative. rewrite !bind_self. cbn [relative set_axis].
  destruct (relative l); [|reflexivity].
  change (relative_logits (set_axis l a) q) with (relative_logits l q).
  destruct (_ <- relative_logits l q ;; _); reflexivity.
Qed.

Lemma aggregate_channels_first (logits flat_v : tensor R) (l : Layer R) :
  axis l = (-1)%Z ->
  aggregate logits flat_v (set_axis l 1) =
  '(y', l1) <- aggregate logits flat_v l ;;
  y <- K_permute_dimensions y' [0; 3; 1; 2] ;;
  Ok (y, set_axis l1 1).
Proof.
  intros Hax. unfold aggregate.
  destruct (K_softmax logits) as [wts|e]; [rewrite !bind_lift_ok|reflexivity].
  destruct (tf_matmul wts flat_v false) as [o|e]; [rewrite !bind_lift_ok|reflexivity].
  rewrite !bind_self.
  cbn [_batch _height _width depth_v num_heads axis set_axis Z.eqb Pos.eqb].
  rewrite Hax. cbn [Z.eqb].
  repeat match goal with
         | |- context [bind (lift ?r) _ _] =>
             destruct r; [rewrite !bind_lift_ok|reflexivity]
         end.
  unfold lift. cbn [rbind].
  destruct (K_permute_dimensions _ _); reflexivity.
Qed.

Lemma call_channels_first (x : tensor R) (l : Layer R) :
  axis l = 1%Z -> call x l = call_transposed x l.
Proof.
  intros Hax. unfold call_transposed, call, softmax_input, content_logits.
  rewrite !bind_bind.
  unfold bind at 1. erewrite project_heads_channels_first by exact Hax.
  destruct (K_permute_dimensions x [0; 2; 3; 1]) as [x'|e]; cbn [rbind]; [|reflexivity].
  rewrite !bind_bind. unfold bind at 5.
  destruct (project_heads x' (set_axis l (-1))) as [[[[[q fq] fk] fv] l1]|e] eqn:Hp;
    cbn [map_state rbind]; [|reflexivity].
  assert (Hl1 : axis l1 = (-1)%Z).
  { apply project_heads_state in Hp as (b & h & w & ->). reflexivity. }
  rewrite !bind_bind.
  destruct (tf_matmul fq fk true) as [lg|e]; [rewrite !bind_lift_ok|reflexivity].
  rewrite !bind_ret, !bind_bind.
  pose proof (add_relative_axis q lg l1 1) as Ha1.
  destruct (add_relative q lg l1) as [[lg' l2]|e] eqn:Ha; cbn [map_state] in Ha1.
  - erewrite bind_ok by exact Ha1. rewrite bind_ret.
    pose proof (add_relative_state _ _ _ Ha) as ->.
    etransitivity; [apply aggregate_channels_first; exact Hl1|].
    match goal with |- _ = rbind _ ?F => apply (f_equal (fun r => rbind r F)) end.
    symmetry. erewrite bind_ok by exact Ha. rewrite bind_ret. reflexivity.
  - erewrite bind_err by exact Ha1.
    match goal with |- _ = rbind ?r ?F => assert (Hr : r = Err e) end.
    { erewrite bind_err by exact Ha. reflexivity. }
    rewrite Hr. reflexivity.
Qed.

(* a permutation of the axes of a rank-4 tensor *)
Lemma K_permute_dimensions_4 (t : tensor R) (pattern : list nat) (d0 d1 d2 d3 : nat) :
  shape t = [d0; d1; d2; d3] -> is_permutation pattern 4 = true ->
  exists y, K_permute_dimensions t pattern = Ok y /\
            shape y = map (fun p => nth p [d0; d1; d2; d3] 0) pattern /\ wf y.
Proof.
  intros Ht Hp. rewrite K_permute_dimensions_ok by (rewrite Ht; exact Hp).
  rewrite Ht. eexists. split; [reflexivity|]. split; [reflexivity|apply wf_build].
Qed.

End ChannelsFirstFacts.

(** *** What [call] records and rejects *)

Lemma in_bounds_inv5 (a b c d e : nat) (idx : list nat) :
  in_bounds [a; b; c; d; e] idx ->
  exists i j k l m, idx = [i; j; k; l; m] /\ i < a /\ j < b /\ k < c /\ l < d /\ m < e.
Proof.
  intros Hb.
  inversion Hb as [|? i ? r1 Hi H1]; subst.
  apply in_bounds_inv4 in H1 as (j & k & l & m & -> & ?).
  exists i, j, k, l, m. tauto.
Qed.

Section CallFacts.

Context {R : Type} `{Scalar R}.

(** [split_heads_2d] *)

Lemma py_index_inv {X : Type} (xs : list X) (i : nat) (x : X) :
  py_index xs i = Ok x -> nth_error xs i = Some x.
Proof. unfold py_index. destruct (nth_error xs i); [intros [= ->]; reflexivity|discriminate]. Qed.

(* [[xs[i] for i in range(off, off + k)]] only copies entries of [xs] *)
Lemma mapM_py_index {X : Type} (xs : list X) (k : nat) :
  forall off ts, mapM (py_index xs) (seq off k) = Ok ts ->
  forall i x, nth_error ts i = Some x -> nth_error xs (off + i) = Some x.
Proof.
  induction k as [|k IH]; intros off ts Hm i x Hi; cbn [seq mapM] in Hm.
  - injection Hm as <-. destruct i; discriminate Hi.
  - inv_rbind Hm. injection Hm as <-. destruct i as [|i]; cbn [nth_error] in Hi.
    + injection Hi as <-. rewrite Nat.add_0_r. apply py_index_inv. assumption.
    + rewrite <- Nat.add_succ_comm. eapply IH; eassumption.
Qed.

Lemma split_heads_2d_records (ip y : tensor R) (l l' : Layer R) :
  split_heads_2d ip l = Ok (y, l') ->
  exists b h w rest,
    shape ip = b :: h :: w :: rest /\
    l' = set_spatial l (Some (Z.of_nat b)) (Some (Z.of_nat h)) (Some (Z.of_nat w)).
Proof.
  unfold split_heads_2d, K_shape. intros Hs.
  destruct (attr (_shape l)) as [shp|]; cbn [rbind] in Hs; [|discriminate].
  destruct (mapM _ _) as [ts|] eqn:Hm; cbn [rbind] in Hs; [|discriminate].
  inv_rbind Hs. injection Hs as _ <-.
  repeat match goal with
         | E : py_index ts _ = Ok _ |- _ =>
             apply py_index_inv in E; apply (mapM_py_index _ _ _ Hm) in E;
             cbn [Nat.add] in E
         end.
  destruct (shape ip) as [|b [|h [|w rest]]];
    cbn [map nth_error] in *; try discriminate.
  repeat match goal with
         | E : Some _ = Some _ |- _ => injection E as <-
         end.
  exists b, h, w, rest. split; reflexivity.
Qed.

Lemma split_from_shapes (t : tensor R) (B H0 W C : nat) (ns : list nat) :
  shape t = [B; H0; W; C] ->
  forall off, Forall (fun u => exists c, shape u = [B; H0; W; c]) (split_from t off ns).
Proof.
  intros Ht. induction ns as [|n ns IH]; intros off; cbn [split_from]; constructor.
  - exists n. apply (slice_last_shape4 t off n Ht).
  - apply IH.
Qed.

Lemma tf_split_shapes (t : tensor R) (B H0 W C : nat) (zs : list Z) (ts : list (tensor R)) :
  shape t = [B; H0; W; C] -> tf_split t zs = Ok ts ->
  Forall (fun u => exists c, shape u = [B; H0; W; c]) ts.
Proof.
  intros Ht. unfold tf_split. rewrite Ht. cbn [rev app].
  destruct (count_infer zs) as [|[|?]]; intros Hs; try discriminate.
  - inv_rbind Hs. destruct (_ =? _); [|discriminate].
    injection Hs as <-. eapply split_from_shapes. exact Ht.
  - inv_rbind Hs. destruct (_ <=? _); [|discriminate].
    inv_rbind Hs. injection Hs as <-. eapply split_from_shapes. exact Ht.
Qed.

Lemma project_heads_records (x : tensor R) (l l' : Layer R) (B H0 W C : nat)
    (r : tensor R * tensor R * tensor R * tensor R) :
  axis l = (-1)%Z -> shape x = [B; H0; W; C] ->
  project_heads x l = Ok (r, l') ->
  l' = set_spatial l (Some (Z.of_nat B)) (Some (Z.of_nat H0)) (Some (Z.of_nat W)).
Proof.
  intros Hax Hx. unfold project_heads. rewrite bind_self, Hax. cbn [Z.eqb].
  rewrite bind_lift_ok. intros Hp.
  apply bind_lift_inv in Hp as (qkv & Hsplit & Hp).
  apply (tf_split_shapes _ _ Hx) in Hsplit.
  destruct qkv as [|q [|k [|v [|? ?]]]]; try discriminate Hp.
  apply bind_inv in Hp as (q' & l1 & Hq & Hp).
  apply bind_inv in Hp as (k' & l2 & Hk & Hp).
  apply bind_inv in Hp as (v' & l3 & Hv & Hp).
  apply bind_lift_inv in Hp as (c & _ & Hp).
  rewrite bind_self in Hp.
  repeat (apply bind_lift_inv in Hp as (? & _ & Hp)).
  injection Hp as _ <-.
  apply split_heads_2d_state in Hq as (? & ? & ? & ->).
  apply split_heads_2d_state in Hk as (? & ? & ? & ->).
  apply split_heads_2d_records in Hv as (b & h & w & rest & Hsv & ->).
  inversion Hsplit as [|? ? _ Hs2]; subst. inversion Hs2 as [|? ? _ Hs3]; subst.
  inversion Hs3 as [|? ? (cv & Hcv) _]; subst.
  rewrite Hcv in Hsv. injection Hsv as <- <- <- _. reflexivity.
Qed.

Lemma call_records (x y : tensor R) (l l' : Layer R) (B H0 W C : nat) :
  axis l = (-1)%Z -> shape x = [B; H0; W; C] ->
  call x l = Ok (y, l') ->
  l' = set_spatial l (Some (Z.of_nat B)) (Some (Z.of_nat H0)) (Some (Z.of_nat W)).
Proof.
  intros Hax Hx. unfold call, softmax_input, content_logits. intros Hc.
  apply bind_inv in Hc as ([lg fv] & l1 & Hs & Ha).
  apply bind_inv in Hs as ([[q lg0] fv0] & l2 & Hs & Hr).
  apply bind_inv in Hr as (lg1 & l3 & Hr & Hret).
  injection Hret as _ _ <-.
  apply bind_inv in Hs as ([[[q' fq] fk] fv'] & l4 & Hp & Hm).
  apply bind_lift_inv in Hm as (lg' & _ & Hm). injection Hm as _ _ _ <-.
  apply add_relative_state in Hr. apply aggregate_state in Ha. subst.
  eapply project_heads_records; eassumption.
Qed.

(** X7. A channels-last input whose channel count is not
    [2 * depth_k + depth_v] is rejected by the q/k/v split with
    [InvalidArgumentError], before any head is formed. *)
Theorem call_rejects_channel_count (x : tensor R) (l : Layer R) (B H0 W C dk dv : nat) :
  axis l = (-1)%Z -> depth_k l = Z.of_nat dk -> depth_v l = Z.of_nat dv ->
  shape x = [B; H0; W; C] -> C <> 2 * dk + dv ->
  call x l = Err InvalidArgumentError.
Proof.
  intros Hax Hdk Hdv Hx Hne.
  unfold call. apply bind_err. unfold softmax_input. apply bind_err.
  unfold content_logits. apply bind_err.
  unfold project_heads. rewrite bind_self, Hax. cbn [Z.eqb].
  rewrite bind_lift_ok, Hdk, Hdv.
  assert (Hs : tf_split x [Z.of_nat dk; Z.of_nat dk; Z.of_nat dv] =
               Err InvalidArgumentError).
  { unfold tf_split. rewrite Hx. cbn [rev app].
    assert (He : same_extents [Z.of_nat dk; Z.of_nat dk; Z.of_nat dv] [dk; dk; dv])
      by bounds.
    rewrite (count_infer_extents He), (to_shape_ok He). cbn [rbind list_sum fold_right].
    destruct (Nat.eqb_spec (dk + (dk + (dv + 0))) C); [lia|reflexivity]. }
  rewrite Hs. reflexivity.
Qed.

(** X12. When [depth_k] is a multiple of [num_heads] but [depth_v] is not, a
    forward call on a non-empty channels-last input of the expected channel
    count fails with [InvalidArgumentError], raised by the head split of the
    values after those of the queries and keys went through. *)
Theorem call_rejects_indivisible_depth_v (x : tensor R) (l : Layer R) (shp : list (option Z))
    (B H0 W n d dv : nat) :
  axis l = (-1)%Z -> _shape l = Some shp -> length shp = 4 ->
  depth_k l = Z.of_nat (n * d) -> depth_v l = Z.of_nat dv ->
  num_heads l = Z.of_nat n -> 0 < n -> dv mod n <> 0 ->
  shape x = [B; H0; W; 2 * (n * d) + dv] -> 0 < B * H0 * W ->
  call x l = Err InvalidArgumentError.
Proof.
  intros Hax Hshp Hlen Hdk Hdv Hn Hpos Hmod Hx Hne.
  set (l1 := set_spatial l (Some (Z.of_nat B)) (Some (Z.of_nat H0)) (Some (Z.of_nat W))).
  destruct (split_heads_2d_spec l d Hshp Hlen Hn Hpos
              (slice_last_shape4 x 0 (n * d) Hx) (slice_last_wf x 0 (n * d)))
    as (q & Hq & _).
  destruct (split_heads_2d_spec l1 d (shp := shp) Hshp Hlen Hn Hpos
              (slice_last_shape4 x (n * d) (n * d) Hx) (slice_last_wf x (n * d) (n * d)))
    as (k & Hk & _).
  change (set_spatial l1 _ _ _) with l1 in Hk. fold l1 in Hq.
  unfold call. apply bind_err. unfold softmax_input. apply bind_err.
  unfold content_logits. apply bind_err.
  unfold project_heads. rewrite bind_self, Hax. cbn [Z.eqb].
  rewrite bind_lift_ok, Hdk, Hdv.
  erewrite tf_split_qkv by exact Hx. rewrite bind_lift_ok.
  erewrite bind_ok by exact Hq. erewrite bind_ok by exact Hk.
  apply bind_err.
  eapply split_heads_2d_indivisible with (shp := shp) (C := dv); try eassumption.
  apply slice_last_shape4 with (C := 2 * (n * d) + dv). exact Hx.
Qed.

(** X13. On a built layer with [n] heads, [combine_heads_2d] applied to a
    well-formed tensor of shape [(B, n, H, W, d)] gives a tensor of shape
    [(B, H, W, n * d)] from which [split_heads_2d] recovers the original: the
    two are inverse in this order too. *)
Theorem combine_then_split_roundtrip (y : tensor R) (l : Layer R) (shp : list (option Z))
    (B n H0 W d : nat) :
  _shape l = Some shp -> length shp = 4 ->
  num_heads l = Z.of_nat n -> 0 < n ->
  shape y = [B; n; H0; W; d] -> wf y ->
  exists z l', combine_heads_2d y = Ok z /\ shape z = [B; H0; W; n * d] /\
               split_heads_2d z l = Ok (y, l').
Proof.
  intros Hshp Hlen Hn Hpos Hy Hwf.
  destruct (combine_heads_2d_spec Hy Hwf) as (z & Hz & Hsz & Hwz & Hgz).
  destruct (split_heads_2d_spec l d Hshp Hlen Hn Hpos Hsz Hwz)
    as (y' & Hy' & Hsy' & Hwy' & Hgy').
  exists z. eexists. split; [exact Hz|]. split; [exact Hsz|].
  rewrite Hy'. do 2 f_equal.
  apply tensor_ext; [congruence|assumption|assumption|].
  rewrite Hsy'. intros idx Hidx.
  apply in_bounds_inv5 in Hidx as (b & h & i & j & c & -> & Hb & Hh & Hi & Hj & Hc).
  rewrite Hgy', Hgz by assumption. reflexivity.
Qed.

End CallFacts.

(** *** [rel_to_abs] and [build] *)

Section BuildFacts.

Context {R : Type} `{Scalar R}.

(** [rel_to_abs]: the inputs it rejects *)

Lemma rel_to_abs_rejects (x : tensor R) (B N L M0 : nat) :
  shape x = [B; N; L; M0] -> 0 < B * N -> ~ (1 <= L /\ M0 = 2 * L - 1) ->
  rel_to_abs x = Err InvalidArgumentError.
Proof.
  intros Hx Hpos Hno.
  unfold rel_to_abs, K_shape. rewrite Hx. cbn [map py_index nth_error rbind].
  rewrite (K_zeros_ok (s := [B; N; L; 1])) by bounds. cbn [rbind].
  rewrite K_concatenate_ok; rewrite ?shape_build, ?Hx; try (cbn; lia); try reflexivity.
  cbn [rbind set_nth nth].
  set (x1 := build_tensor _ _).
  destruct L as [|m].
  - rewrite (K_reshape_ok x1 (s := [B; N; 0]));
      [|bounds|subst x1; rewrite shape_build; cbn [size fold_right]; lia].
    cbn [rbind]. unfold K_zeros. cbn [to_shape]. rewrite !to_extent_of_nat.
    reflexivity.
  - rewrite (K_reshape_mismatch x1 (s := [B; N; S m * 2 * S m])); [reflexivity|bounds|].
    subst x1. rewrite shape_build. cbn [size fold_right].
    intros Heq.
    assert (Heq' : B * N * (S m * (2 * S m)) = B * N * (S m * (M0 + 1)))
      by (transitivity (B * (N * (S m * 2 * S m * 1))); [ring|rewrite Heq; ring]).
    apply Nat.mul_cancel_l in Heq'; [|lia].
    apply Nat.mul_cancel_l in Heq'; lia.
Qed.

Lemma rel_to_abs_accepts_iff (x : tensor R) (B N L M0 : nat) :
  shape x = [B; N; L; M0] -> wf x -> 0 < B * N ->
  (exists y, rel_to_abs x = Ok y) <-> 1 <= L /\ M0 = 2 * L - 1.
Proof.
  intros Hx Hwf Hpos. split.
  - intros (y & Hy).
    destruct (le_lt_dec 1 L) as [HL|HL];
      [destruct (Nat.eq_dec M0 (2 * L - 1)) as [HM|HM]; [split; assumption|]|].
    all: rewrite (rel_to_abs_rejects x Hx Hpos) in Hy by lia; discriminate Hy.
  - intros (HL & ->).
    destruct (rel_to_abs_spec Hx HL Hwf) as (y & Hy & _). exists y. exact Hy.
Qed.

Lemma add_weight_values (zs : list Z) (a b : nat) (sample : nat -> R) :
  same_extents zs [a; b] ->
  exists t, add_weight zs sample = Ok t /\ shape t = [a; b] /\ wf t /\
    forall m c, m < a -> c < b -> get t [m; c] = sample (m * b + c).
Proof.
  intros Hs. unfold add_weight. rewrite (to_shape_ok Hs). cbn [rbind].
  eexists. split; [reflexivity|]. split; [reflexivity|]. split; [apply wf_build|].
  intros m c Hm Hc. rewrite get_build by bounds.
  cbn [ravel size fold_right]. f_equal. ring.
Qed.

(** X9. [build] reads height and width at positions 1 and 2 of the input
    shape under channels-last and at positions 2 and 3 under channels-first;
    with relative encodings it allocates a width table of shape
    [(2W - 1, depth_k // num_heads)] and a height table of shape
    [(2H - 1, depth_k // num_heads)], filled row-major with the draws of the
    initializer of standard deviation [(depth_k // num_heads) ** -0.5]. *)
Theorem build_allocates_relative_tables (l0 l : Layer R) (fmt : data_format) (st : Z * Z) (bo : option Z)
    (sw sh : R -> nat -> R) (C : Z) (H1 W1 n d e : nat) :
  0 < n -> 0 < d -> 0 < H1 -> 0 < W1 ->
  __init__ (PyInt (Z.of_nat (n * d))) (PyInt (Z.of_nat (n * e))) (Z.of_nat n)
    true st fmt = Ok l0 ->
  build l0 (match fmt with
            | channels_last => [bo; Some (Z.of_nat H1); Some (Z.of_nat W1); Some C]
            | channels_first => [bo; Some C; Some (Z.of_nat H1); Some (Z.of_nat W1)]
            end) sw sh = Ok l ->
  exists krw krh,
    key_relative_w l = Some krw /\ key_relative_h l = Some krh /\
    shape krw = [2 * W1 - 1; d] /\ shape krh = [2 * H1 - 1; d] /\
    wf krw /\ wf krh /\
    (forall m c, m < 2 * W1 - 1 -> c < d ->
       get krw [m; c] = sw (frsqrt (Z.of_nat d) 1) (m * d + c)) /\
    (forall m c, m < 2 * H1 - 1 -> c < d ->
       get krh [m; c] = sh (frsqrt (Z.of_nat d) 1) (m * d + c)).
Proof.
  intros Hn Hd HH HW Hinit Hbuild.
  assert (Hb : exists s1 s2 s3 a,
             l0 = mkLayer st (Z.of_nat (n * d)) (Z.of_nat (n * e)) (Z.of_nat n) true a
                    None None None None None None /\
             build l0 [bo; s1; s2; s3] sw sh = Ok l /\
             (if (a =? 1)%Z then Ok (s2, s3) else Ok (s1, s2)) =
             Ok (Some (Z.of_nat H1), Some (Z.of_nat W1)) :> result (option Z * option Z)).
  { destruct fmt; cbn in Hinit; injection Hinit as <-;
      eexists _, _, _, _; (split; [reflexivity|]); (split; [exact Hbuild|]); reflexivity. }
  clear Hinit Hbuild. destruct Hb as (s1 & s2 & s3 & a & -> & Hbuild & Hhw).
  unfold build in Hbuild.
  cbn [set_shape axis relative depth_k num_heads] in Hbuild.
  rewrite Hhw in Hbuild. cbn [rbind] in Hbuild.
  rewrite floordiv_of_nat in Hbuild by assumption.
  replace (n * d / n) with d in Hbuild by (rewrite Nat.mul_comm, Nat.div_mul; lia).
  cbn [rbind attr] in Hbuild. rewrite int_rsqrt_ok in Hbuild by assumption.
  cbn [rbind] in Hbuild.
  edestruct add_weight_values
    with (zs := [2 * Z.of_nat W1 - 1; Z.of_nat d]%Z) (a := 2 * W1 - 1) (b := d)
         (sample := sw (frsqrt (Z.of_nat d) 1))
    as (krw & Hkw & Hsw & Hww & Hgw); [bounds|].
  rewrite Hkw in Hbuild. cbn [rbind attr] in Hbuild.
  edestruct add_weight_values
    with (zs := [2 * Z.of_nat H1 - 1; Z.of_nat d]%Z) (a := 2 * H1 - 1) (b := d)
         (sample := sh (frsqrt (Z.of_nat d) 1))
    as (krh & Hkh & Hsh & Hwh & Hgh); [bounds|].
  rewrite Hkh in Hbuild. cbn [rbind] in Hbuild.
  injection Hbuild as <-.
  exists krw, krh. cbn [key_relative_w key_relative_h set_tables]. auto 10.
Qed.

(** X10. With relative encodings and [0 <= depth_k < num_heads], [build] on a
    rank-4 shape with a known width fails with [ZeroDivisionError]: the
    per-head depth [depth_k // num_heads] is 0 and [0 ** -0.5] is undefined. *)
Theorem build_depth_below_heads (l : Layer R) (s0 s1 s2 s3 : option Z) (w : Z)
    (sw sh : R -> nat -> R) :
  relative l = true -> (0 <= depth_k l < num_heads l)%Z ->
  (if (axis l =? 1)%Z then s3 else s2) = Some w ->
  build l [s0; s1; s2; s3] sw sh = Err ZeroDivisionError.
Proof.
  intros Hrel Hdk Hw. unfold build.
  cbn [set_shape axis relative depth_k num_heads].
  rewrite Hrel. unfold floordiv.
  destruct (Z.eqb_spec (num_heads l) 0) as [E|_]; [lia|].
  rewrite Z.div_small by lia.
  destruct (axis l =? 1)%Z; cbn [rbind]; rewrite Hw; reflexivity.
Qed.

(** X11. With relative encodings and [0 < num_heads <= depth_k], [build] on a
    rank-4 shape whose height or width is unknown ([None]) fails with
    [TypeError], a known width being at least 1: the table extents
    [2 * width - 1] and [2 * height - 1] cannot be computed. *)
Theorem build_needs_known_extents (l : Layer R) (s0 s1 s2 s3 : option Z)
    (sw sh : R -> nat -> R) :
  relative l = true -> (0 < num_heads l <= depth_k l)%Z ->
  let height := if (axis l =? 1)%Z then s2 else s1 in
  let width := if (axis l =? 1)%Z then s3 else s2 in
  height = None \/ width = None ->
  (forall w, width = Some w -> (1 <= w)%Z) ->
  build l [s0; s1; s2; s3] sw sh = Err TypeError.
Proof.
  intros Hrel Hdk height width Hnone Hw. unfold build.
  cbn [set_shape axis relative depth_k num_heads].
  rewrite Hrel. unfold floordiv.
  destruct (Z.eqb_spec (num_heads l) 0) as [E|_]; [lia|].
  assert (Hq : (0 < depth_k l / num_heads l)%Z)
    by (apply Z.div_str_pos; lia).
  assert (Hhw : (if (axis l =? 1)%Z then Ok (s2, s3) else Ok (s1, s2)) =
                Ok (height, width) :> result (option Z * option Z))
    by (subst height width; destruct (axis l =? 1)%Z; reflexivity).
  rewrite Hhw. cbn [rbind].
  destruct width as [w|]; [|reflexivity].
  destruct Hnone as [->|Hn]; [|discriminate Hn].
  specialize (Hw w eq_refl). cbn [attr rbind].
  unfold int_rsqrt.
  destruct (Z.eqb_spec (depth_k l / num_heads l) 0) as [E|_]; [lia|].
  destruct (Z.ltb_spec (depth_k l / num_heads l) 0) as [E|_]; [lia|].
  cbn [rbind].
  edestruct add_weight_values
    with (zs := [2 * w - 1; depth_k l / num_heads l]%Z)
         (a := Z.to_nat (2 * w - 1)) (b := Z.to_nat (depth_k l / num_heads l))
         (sample := sw (frsqrt (depth_k l / num_heads l)%Z 1))
    as (krw & Hkw & _); [bounds|].
  rewrite Hkw. reflexivity.
Qed.

(* a layer built under channels-first is, apart from its axis, the layer the
   channels-last pass expects *)
Lemma built_channels_first (l0 l : Layer R) (rel : bool) (st : Z * Z) (bo : option Z)
    (sw sh : R -> nat -> R) (C : Z) (H1 W1 n d e : nat) :
  0 < n -> 0 < d -> 0 < H1 -> 0 < W1 ->
  __init__ (PyInt (Z.of_nat (n * d))) (PyInt (Z.of_nat (n * e))) (Z.of_nat n)
    rel st channels_first = Ok l0 ->
  build l0 [bo; Some C; Some (Z.of_nat H1); Some (Z.of_nat W1)] sw sh = Ok l ->
  axis l = 1%Z /\ depth_v l = Z.of_nat (n * e) /\
  configured (set_axis l (-1)) n d e /\ relative l = rel /\
  (rel = true -> tables_sized l H1 W1 d).
Proof.
  intros Hn Hd HH HW Hinit Hbuild.
  cbn in Hinit. injection Hinit as <-.
  unfold build in Hbuild.
  cbn [set_shape axis relative depth_k num_heads Z.eqb Pos.eqb rbind] in Hbuild.
  destruct rel.
  - rewrite floordiv_of_nat in Hbuild by assumption.
    replace (n * d / n) with d in Hbuild by (rewrite Nat.mul_comm, Nat.div_mul; lia).
    cbn [rbind attr] in Hbuild. rewrite int_rsqrt_ok in Hbuild by assumption.
    cbn [rbind] in Hbuild.
    edestruct add_weight_values
      with (zs := [2 * Z.of_nat W1 - 1; Z.of_nat d]%Z) (a := 2 * W1 - 1) (b := d)
           (sample := sw (frsqrt (Z.of_nat d) 1))
      as (krw & Hkw & Hsw & Hww & _); [bounds|].
    rewrite Hkw in Hbuild. cbn [rbind attr] in Hbuild.
    edestruct add_weight_values
      with (zs := [2 * Z.of_nat H1 - 1; Z.of_nat d]%Z) (a := 2 * H1 - 1) (b := d)
           (sample := sh (frsqrt (Z.of_nat d) 1))
      as (krh & Hkh & Hsh & Hwh & _); [bounds|].
    rewrite Hkh in Hbuild. cbn [rbind] in Hbuild.
    injection Hbuild as <-.
    split; [reflexivity|]. split; [reflexivity|]. split; [|split; [reflexivity|]].
    + constructor; cbn; try assumption; try reflexivity. eexists; split; reflexivity.
    + intros _. exists krw, krh. cbn. auto 10.
  - injection Hbuild as <-.
    split; [reflexivity|]. split; [reflexivity|].
    split; [|split; [reflexivity|discriminate]].
    constructor; cbn; try assumption; try reflexivity. eexists; split; reflexivity.
Qed.

(** [call] on a channels-first layer *)

Lemma call_channels_first_spec (x : tensor R) (l : Layer R) (B H0 W n d e : nat) :
  axis l = 1%Z -> configured (set_axis l (-1)) n d e -> 0 < H0 -> 0 < W ->
  (relative l = true -> tables_sized l H0 W d) ->
  shape x = [B; 2 * (n * d) + n * e; H0; W] -> wf x ->
  exists x' y' l1 y,
    K_permute_dimensions x [0; 2; 3; 1] = Ok x' /\
    shape x' = [B; H0; W; 2 * (n * d) + n * e] /\
    (forall b i j c, b < B -> i < H0 -> j < W -> c < 2 * (n * d) + n * e ->
       get x' [b; i; j; c] = get x [b; c; i; j]) /\
    call x' (set_axis l (-1)) = Ok (y', l1) /\
    call x l =
      Ok (y, set_spatial l (Some (Z.of_nat B)) (Some (Z.of_nat H0)) (Some (Z.of_nat W))) /\
    shape y = [B; n * e; H0; W] /\ wf y /\
    forall b c i j, b < B -> c < n * e -> i < H0 -> j < W ->
      get y [b; c; i; j] = get y' [b; i; j; c].
Proof.
  intros Hax Hcfg HH HW Htab Hx Hwf.
  rewrite (call_channels_first x l Hax). unfold call_transposed.
  rewrite K_permute_dimensions_ok by (rewrite Hx; reflexivity).
  rewrite Hx. cbn [rbind shape length seq map nth index_of Nat.eqb].
  set (x' := build_tensor _ _).
  destruct (call_spec (x := x') (B := B) Hcfg HH HW) as (y' & Hy' & Hsy' & Hwy');
    [exact Htab|reflexivity|apply wf_build|].
  rewrite Hy'. cbn [rbind].
  rewrite K_permute_dimensions_ok by (rewrite Hsy'; reflexivity).
  rewrite Hsy'. cbn [rbind shape length seq map nth index_of Nat.eqb].
  exists x', y'. eexists. eexists.
  split; [reflexivity|]. split; [reflexivity|].
  split.
  { intros b i j c Hb Hi Hj Hc. subst x'. rewrite get_build by bounds. reflexivity. }
  split; [exact Hy'|].
  split.
  { do 2 f_equal. destruct l. cbn in Hax. subst. reflexivity. }
  split; [reflexivity|]. split; [apply wf_build|].
  intros b c i j Hb Hc Hi Hj. rewrite get_build by bounds. reflexivity.
Qed.

End BuildFacts.

(** *** [get_config] *)

Lemma dict_get_set (d : pydict) (k k' : String.string) (v : cfgval) :
  dict_get (dict_set d k v) k' = if String.eqb k k' then Some v else dict_get d k'.
Proof.
  induction d as [|[k0 v0] d IH]; cbn [dict_set dict_get].
  - reflexivity.
  - destruct (String.eqb_spec k0 k) as [->|Hne]; cbn [dict_get].
    + destruct (String.eqb k k'); reflexivity.
    + rewrite IH. destruct (String.eqb_spec k0 k') as [->|Hne'].
      * destruct (String.eqb_spec k k'); [congruence|reflexivity].
      * reflexivity.
Qed.

Lemma dict_get_none (d : pydict) (k : String.string) :
  dict_get d k = None <-> ~ In k (map fst d).
Proof.
  induction d as [|[k0 v0] d IH]; cbn [dict_get map fst In].
  - tauto.
  - destruct (String.eqb_spec k0 k) as [->|Hne].
    + split; [discriminate|]. intros Hn. contradiction Hn. left. reflexivity.
    + rewrite IH. tauto.
Qed.

Lemma dict_set_fresh (d : pydict) (k : String.string) (v : cfgval) :
  ~ In k (map fst d) -> dict_set d k v = d ++ [(k, v)].
Proof.
  induction d as [|[k0 v0] d IH]; cbn [dict_set map fst In app]; intros Hn.
  - reflexivity.
  - destruct (String.eqb_spec k0 k) as [->|Hne]; [tauto|].
    rewrite IH by tauto. reflexivity.
Qed.

(* inserting the items of a dictionary, in order, after other keys *)
Lemma fold_dict_set_fresh (items d : pydict) :
  NoDup (map fst items) ->
  (forall k, In k (map fst items) -> ~ In k (map fst d)) ->
  fold_left (fun d kv => dict_set d (fst kv) (snd kv)) items d = d ++ items.
Proof.
  revert d. induction items as [|[k v] items IH]; cbn [fold_left map fst snd];
    intros d Hnd Hfresh.
  - rewrite app_nil_r. reflexivity.
  - inversion Hnd as [|? ? Hk Hnd']; subst.
    rewrite dict_set_fresh by (apply Hfresh; left; reflexivity).
    rewrite IH; [rewrite <- app_assoc; reflexivity|assumption|].
    intros k' Hin. rewrite map_app, in_app_iff. cbn [map fst In].
    intros [Hd|[<-|[]]]; [|contradiction].
    apply (Hfresh k'); [right; assumption|assumption].
Qed.

Lemma dict_of_items_dict (d : pydict) : NoDup (map fst d) -> dict_of_items d = d.
Proof.
  intros Hnd. unfold dict_of_items.
  rewrite fold_dict_set_fresh; [reflexivity|assumption|]. intros k _ [].
Qed.

Section ConfigFacts.

Context {R : Type} `{Scalar R}.

Lemma get_config_sets (l : Layer R) (base_config : pydict) :
  get_config l base_config =
  dict_set (dict_set (dict_set (dict_set (dict_set (dict_of_items base_config)
    "depth_k"%string (CInt (depth_k l)))
    "depth_v"%string (CInt (depth_v l)))
    "num_heads"%string (CInt (num_heads l)))
    "relative"%string (CBool (relative l)))
    "strides"%string (CPair (fst (strides l)) (snd (strides l))).
Proof. unfold get_config, dict_of_items. rewrite fold_left_app. reflexivity. Qed.

Lemma get_config_own (l : Layer R) (base_config : pydict) :
  map (dict_get (get_config l base_config)) config_keys =
  [Some (CInt (depth_k l)); Some (CInt (depth_v l)); Some (CInt (num_heads l));
   Some (CBool (relative l)); Some (CPair (fst (strides l)) (snd (strides l)))].
Proof.
  rewrite get_config_sets. unfold config_keys. cbn [map].
  rewrite !dict_get_set. reflexivity.
Qed.

Lemma get_config_base (l : Layer R) (base_config : pydict) (k : String.string) :
  NoDup (map fst base_config) -> ~ In k config_keys ->
  dict_get (get_config l base_config) k = dict_get base_config k.
Proof.
  intros Hnd Hk. rewrite get_config_sets, !dict_get_set, (dict_of_items_dict base_config Hnd).
  unfold config_keys in Hk. cbn [In] in Hk.
  repeat match goal with
         | |- context [String.eqb ?a k] =>
             destruct (String.eqb_spec a k); [exfalso; tauto|]
         end.
  reflexivity.
Qed.

End ConfigFacts.

Section LayoutFacts.

Context {R : Type} `{Scalar R}.

Lemma call_records_channels_first (x y : tensor R) (l l' : Layer R) (B H0 W C : nat) :
  axis l = 1%Z -> shape x = [B; C; H0; W] ->
  call x l = Ok (y, l') ->
  l' = set_spatial l (Some (Z.of_nat B)) (Some (Z.of_nat H0)) (Some (Z.of_nat W)).
Proof.
  intros Hax Hx. rewrite (call_channels_first x l Hax). unfold call_transposed.
  rewrite K_permute_dimensions_ok by (rewrite Hx; reflexivity).
  rewrite Hx. cbn [rbind shape length seq map nth index_of Nat.eqb].
  set (x' := build_tensor _ _). intros Hc.
  destruct (call x' (set_axis l (-1))) as [[y' l1]|] eqn:Hc'; cbn [rbind] in Hc;
    [|discriminate Hc].
  inv_rbind Hc. injection Hc as _ <-.
  pose proof (@call_records R _ x' y' (set_axis l (-1)) l1 B H0 W C
                eq_refl eq_refl Hc') as ->.
  destruct l. cbn in Hax. subst. reflexivity.
Qed.

End LayoutFacts.

(** *** The forward pass, the tables and the configuration *)

Section FurtherProperties.

Context {R : Type} `{Scalar R}.

(** X1. On a layer built with relative encodings for extent [H x W], and a
    query of shape [(B, n, H, W, d)], [relative_logits] returns two tensors of
    shape [(B, n, H*W, H*W)]: the height term at [[b, h, i*W+j, i'*W+j']] is
    the dot product of the query at [(i, j)] with row [i' - i + H - 1] of the
    height table, the width term the dot product with row [j' - j + W - 1] of
    the width table; both rows lie inside their table. *)
Theorem relative_logits_entries (q : tensor R) (l0 l : Layer R)
    (st : Z * Z) (bo : option Z) (C1 : Z) (sw sh : R -> nat -> R)
    (B H0 W n d e : nat) :
  0 < n -> 0 < d -> 0 < H0 -> 0 < W ->
  __init__ (PyInt (Z.of_nat (n * d))) (PyInt (Z.of_nat (n * e))) (Z.of_nat n)
    true st channels_last = Ok l0 ->
  build l0 [bo; Some (Z.of_nat H0); Some (Z.of_nat W); Some C1] sw sh = Ok l ->
  shape q = [B; n; H0; W; d] ->
  exists krw krh h_rel w_rel,
    key_relative_w l = Some krw /\ key_relative_h l = Some krh /\
    shape krw = [2 * W - 1; d] /\ shape krh = [2 * H0 - 1; d] /\
    relative_logits l q = Ok (h_rel, w_rel) /\
    shape h_rel = [B; n; H0 * W; H0 * W] /\
    shape w_rel = [B; n; H0 * W; H0 * W] /\
    forall b h i j i' j', b < B -> h < n -> i < H0 -> j < W -> i' < H0 -> j' < W ->
      i' + (H0 - 1) - i < 2 * H0 - 1 /\ j' + (W - 1) - j < 2 * W - 1 /\
      get h_rel [b; h; i * W + j; i' * W + j'] =
        fsum d (fun c => fmul (get q [b; h; i; j; c])
                              (get krh [i' + (H0 - 1) - i; c])) /\
      get w_rel [b; h; i * W + j; i' * W + j'] =
        fsum d (fun c => fmul (get q [b; h; i; j; c])
                              (get krw [j' + (W - 1) - j; c])).
Proof.
  intros Hn Hd HH HW Hinit Hbuild Hq.
  edestruct built_configured as (Hcfg & _ & Htab);
    [exact Hn|exact Hd|exact HH|exact HW|exact Hinit|exact Hbuild|].
  destruct (Htab eq_refl) as (krw & krh & Hkw & Hkh & Hsw & Hsh & _ & _).
  edestruct relative_logits_values with (l := l) (q := q) (B := B)
    as (hr & wr & Hr & Hshr & _ & Hswr & _ & Hg);
    [exact (cfg_heads Hcfg)|exact Hn|exact HH|exact HW|exact Hkw|exact Hkh|exact Hq
    |exact Hsw|exact Hsh|].
  exists krw, krh, hr, wr. repeat (split; [assumption|]).
  intros b h i j i' j' Hb Hh Hi Hj Hi' Hj'.
  split; [lia|]. split; [lia|]. apply Hg; assumption.
Qed.

(** X2. With relative encodings, the logits [call] hands to the softmax are,
    entry by entry, the content logit plus the height term plus the width
    term, each a dot product over the head's [d] channels of the scaled query
    at [(i, j)] with, in turn, the key at [(i', j')], row [i' - i + H - 1] of
    the height table and row [j' - j + W - 1] of the width table. *)
Theorem pre_softmax_logits (x : tensor R) (l0 l : Layer R)
    (st : Z * Z) (bo : option Z) (C1 : Z) (sw sh : R -> nat -> R)
    (B H0 W n d e : nat) :
  0 < n -> 0 < d -> 0 < H0 -> 0 < W ->
  __init__ (PyInt (Z.of_nat (n * d))) (PyInt (Z.of_nat (n * e))) (Z.of_nat n)
    true st channels_last = Ok l0 ->
  build l0 [bo; Some (Z.of_nat H0); Some (Z.of_nat W); Some C1] sw sh = Ok l ->
  shape x = [B; H0; W; 2 * (n * d) + n * e] -> wf x ->
  let s := frsqrt (Z.of_nat (n * d)) (Z.of_nat n) in
  let qv b i j h c := fmul (get x [b; i; j; h * d + c]) s in
  exists krw krh logits flat_v l',
    key_relative_w l = Some krw /\ key_relative_h l = Some krh /\
    softmax_input x l = Ok (logits, flat_v, l') /\
    shape logits = [B; n; H0 * W; H0 * W] /\
    forall b h i j i' j', b < B -> h < n -> i < H0 -> j < W -> i' < H0 -> j' < W ->
      get logits [b; h; i * W + j; i' * W + j'] =
      fadd (fadd
              (fsum d (fun c => fmul (qv b i j h c)
                                     (get x [b; i'; j'; n * d + h * d + c])))
              (fsum d (fun c => fmul (qv b i j h c) (get krh [i' + (H0 - 1) - i; c]))))
           (fsum d (fun c => fmul (qv b i j h c) (get krw [j' + (W - 1) - j; c]))).
Proof.
  intros Hn Hd HH HW Hinit Hbuild Hx Hwf s qv.
  edestruct built_configured as (Hcfg & Hrel & Htab);
    [exact Hn|exact Hd|exact HH|exact HW|exact Hinit|exact Hbuild|].
  destruct (Htab eq_refl) as (krw & krh & Hkw & Hkh & _).
  edestruct softmax_input_values as (lg & fv & Hs & Hsl & _ & _ & _ & Hg);
    [exact Hcfg|exact HH|exact HW|intros _; apply Htab; reflexivity|exact Hx|exact Hwf|].
  rewrite (cfg_dk Hcfg), (cfg_heads Hcfg) in Hg.
  exists krw, krh, lg, fv. eexists.
  split; [exact Hkw|]. split; [exact Hkh|]. split; [exact Hs|]. split; [exact Hsl|].
  intros b h i j i' j' Hb Hh Hi Hj Hi' Hj'.
  apply (Hg krw krh Hrel Hkw Hkh); assumption.
Qed.

(** X3. The output of [call] at position [(i, j)], channel [c] of head [h], is
    the sum over the [H*W] positions [p] of the softmax of row [i*W+j] of the
    head's logits, taken at [p], times the value channel of the input at
    position [(p / W, p mod W)] of the same image: the values mixed into an
    output entry are those of its own image and head. *)
Theorem call_output_entries (x : tensor R) (l0 l : Layer R) (rel : bool)
    (st : Z * Z) (bo : option Z) (C1 : Z) (sw sh : R -> nat -> R)
    (B H0 W n d e : nat) :
  0 < n -> 0 < d -> 0 < H0 -> 0 < W ->
  __init__ (PyInt (Z.of_nat (n * d))) (PyInt (Z.of_nat (n * e))) (Z.of_nat n)
    rel st channels_last = Ok l0 ->
  build l0 [bo; Some (Z.of_nat H0); Some (Z.of_nat W); Some C1] sw sh = Ok l ->
  shape x = [B; H0; W; 2 * (n * d) + n * e] -> wf x ->
  exists logits flat_v l' y,
    softmax_input x l = Ok (logits, flat_v, l') /\
    call x l = Ok (y, l') /\
    forall b h i j c, b < B -> h < n -> i < H0 -> j < W -> c < e ->
      get y [b; i; j; h * e + c] =
      fsum (H0 * W) (fun p =>
        fmul (nth p (softmax_row
                       (map (fun k => get logits [b; h; i * W + j; k])
                            (seq 0 (H0 * W)))) fzero)
             (get x [b; p / W; p mod W; 2 * (n * d) + h * e + c])).
Proof.
  intros Hn Hd HH HW Hinit Hbuild Hx Hwf.
  edestruct built_configured as (Hcfg & Hrel & Htab);
    [exact Hn|exact Hd|exact HH|exact HW|exact Hinit|exact Hbuild|].
  assert (Htab' : relative l = true -> tables_sized l H0 W d)
    by (rewrite Hrel; exact Htab).
  destruct (call_values Hcfg HH HW Htab' Hx Hwf) as (lg & fv & l' & y & Hs & Hc & Hg).
  edestruct softmax_input_values as (lg' & fv' & Hs' & _ & _ & Hgv & _);
    [exact Hcfg|exact HH|exact HW|exact Htab'|exact Hx|exact Hwf|].
  rewrite Hs in Hs'. injection Hs' as <- <- _.
  exists lg, fv, l', y. split; [exact Hs|]. split; [exact Hc|].
  intros b h i j c Hb Hh Hi Hj Hc'.
  rewrite Hg by assumption. apply fsum_ext. intros p Hp.
  f_equal.
  assert (Hpw : p = p / W * W + p mod W) by (pose proof (Nat.div_mod_eq p W); lia).
  rewrite Hpw at 1. apply Hgv; try assumption.
  - apply Nat.Div0.div_lt_upper_bound. lia.
  - apply Nat.mod_upper_bound. lia.
Qed.

(** X4. On a channels-first layer, [call] is the channels-last pass between
    two transpositions: the input is permuted by [(0, 2, 3, 1)], handed to the
    pass of the same layer with [axis = -1], and the result permuted back by
    [(0, 3, 1, 2)]; errors and the recorded extents are those of that pass. *)
Theorem call_channels_first_transposes (x : tensor R) (l : Layer R) :
  axis l = 1%Z -> call x l = call_transposed x l.
Proof. apply call_channels_first. Qed.

(** X5. For a layer constructed under channels-first and built on inputs of
    shape [(_, 2 depth_k + depth_v, H, W)], the forward pass on a well-formed
    input of shape [(B, 2 depth_k + depth_v, H, W)] returns a well-formed
    tensor of shape [(B, depth_v, H, W)], whose entry [[b, c, i, j]] is entry
    [[b, i, j, c]] of the channels-last pass on the transposed input;
    [compute_output_shape] reports the same shape. *)
Theorem channels_first_call_output (x : tensor R) (l0 l : Layer R) (rel : bool)
    (st : Z * Z) (bo : option Z) (sw sh : R -> nat -> R)
    (B H0 W n d e : nat) :
  0 < n -> 0 < d -> 0 < H0 -> 0 < W ->
  __init__ (PyInt (Z.of_nat (n * d))) (PyInt (Z.of_nat (n * e))) (Z.of_nat n)
    rel st channels_first = Ok l0 ->
  build l0 [bo; Some (Z.of_nat (2 * (n * d) + n * e)); Some (Z.of_nat H0);
            Some (Z.of_nat W)] sw sh = Ok l ->
  shape x = [B; 2 * (n * d) + n * e; H0; W] -> wf x ->
  (exists x' y' l1 y l',
     K_permute_dimensions x [0; 2; 3; 1] = Ok x' /\
     call x' (set_axis l (-1)) = Ok (y', l1) /\
     call x l = Ok (y, l') /\
     shape y = [B; n * e; H0; W] /\ wf y /\
     forall b c i j, b < B -> c < n * e -> i < H0 -> j < W ->
       get y [b; c; i; j] = get y' [b; i; j; c]) /\
  compute_output_shape l
    [bo; Some (Z.of_nat (2 * (n * d) + n * e)); Some (Z.of_nat H0); Some (Z.of_nat W)] =
  Ok [bo; Some (Z.of_nat (n * e)); Some (Z.of_nat H0); Some (Z.of_nat W)].
Proof.
  intros Hn Hd HH HW Hinit Hbuild Hx Hwf.
  edestruct built_channels_first as (Hax & Hdv & Hcfg & Hrel & Htab);
    [exact Hn|exact Hd|exact HH|exact HW|exact Hinit|exact Hbuild|].
  split.
  - edestruct call_channels_first_spec
      as (x' & y' & l1 & y & Hp & _ & _ & Hy' & Hy & Hsy & Hwy & Hg);
      [exact Hax|exact Hcfg|exact HH|exact HW| |exact Hx|exact Hwf|].
    + rewrite Hrel. exact Htab.
    + exists x', y', l1, y. eexists. repeat (split; [eassumption|]). exact Hg.
  - unfold compute_output_shape. rewrite Hax, Hdv. reflexivity.
Qed.

(** X6. A forward call that returns leaves the layer as it was except for
    [_batch], [_height] and [_width], which hold the batch size, height and
    width of the input just processed, in either data format. *)
Theorem call_records_input_extents (x y : tensor R) (l l' : Layer R) (B H0 W C : nat) :
  axis l = (-1)%Z /\ shape x = [B; H0; W; C] \/
  axis l = 1%Z /\ shape x = [B; C; H0; W] ->
  call x l = Ok (y, l') ->
  l' = set_spatial l (Some (Z.of_nat B)) (Some (Z.of_nat H0)) (Some (Z.of_nat W)).
Proof.
  intros [[Hax Hx]|[Hax Hx]] Hc.
  - eapply call_records; eassumption.
  - eapply call_records_channels_first; eassumption.
Qed.

(** X8. On a well-formed input of shape [(B, N, L, M)] with [B * N > 0],
    [rel_to_abs] returns exactly when [L >= 1] and [M = 2L - 1]; every other
    input is rejected with [InvalidArgumentError]. *)
Theorem rel_to_abs_accepts_exactly (x : tensor R) (B N L M0 : nat) :
  shape x = [B; N; L; M0] -> wf x -> 0 < B * N ->
  ((exists y, rel_to_abs x = Ok y) <-> 1 <= L /\ M0 = 2 * L - 1) /\
  (~ (1 <= L /\ M0 = 2 * L - 1) -> rel_to_abs x = Err InvalidArgumentError).
Proof.
  intros Hx Hwf Hpos. split.
  - eapply rel_to_abs_accepts_iff; eassumption.
  - intros Hno. eapply rel_to_abs_rejects; eassumption.
Qed.

(** X14. The dictionary [get_config] returns maps [depth_k], [depth_v],
    [num_heads], [relative] and [strides] to the layer's own values, whatever
    the base class reported under these names, and every other key to what the
    base class reported. *)
Theorem get_config_entries (l : Layer R) (base_config : pydict) :
  NoDup (map fst base_config) ->
  map (dict_get (get_config l base_config)) config_keys =
    [Some (CInt (depth_k l)); Some (CInt (depth_v l)); Some (CInt (num_heads l));
     Some (CBool (relative l)); Some (CPair (fst (strides l)) (snd (strides l)))] /\
  forall k, ~ In k config_keys ->
    dict_get (get_config l base_config) k = dict_get base_config k.
Proof.
  intros Hnd. split; [apply get_config_own|].
  intros k Hk. apply get_config_base; assumption.
Qed.

End FurtherProperties.

(** *** The reported shape and the independence of the images of a batch *)

Section ShapeFacts.

Context {R : Type} `{Scalar R}.

(** X15. [compute_output_shape] replaces the entry at the channel position
    (position 1 under channels-first, the last one otherwise) by [depth_v] and
    keeps the length and every other entry of the input shape, whatever its
    rank; it raises [IndexError] exactly when the shape has no entry at that
    position. *)
Theorem compute_output_shape_replaces_channel (l : Layer R) (shp : list (option Z)) :
  let c := if (axis l =? 1)%Z then 1 else length shp - 1 in
  (c < length shp ->
   exists out,
     compute_output_shape l shp = Ok out /\ length out = length shp /\
     nth_error out c = Some (Some (depth_v l)) /\
     forall i, i <> c -> nth_error out i = nth_error shp i) /\
  (length shp <= c -> compute_output_shape l shp = Err IndexError).
Proof.
  intros c. unfold compute_output_shape. fold c. split.
  - intros Hc. rewrite (proj2 (Nat.ltb_lt _ _) Hc).
    assert (Hf : length (firstn c shp) = c) by (rewrite length_firstn; lia).
    eexists. split; [reflexivity|]. split; [|split].
    + rewrite length_app. cbn [length]. rewrite Hf, length_skipn. lia.
    + rewrite nth_error_app2 by lia. rewrite Hf, Nat.sub_diag. reflexivity.
    + intros i Hi. destruct (Nat.lt_ge_cases i c) as [Hlt|Hge].
      * rewrite nth_error_app1 by lia.
        rewrite nth_error_firstn, (proj2 (Nat.ltb_lt _ _) Hlt). reflexivity.
      * rewrite nth_error_app2 by lia. rewrite Hf.
        destruct (i - c) as [|k] eqn:Hk; [lia|]. cbn [nth_error].
        rewrite nth_error_skipn. f_equal. lia.
  - intros Hc. rewrite (proj2 (Nat.ltb_ge _ _) Hc). reflexivity.
Qed.

End ShapeFacts.

Section BatchFacts.

Context {R : Type} `{Scalar R}.

(* the logits of one image depend on that image only *)
Lemma softmax_input_image (x1 x2 : tensor R) (l : Layer R)
    (B1 B2 b1 b2 H0 W n d e : nat) :
  configured l n d e -> 0 < H0 -> 0 < W ->
  (relative l = true -> tables_sized l H0 W d) ->
  shape x1 = [B1; H0; W; 2 * (n * d) + n * e] -> wf x1 ->
  shape x2 = [B2; H0; W; 2 * (n * d) + n * e] -> wf x2 ->
  b1 < B1 -> b2 < B2 ->
  (forall i j c, i < H0 -> j < W -> c < 2 * (n * d) + n * e ->
     get x1 [b1; i; j; c] = get x2 [b2; i; j; c]) ->
  exists lg1 fv1 l1 lg2 fv2 l2,
    softmax_input x1 l = Ok (lg1, fv1, l1) /\
    softmax_input x2 l = Ok (lg2, fv2, l2) /\
    (forall h p k, h < n -> p < H0 * W -> k < H0 * W ->
       get lg1 [b1; h; p; k] = get lg2 [b2; h; p; k]) /\
    (forall h p c, h < n -> p < H0 * W -> c < e ->
       get fv1 [b1; h; p; c] = get fv2 [b2; h; p; c]).
Proof.
  intros Hcfg HH HW Htab Hx1 Hwf1 Hx2 Hwf2 Hb1 Hb2 Hsame.
  edestruct softmax_input_values with (x := x1) (B := B1)
    as (lg1 & fv1 & Hs1 & _ & _ & Hgv1 & Hgc1 & Hgr1);
    [exact Hcfg|exact HH|exact HW|exact Htab|exact Hx1|exact Hwf1|].
  edestruct softmax_input_values with (x := x2) (B := B2)
    as (lg2 & fv2 & Hs2 & _ & _ & Hgv2 & Hgc2 & Hgr2);
    [exact Hcfg|exact HH|exact HW|exact Htab|exact Hx2|exact Hwf2|].
  exists lg1, fv1. eexists. exists lg2, fv2. eexists.
  split; [exact Hs1|]. split; [exact Hs2|].
  assert (Hpos : forall p, p < H0 * W ->
            p = p / W * W + p mod W /\ p / W < H0 /\ p mod W < W).
  { intros p Hp. split; [pose proof (Nat.div_mod_eq p W); lia|].
    split; [apply Nat.Div0.div_lt_upper_bound; lia|apply Nat.mod_upper_bound; lia]. }
  assert (Hhd : forall h c, h < n -> c < d -> h * d + c < 2 * (n * d) + n * e).
  { intros h c Hh Hc. pose proof (head_offset_lt Hh Hc). lia. }
  assert (Hkd : forall h c, h < n -> c < d -> n * d + h * d + c < 2 * (n * d) + n * e).
  { intros h c Hh Hc. pose proof (head_offset_lt Hh Hc). lia. }
  assert (Hve : forall h c, h < n -> c < e ->
            2 * (n * d) + h * e + c < 2 * (n * d) + n * e).
  { intros h c Hh Hc. pose proof (head_offset_lt Hh Hc). lia. }
  split.
  - intros h p k Hh Hp Hk.
    destruct (Hpos p Hp) as (Ep & Hi & Hj).
    destruct (Hpos k Hk) as (Ek & Hi' & Hj').
    rewrite Ep, Ek.
    destruct (relative l) eqn:Hrel.
    + destruct (Htab eq_refl) as (krw & krh & Hkw & Hkh & _).
      rewrite (Hgr1 krw krh eq_refl Hkw Hkh), (Hgr2 krw krh eq_refl Hkw Hkh)
        by assumption.
      f_equal; [f_equal|]; apply fsum_ext; intros c Hc;
        rewrite !Hsame by auto; reflexivity.
    + rewrite (Hgc1 eq_refl), (Hgc2 eq_refl) by assumption.
      apply fsum_ext; intros c Hc. rewrite !Hsame by auto. reflexivity.
  - intros h p c Hh Hp Hc.
    destruct (Hpos p Hp) as (Ep & Hi & Hj).
    rewrite Ep, Hgv1, Hgv2 by assumption. apply Hsame; auto.
Qed.

(** X16. The images of a batch do not influence each other: when image [b1]
    of one input and image [b2] of another agree entry by entry, the forward
    passes of a built layer on the two inputs, whatever their batch sizes and
    their other images, return outputs that agree on these two images. *)
Theorem call_image_independent (x1 x2 : tensor R) (l0 l : Layer R) (rel : bool)
    (st : Z * Z) (bo : option Z) (C1 : Z) (sw sh : R -> nat -> R)
    (B1 B2 b1 b2 H0 W n d e : nat) :
  0 < n -> 0 < d -> 0 < H0 -> 0 < W ->
  __init__ (PyInt (Z.of_nat (n * d))) (PyInt (Z.of_nat (n * e))) (Z.of_nat n)
    rel st channels_last = Ok l0 ->
  build l0 [bo; Some (Z.of_nat H0); Some (Z.of_nat W); Some C1] sw sh = Ok l ->
  shape x1 = [B1; H0; W; 2 * (n * d) + n * e] -> wf x1 ->
  shape x2 = [B2; H0; W; 2 * (n * d) + n * e] -> wf x2 ->
  b1 < B1 -> b2 < B2 ->
  (forall i j c, i < H0 -> j < W -> c < 2 * (n * d) + n * e ->
     get x1 [b1; i; j; c] = get x2 [b2; i; j; c]) ->
  exists y1 l1 y2 l2,
    call x1 l = Ok (y1, l1) /\ call x2 l = Ok (y2, l2) /\
    forall i j c, i < H0 -> j < W -> c < n * e ->
      get y1 [b1; i; j; c] = get y2 [b2; i; j; c].
Proof.
  intros Hn Hd HH HW Hinit Hbuild Hx1 Hwf1 Hx2 Hwf2 Hb1 Hb2 Hsame.
  edestruct built_configured as (Hcfg & Hrel & Htab);
    [exact Hn|exact Hd|exact HH|exact HW|exact Hinit|exact Hbuild|].
  assert (Htab' : relative l = true -> tables_sized l H0 W d)
    by (rewrite Hrel; exact Htab).
  destruct (softmax_input_image Hcfg HH HW Htab' Hx1 Hwf1 Hx2 Hwf2 Hb1 Hb2 Hsame)
    as (lg1 & fv1 & l1 & lg2 & fv2 & l2 & Hs1 & Hs2 & Hlg & Hfv).
  destruct (call_values Hcfg HH HW Htab' Hx1 Hwf1)
    as (lg1' & fv1' & l1' & y1 & Hs1' & Hc1 & Hg1).
  destruct (call_values Hcfg HH HW Htab' Hx2 Hwf2)
    as (lg2' & fv2' & l2' & y2 & Hs2' & Hc2 & Hg2).
  rewrite Hs1 in Hs1'. injection Hs1' as <- <- <-.
  rewrite Hs2 in Hs2'. injection Hs2' as <- <- <-.
  exists y1, l1, y2, l2. split; [exact Hc1|]. split; [exact Hc2|].
  intros i j c Hi Hj Hc.
  assert (He : 0 < e) by (destruct e; lia).
  assert (Hce : c = c / e * e + c mod e) by (pose proof (Nat.div_mod_eq c e); lia).
  assert (Hh : c / e < n) by (apply Nat.Div0.div_lt_upper_bound; lia).
  assert (Hm : c mod e < e) by (apply Nat.mod_upper_bound; lia).
  assert (Hp : i * W + j < H0 * W) by (apply head_offset_lt; assumption).
  rewrite Hce, Hg1, Hg2 by assumption.
  apply fsum_ext. intros p Hpp. f_equal.
  - f_equal. f_equal. apply map_ext_in. intros k Hk. apply in_seq in Hk.
    apply Hlg; [assumption|assumption|lia].
  - apply Hfv; assumption.
Qed.

End BatchFacts.

(** ** Running the model *)

(* the hand-checkable case of the specification: [L = 3], the entries of the
   input numbered 0..14 row by row *)
Example rel_to_abs_three :
  rel_to_abs (iota_tensor [1; 1; 3; 5]) =
  Ok (mkT [1; 1; 3; 3] [2; 3; 4; 6; 7; 8; 10; 11; 12]%Z).
Proof. vm_compute. reflexivity. Qed.

Example permute_dimensions_transpose :
  K_permute_dimensions (iota_tensor [2; 3]) [1; 0] =
  Ok (mkT [3; 2] [0; 3; 1; 4; 2; 5]%Z).
Proof. vm_compute. reflexivity. Qed.

Example concatenate_last_axis :
  K_concatenate (iota_tensor [2; 3]) (iota_tensor [2; 1]) 1 =
  Ok (mkT [2; 4] [0; 1; 2; 0; 3; 4; 5; 1]%Z).
Proof. vm_compute. reflexivity. Qed.

Example reshape_infers_batch :
  K_reshape (iota_tensor [2; 3; 2]) [-1; 4]%Z = Ok (iota_tensor [3; 4]).
Proof. vm_compute. reflexivity. Qed.

Example build_allocates_tables :
  build (fresh_layer 4 4 4 true) [None; Some 8; Some 8; Some 12]%Z ramp ramp =
  Ok (built_layer 4 4 4 true 8 8).
Proof. vm_compute. reflexivity. Qed.

Example indivisible_depth_k_call :
  call (iota_tensor [1; 2; 2; 14]) (built_layer 5 4 4 true 2 2) =
  Err InvalidArgumentError.
Proof. vm_compute. reflexivity. Qed.

(** ** Instances of the stated properties *)

Lemma rel_to_abs_index_mapping_witness :
  1 <= 3 /\
  exists y,
    rel_to_abs (iota_tensor [1; 1; 3; 5]) = Ok y /\ shape y = [1; 1; 3; 3] /\ wf y /\
    forall b n i j, b < 1 -> n < 1 -> i < 3 -> j < 3 ->
      j + (3 - 1) - i < 2 * 3 - 1 /\
      get y [b; n; i; j] = get (iota_tensor [1; 1; 3; 5]) [b; n; i; j + (3 - 1) - i].
Proof.
  split; [lia|].
  apply (@rel_to_abs_index_mapping Z Scalar_Z (iota_tensor [1; 1; 3; 5]) 1 1 3);
    [reflexivity|lia|reflexivity].
Defined.

Lemma split_combine_roundtrip_witness :
  4 mod 2 = 0 /\
  exists y l',
    split_heads_2d (iota_tensor [1; 2; 2; 4]) (built_layer 2 2 2 true 2 2) = Ok (y, l') /\
    shape y = [1; 2; 2; 2; 4 / 2] /\
    combine_heads_2d y = Ok (iota_tensor [1; 2; 2; 4]) /\
    forall b h i j c, b < 1 -> h < 2 -> i < 2 -> j < 2 -> c < 4 / 2 ->
      h * (4 / 2) + c < 4 /\
      get y [b; h; i; j; c] = get (iota_tensor [1; 2; 2; 4]) [b; i; j; h * (4 / 2) + c].
Proof.
  split; [reflexivity|].
  apply (@split_combine_roundtrip Z Scalar_Z (iota_tensor [1; 2; 2; 4])
           (built_layer 2 2 2 true 2 2) [None; Some 2; Some 2; Some 6]%Z 1 2 2 4 2);
    try reflexivity; lia.
Defined.

Lemma indivisible_depth_k_detected_at_call_witness :
  0 < 4 /\ 5 mod 4 <> 0 /\
  exists l0,
    __init__ (PyInt 5) (PyInt 4) 4 true (1, 1)%Z channels_last = Ok l0 /\
    forall (l : Layer Z) shp sw sh (x : tensor Z) B H0 W,
      build l0 shp sw sh = Ok l ->
      shape x = [B; H0; W; 2 * 5 + 4] -> 0 < B * H0 * W ->
      call x l = Err InvalidArgumentError.
Proof.
  split; [lia|]. split; [discriminate|].
  apply (@indivisible_depth_k_detected_at_call Z Scalar_Z true (1, 1)%Z 5 4 4);
    [lia|discriminate].
Defined.

Lemma construction_accepts_indivisible_depth :
  ~ (exists e, __init__ (R := Z) (PyInt 5) (PyInt 4) 4 true (1, 1)%Z channels_last = Err e).
Proof. intros [e He]. discriminate He. Qed.

(* tables sized at 8 x 8, call at 16 x 16: rejected at every batch size *)
Lemma extent_rejected_8_16 (B : nat) : 1 <= B -> extent_rejected B 8 16.
Proof. intros HB. unfold extent_rejected. lia. Qed.

Lemma call_after_extent_change_fails_witness :
  extent_rejected 2 8 16 /\
  call (iota_tensor [2; 16; 16; 12]) (built_layer 4 4 4 true 8 8) = Err InvalidArgumentError.
Proof.
  assert (Hrej : extent_rejected 2 8 16) by (unfold extent_rejected; lia).
  split; [exact Hrej|].
  apply (@call_after_extent_change_fails Z Scalar_Z (iota_tensor [2; 16; 16; 12])
           (fresh_layer 4 4 4 true) (built_layer 4 4 4 true 8 8)
           (1, 1)%Z None 12%Z ramp ramp 2 16 16 8 8 4 1 1);
    try lia; try (vm_compute; reflexivity).
  left. exact Hrej.
Defined.

(* tables sized at 1 x 1, then a batch of three 2 x 2 inputs: the call returns *)
Lemma call_after_resolution_change_returns :
  build (fresh_layer 2 2 2 true) [None; Some 1; Some 1; Some 6]%Z ramp ramp =
    Ok (built_layer 2 2 2 true 1 1) /\
  shape (iota_tensor [3; 2; 2; 6]) = [3; 2; 2; 6] /\
  ~ (exists e, call (iota_tensor [3; 2; 2; 6]) (built_layer 2 2 2 true 1 1) = Err e) /\
  exists y l',
    call (iota_tensor [3; 2; 2; 6]) (built_layer 2 2 2 true 1 1) = Ok (y, l') /\
    shape y = [3; 2; 2; 2].
Proof.
  split; [vm_compute; reflexivity|]. split; [reflexivity|].
  split.
  - intros [e He]. vm_compute in He. discriminate He.
  - eexists. eexists. split; [vm_compute; reflexivity|reflexivity].
Qed.

(* a single image at 2 x 2 on tables sized at 8 x 8: the reshape infers a
   batch of 5, the adds broadcast, and the reshape of the attention output
   rejects the result *)
Example call_single_image_smaller_extent :
  call (iota_tensor [1; 2; 2; 6]) (built_layer 2 2 2 true 8 8) = Err InvalidArgumentError.
Proof. vm_compute. reflexivity. Qed.

(* with [depth_v = 0] the attention output is empty and that reshape has
   nothing to reject *)
Example call_empty_values_returns :
  exists y l',
    call (iota_tensor [1; 1; 1; 4]) (built_layer 2 0 2 true 2 2) = Ok (y, l') /\
    shape y = [1; 1; 1; 0].
Proof. eexists. eexists. split; [vm_compute; reflexivity|reflexivity]. Qed.

Lemma relative_disabled_content_only_witness :
  relative (built_layer 2 2 2 false 2 2) = false /\
  softmax_input (iota_tensor [1; 2; 2; 6]) (built_layer 2 2 2 false 2 2) =
    bind (content_logits (iota_tensor [1; 2; 2; 6]))
      (fun '(_, logits, flat_v) => ret (logits, flat_v)) (built_layer 2 2 2 false 2 2) /\
  call (iota_tensor [1; 2; 2; 6]) (built_layer 2 2 2 false 2 2) =
    content_only_attention (iota_tensor [1; 2; 2; 6]) (built_layer 2 2 2 false 2 2).
Proof.
  split; [reflexivity|].
  apply (@relative_disabled_content_only Z Scalar_Z (iota_tensor [1; 2; 2; 6])
           (built_layer 2 2 2 false 2 2)).
  reflexivity.
Defined.

Lemma call_output_shape_witness :
  (exists y l',
     call (iota_tensor [2; 8; 8; 2 * 4 + 4]) (built_layer 4 4 4 true 8 8) = Ok (y, l') /\
     shape y = [2; 8; 8; 4] /\ wf y) /\
  compute_output_shape (built_layer 4 4 4 true 8 8)
    [None; Some 8; Some 8; Some 12]%Z = Ok [None; Some 8; Some 8; Some 4]%Z.
Proof.
  apply (@call_output_shape Z Scalar_Z (iota_tensor [2; 8; 8; 12])
           (fresh_layer 4 4 4 true) (built_layer 4 4 4 true 8 8) true
           (1, 1)%Z None ramp ramp 2 8 8 4 1 1);
    try lia; try (vm_compute; reflexivity).
Defined.

Lemma content_logits_scaled_query_witness :
  exists q logits flat_v l',
    content_logits (iota_tensor [1; 2; 2; 6]) (built_layer 2 2 2 true 2 2) =
      Ok (q, logits, flat_v, l') /\
    shape q = [1; 2; 2; 2; 1] /\
    shape logits = [1; 2; 2 * 2; 2 * 2] /\
    (forall b h i j k, b < 1 -> h < 2 -> i < 2 -> j < 2 -> k < 1 ->
       get q [b; h; i; j; k] =
       fmul (get (iota_tensor [1; 2; 2; 6]) [b; i; j; h * 1 + k]) (frsqrt 2 2)) /\
    (forall b h i j i' j', b < 1 -> h < 2 -> i < 2 -> j < 2 -> i' < 2 -> j' < 2 ->
       get logits [b; h; i * 2 + j; i' * 2 + j'] =
       fsum 1 (fun k =>
         fmul (fmul (get (iota_tensor [1; 2; 2; 6]) [b; i; j; h * 1 + k]) (frsqrt 2 2))
              (get (iota_tensor [1; 2; 2; 6]) [b; i'; j'; 2 * 1 + h * 1 + k]))).
Proof.
  apply (@content_logits_scaled_query Z Scalar_Z (iota_tensor [1; 2; 2; 6])
           (fresh_layer 2 2 2 true) (built_layer 2 2 2 true 2 2) true
           (1, 1)%Z None 6%Z ramp ramp 1 2 2 2 1 1);
    try lia; try reflexivity.
Defined.

Lemma rel_to_abs_single_position_witness :
  rel_to_abs (iota_tensor [2; 3; 1; 1]) = Ok (iota_tensor [2; 3; 1; 1]).
Proof.
  apply (@rel_to_abs_single_position Z Scalar_Z (iota_tensor [2; 3; 1; 1]) 2 3);
    reflexivity.
Defined.



Lemma relative_logits_entries_witness :
  exists krw krh h_rel w_rel,
    key_relative_w (built_layer 2 2 2 true 2 2) = Some krw /\
    key_relative_h (built_layer 2 2 2 true 2 2) = Some krh /\
    shape krw = [2 * 2 - 1; 1] /\ shape krh = [2 * 2 - 1; 1] /\
    relative_logits (built_layer 2 2 2 true 2 2) (iota_tensor [1; 2; 2; 2; 1]) =
      Ok (h_rel, w_rel) /\
    shape h_rel = [1; 2; 2 * 2; 2 * 2] /\
    shape w_rel = [1; 2; 2 * 2; 2 * 2] /\
    forall b h i j i' j', b < 1 -> h < 2 -> i < 2 -> j < 2 -> i' < 2 -> j' < 2 ->
      i' + (2 - 1) - i < 2 * 2 - 1 /\ j' + (2 - 1) - j < 2 * 2 - 1 /\
      get h_rel [b; h; i * 2 + j; i' * 2 + j'] =
        fsum 1 (fun c => fmul (get (iota_tensor [1; 2; 2; 2; 1]) [b; h; i; j; c])
                              (get krh [i' + (2 - 1) - i; c])) /\
      get w_rel [b; h; i * 2 + j; i' * 2 + j'] =
        fsum 1 (fun c => fmul (get (iota_tensor [1; 2; 2; 2; 1]) [b; h; i; j; c])
                              (get krw [j' + (2 - 1) - j; c])).
Proof.
  apply (@relative_logits_entries Z Scalar_Z (iota_tensor [1; 2; 2; 2; 1])
           (fresh_layer 2 2 2 true) (built_layer 2 2 2 true 2 2)
           (1, 1)%Z None 6%Z ramp ramp 1 2 2 2 1 1);
    try lia; try reflexivity.
Defined.

Lemma pre_softmax_logits_witness :
  exists krw krh logits flat_v l',
    key_relative_w (built_layer 2 2 2 true 2 2) = Some krw /\
    key_relative_h (built_layer 2 2 2 true 2 2) = Some krh /\
    softmax_input (iota_tensor [1; 2; 2; 6]) (built_layer 2 2 2 true 2 2) =
      Ok (logits, flat_v, l') /\
    shape logits = [1; 2; 2 * 2; 2 * 2] /\
    forall b h i j i' j', b < 1 -> h < 2 -> i < 2 -> j < 2 -> i' < 2 -> j' < 2 ->
      get logits [b; h; i * 2 + j; i' * 2 + j'] =
      fadd (fadd
              (fsum 1 (fun c =>
                 fmul (fmul (get (iota_tensor [1; 2; 2; 6]) [b; i; j; h * 1 + c])
                            (frsqrt 2 2))
                      (get (iota_tensor [1; 2; 2; 6]) [b; i'; j'; 2 * 1 + h * 1 + c])))
              (fsum 1 (fun c =>
                 fmul (fmul (get (iota_tensor [1; 2; 2; 6]) [b; i; j; h * 1 + c])
                            (frsqrt 2 2))
                      (get krh [i' + (2 - 1) - i; c]))))
           (fsum 1 (fun c =>
              fmul (fmul (get (iota_tensor [1; 2; 2; 6]) [b; i; j; h * 1 + c])
                         (frsqrt 2 2))
                   (get krw [j' + (2 - 1) - j; c]))).
Proof.
  apply (@pre_softmax_logits Z Scalar_Z (iota_tensor [1; 2; 2; 6])
           (fresh_layer 2 2 2 true) (built_layer 2 2 2 true 2 2)
           (1, 1)%Z None 6%Z ramp ramp 1 2 2 2 1 1);
    try lia; try reflexivity.
Defined.

Lemma call_output_entries_witness :
  exists logits flat_v l' y,
    softmax_input (iota_tensor [1; 2; 2; 6]) (built_layer 2 2 2 true 2 2) =
      Ok (logits, flat_v, l') /\
    call (iota_tensor [1; 2; 2; 6]) (built_layer 2 2 2 true 2 2) = Ok (y, l') /\
    forall b h i j c, b < 1 -> h < 2 -> i < 2 -> j < 2 -> c < 1 ->
      get y [b; i; j; h * 1 + c] =
      fsum (2 * 2) (fun p =>
        fmul (nth p (softmax_row
                       (map (fun k => get logits [b; h; i * 2 + j; k])
                            (seq 0 (2 * 2)))) fzero)
             (get (iota_tensor [1; 2; 2; 6]) [b; p / 2; p mod 2; 2 * (2 * 1) + h * 1 + c])).
Proof.
  apply (@call_output_entries Z Scalar_Z (iota_tensor [1; 2; 2; 6])
           (fresh_layer 2 2 2 true) (built_layer 2 2 2 true 2 2) true
           (1, 1)%Z None 6%Z ramp ramp 1 2 2 2 1 1);
    try lia; try reflexivity.
Defined.

Lemma call_channels_first_transposes_witness :
  axis (built_layer_cf 2 2 2 true 2 2) = 1%Z /\
  call (iota_tensor [1; 6; 2; 2]) (built_layer_cf 2 2 2 true 2 2) =
  call_transposed (iota_tensor [1; 6; 2; 2]) (built_layer_cf 2 2 2 true 2 2).
Proof.
  split; [reflexivity|].
  apply (@call_channels_first_transposes Z Scalar_Z (iota_tensor [1; 6; 2; 2])
           (built_layer_cf 2 2 2 true 2 2)).
  reflexivity.
Defined.

Lemma channels_first_call_output_witness :
  (exists x' y' l1 y l',
     K_permute_dimensions (iota_tensor [1; 6; 2; 2]) [0; 2; 3; 1] = Ok x' /\
     call x' (set_axis (built_layer_cf 2 2 2 true 2 2) (-1)) = Ok (y', l1) /\
     call (iota_tensor [1; 6; 2; 2]) (built_layer_cf 2 2 2 true 2 2) = Ok (y, l') /\
     shape y = [1; 2 * 1; 2; 2] /\ wf y /\
     forall b c i j, b < 1 -> c < 2 * 1 -> i < 2 -> j < 2 ->
       get y [b; c; i; j] = get y' [b; i; j; c]) /\
  compute_output_shape (built_layer_cf 2 2 2 true 2 2)
    [None; Some 6; Some 2; Some 2]%Z = Ok [None; Some 2; Some 2; Some 2]%Z.
Proof.
  apply (@channels_first_call_output Z Scalar_Z (iota_tensor [1; 6; 2; 2])
           (fresh_layer_cf 2 2 2 true) (built_layer_cf 2 2 2 true 2 2) true
           (1, 1)%Z None ramp ramp 1 2 2 2 1 1);
    try lia; try reflexivity.
Defined.

Lemma call_records_input_extents_witness :
  exists y l',
    call (iota_tensor [1; 6; 2; 2]) (built_layer_cf 2 2 2 true 2 2) = Ok (y, l') /\
    l' = set_spatial (built_layer_cf 2 2 2 true 2 2) (Some 1%Z) (Some 2%Z) (Some 2%Z).
Proof.
  eexists. eexists.
  refine ((fun Hc => conj Hc
             (@call_records_input_extents Z Scalar_Z (iota_tensor [1; 6; 2; 2]) _
                (built_layer_cf 2 2 2 true 2 2) _ 1 2 2 6
                (or_intror (conj eq_refl eq_refl)) Hc)) _).
  vm_compute. reflexivity.
Defined.

Lemma call_rejects_channel_count_witness :
  5 <> 2 * 2 + 2 /\
  call (iota_tensor [1; 2; 2; 5]) (built_layer 2 2 2 true 2 2) = Err InvalidArgumentError.
Proof.
  split; [lia|].
  apply (@call_rejects_channel_count Z Scalar_Z (iota_tensor [1; 2; 2; 5])
           (built_layer 2 2 2 true 2 2) 1 2 2 5 2 2);
    try lia; reflexivity.
Defined.

Lemma rel_to_abs_accepts_exactly_witness :
  ((exists y, rel_to_abs (iota_tensor [1; 1; 3; 5]) = Ok y) <-> 1 <= 3 /\ 5 = 2 * 3 - 1) /\
  (~ (1 <= 3 /\ 5 = 2 * 3 - 1) ->
   rel_to_abs (iota_tensor [1; 1; 3; 5]) = Err InvalidArgumentError).
Proof.
  apply (@rel_to_abs_accepts_exactly Z Scalar_Z (iota_tensor [1; 1; 3; 5]) 1 1 3 5);
    [reflexivity|reflexivity|lia].
Defined.

(* a width of 5 where 2 * 3 - 1 = 5 is expected is fine, a width of 4 is not *)
Lemma rel_to_abs_rejects_even_width :
  rel_to_abs (iota_tensor [1; 1; 3; 4]) = Err InvalidArgumentError.
Proof. vm_compute. reflexivity. Qed.

Lemma build_allocates_relative_tables_witness :
  exists krw krh,
    key_relative_w (built_layer_cf 2 2 2 true 2 3) = Some krw /\
    key_relative_h (built_layer_cf 2 2 2 true 2 3) = Some krh /\
    shape krw = [2 * 3 - 1; 1] /\ shape krh = [2 * 2 - 1; 1] /\
    wf krw /\ wf krh /\
    (forall m c, m < 2 * 3 - 1 -> c < 1 ->
       get krw [m; c] = ramp (frsqrt 1 1) (m * 1 + c)) /\
    (forall m c, m < 2 * 2 - 1 -> c < 1 ->
       get krh [m; c] = ramp (frsqrt 1 1) (m * 1 + c)).
Proof.
  apply (@build_allocates_relative_tables Z Scalar_Z
           (fresh_layer_cf 2 2 2 true) (built_layer_cf 2 2 2 true 2 3) channels_first
           (1, 1)%Z None ramp ramp 6%Z 2 3 2 1 1);
    try lia; try reflexivity.
Defined.

Lemma build_depth_below_heads_witness :
  (0 <= 2 < 4)%Z /\
  build (fresh_layer 2 4 4 true) [None; Some 8; Some 8; Some 8]%Z ramp ramp =
  Err ZeroDivisionError.
Proof.
  split; [lia|].
  apply (@build_depth_below_heads Z Scalar_Z (fresh_layer 2 4 4 true)
           None (Some 8%Z) (Some 8%Z) (Some 8%Z) 8%Z ramp ramp);
    [reflexivity|simpl; lia|reflexivity].
Defined.

Lemma build_needs_known_extents_witness :
  (0 < 4 <= 4)%Z /\
  build (fresh_layer 4 4 4 true) [None; None; None; Some 12%Z] ramp ramp = Err TypeError.
Proof.
  split; [lia|].
  apply (@build_needs_known_extents Z Scalar_Z (fresh_layer 4 4 4 true)
           None None None (Some 12%Z) ramp ramp);
    [reflexivity|simpl; lia|left; reflexivity|intros w Hw; discriminate Hw].
Defined.

Lemma call_rejects_indivisible_depth_v_witness :
  0 < 2 /\ 3 mod 2 <> 0 /\ 0 < 1 * 2 * 2 /\
  call (iota_tensor [1; 2; 2; 7]) (built_layer 2 3 2 true 2 2) = Err InvalidArgumentError.
Proof.
  split; [lia|]. split; [discriminate|]. split; [simpl; lia|].
  apply (@call_rejects_indivisible_depth_v Z Scalar_Z (iota_tensor [1; 2; 2; 7])
           (built_layer 2 3 2 true 2 2) [None; Some 2; Some 2; Some 7]%Z 1 2 2 2 1 3);
    try reflexivity; try (simpl; lia).
Defined.

Lemma combine_then_split_roundtrip_witness :
  exists z l',
    combine_heads_2d (iota_tensor [1; 2; 2; 2; 3]) = Ok z /\
    shape z = [1; 2; 2; 2 * 3] /\
    split_heads_2d z (built_layer 2 2 2 true 2 2) = Ok (iota_tensor [1; 2; 2; 2; 3], l').
Proof.
  apply (@combine_then_split_roundtrip Z Scalar_Z (iota_tensor [1; 2; 2; 2; 3])
           (built_layer 2 2 2 true 2 2) [None; Some 2; Some 2; Some 6]%Z 1 2 2 2 3);
    try reflexivity; lia.
Defined.

Lemma get_config_entries_witness :
  NoDup (map fst base_config_attn) /\
  map (dict_get (get_config (fresh_layer 4 2 4 true) base_config_attn)) config_keys =
    [Some (CInt 4); Some (CInt 2); Some (CInt 4); Some (CBool true); Some (CPair 1 1)] /\
  forall k, ~ In k config_keys ->
    dict_get (get_config (fresh_layer 4 2 4 true) base_config_attn) k =
    dict_get base_config_attn k.
Proof.
  assert (Hnd : NoDup (map fst base_config_attn)).
  { repeat constructor; simpl; intuition discriminate. }
  split; [exact Hnd|].
  apply (@get_config_entries Z (fresh_layer 4 2 4 true) base_config_attn Hnd).
Defined.

Lemma compute_output_shape_replaces_channel_witness :
  (3 < 4 ->
   exists out,
     compute_output_shape (built_layer 4 4 4 true 8 8)
       [None; Some 8; Some 8; Some 12]%Z = Ok out /\
     length out = 4 /\
     nth_error out 3 = Some (Some 4%Z) /\
     forall i, i <> 3 -> nth_error out i = nth_error [None; Some 8; Some 8; Some 12]%Z i) /\
  (4 <= 3 ->
   compute_output_shape (built_layer 4 4 4 true 8 8)
     [None; Some 8; Some 8; Some 12]%Z = Err IndexError).
Proof.
  apply (@compute_output_shape_replaces_channel Z (built_layer 4 4 4 true 8 8)
           [None; Some 8; Some 8; Some 12]%Z).
Defined.

(* an empty shape has no channel entry *)
Lemma compute_output_shape_empty :
  compute_output_shape (fresh_layer 4 4 4 true) [] = Err IndexError.
Proof. reflexivity. Qed.

Lemma call_image_independent_witness :
  exists y1 l1 y2 l2,
    call (iota_tensor [1; 2; 2; 6]) (built_layer 2 2 2 true 2 2) = Ok (y1, l1) /\
    call (iota_tensor [3; 2; 2; 6]) (built_layer 2 2 2 true 2 2) = Ok (y2, l2) /\
    forall i j c, i < 2 -> j < 2 -> c < 2 * 1 ->
      get y1 [0; i; j; c] = get y2 [0; i; j; c].
Proof.
  apply (@call_image_independent Z Scalar_Z (iota_tensor [1; 2; 2; 6])
           (iota_tensor [3; 2; 2; 6]) (fresh_layer 2 2 2 true)
           (built_layer 2 2 2 true 2 2) true (1, 1)%Z None 6%Z ramp ramp
           1 3 0 0 2 2 2 1 1);
    try lia; try reflexivity.
  intros i j c Hi Hj Hc.
  assert (Hi' : i = 0 \/ i = 1) by lia.
  assert (Hj' : j = 0 \/ j = 1) by lia.
  assert (Hc' : c = 0 \/ c = 1 \/ c = 2 \/ c = 3 \/ c = 4 \/ c = 5) by lia.
  destruct Hi' as [->| ->], Hj' as [->| ->],
    Hc' as [->|[->|[->|[->|[->| ->]]]]]; reflexivity.
Defined.
